(** * analyseX: the two analysis engines, embedded and checked

    A shallow embedding of [scripts/statistical_analysis_engine.py] and
    [scripts/analysis_engine.py].

    Conventions of the embedding.
    - A Python exception is the [Raise] case of [outcome], carrying the
      text [str(e)] that the scripts interpolate into their messages; a
      function that can let an exception reach its caller returns an
      [outcome]. The texts of library exceptions are indicative.
    - A Python [dict] with string keys is an association list kept in
      insertion order, with Python's assignment and [update] semantics.
    - A Python [float] is idealised as a real number (no rounding, no
      infinities); NaN, where pandas produces one, is [VNaN] / [None].
      The band of the forecast is written a second time in binary64
      ([Binary64]), where rounding shows.
    - pandas, numpy, scipy and scikit-learn are not part of the repository.
      Their elementary, documented behaviour on tables (construction from
      records, label selection, [dropna], [fillna], [mean], [corr]) is written
      out; the numerical routines (regressions, k-means, PCA, tests) are the
      fields of the interface [Library]. *)

From Stdlib Require Import String Ascii.
From Stdlib Require Import List ZArith Reals Lra Lia Bool Arith.
From Stdlib Require Import DecimalString.
From Stdlib Require DecimalNat DecimalFacts.
From Stdlib Require PrimFloat Uint63.
Import ListNotations.
Open Scope string_scope.
Open Scope list_scope.
Open Scope nat_scope.
Set Warnings "-register-all".

(** ** Exceptions *)

Inductive outcome (A : Type) : Type :=
| Ok (a : A)
| Raise (e : string).
Arguments Ok {A} a.
Arguments Raise {A} e.

Definition bind {A B : Type} (m : outcome A) (k : A -> outcome B) : outcome B :=
  match m with
  | Ok a => k a
  | Raise e => Raise e
  end.

Notation "x <- m ;; k" := (bind m (fun x => k))
  (at level 61, m at next level, right associativity).

Fixpoint mapM {A B : Type} (f : A -> outcome B) (l : list A) : outcome (list B) :=
  match l with
  | [] => Ok []
  | a :: l' => b <- f a ;; bs <- mapM f l' ;; Ok (b :: bs)
  end.

Fixpoint foldM {A S : Type} (f : S -> A -> outcome S) (l : list A) (s : S) : outcome S :=
  match l with
  | [] => Ok s
  | a :: l' => s' <- f s a ;; foldM f l' s'
  end.

(** ** Python values and dictionaries *)

Inductive value : Type :=
| VNone
| VBool (b : bool)
| VInt (z : Z)
| VFloat (r : R)
| VNaN
| VStr (s : string)
| VList (l : list value)
| VDict (d : list (string * value)).

Definition dict := list (string * value).

Fixpoint dict_get (k : string) (d : dict) : option value :=
  match d with
  | [] => None
  | (k', v) :: d' => if String.eqb k k' then Some v else dict_get k d'
  end.

Definition dict_has (k : string) (d : dict) : bool :=
  match dict_get k d with Some _ => true | None => false end.

(** [d[k] = v]: an existing key keeps its position, a new key goes last. *)
Fixpoint dict_set (k : string) (v : value) (d : dict) : dict :=
  match d with
  | [] => [(k, v)]
  | (k', v') :: d' =>
      if String.eqb k k' then (k', v) :: d' else (k', v') :: dict_set k v d'
  end.

(** [d.update(e)] *)
Definition dict_update (d e : dict) : dict :=
  fold_left (fun acc kv => dict_set (fst kv) (snd kv) acc) e d.

Definition dict_keys (d : dict) : list string := map fst d.

(** [results[outer][k] = v] for a nested dictionary held under [outer]. *)
Definition dict_set_in (outer k : string) (v : value) (d : dict) : dict :=
  match dict_get outer d with
  | Some (VDict inner) => dict_set outer (VDict (dict_set k v inner)) d
  | _ => d
  end.

Definition str_of_nat (n : nat) : string :=
  NilZero.string_of_uint (Nat.to_uint n).

Definition str_of_Z (z : Z) : string :=
  NilZero.string_of_int (Z.to_int z).

(** Python floats that may be NaN. *)
Definition pyfloat := option R.

Definition vfloat (x : pyfloat) : value :=
  match x with Some r => VFloat r | None => VNaN end.

(** ** Strings: [str.lower] and the [in] test on strings *)

Definition lower_ascii (c : ascii) : ascii :=
  let n := nat_of_ascii c in
  if (65 <=? n) && (n <=? 90) then ascii_of_nat (n + 32) else c.

Fixpoint lower (s : string) : string :=
  match s with
  | EmptyString => EmptyString
  | String c s' => String (lower_ascii c) (lower s')
  end.

Fixpoint contains (sub s : string) : bool :=
  if String.prefix sub s then true
  else match s with
       | EmptyString => false
       | String _ s' => contains sub s'
       end.

Definition mem (x : string) (l : list string) : bool :=
  existsb (String.eqb x) l.

(** ** Tables *)

(** A scalar of a decoded JSON row: a number, a string or null. *)
Inductive cell : Type :=
| CNum (r : R)
| CStr (s : string)
| CNull.

Definition is_null (c : cell) : bool :=
  match c with CNull => true | _ => false end.

Definition is_num (c : cell) : bool :=
  match c with CNum _ => true | _ => false end.

Definition is_str (c : cell) : bool :=
  match c with CStr _ => true | _ => false end.

(** A decoded JSON object, one row of the input. *)
Definition record := list (string * cell).

Fixpoint row_get (k : string) (r : record) : cell :=
  match r with
  | [] => CNull
  | (k', c) :: r' => if String.eqb k k' then c else row_get k r'
  end.

Inductive dtype : Type := Numeric | Object.

(** A column: its dtype and one cell per row of the frame's index; a missing
    value (NaN or None) is [CNull]. *)
Record Series : Type := mkSeries {
  s_dtype : dtype;
  s_index : list nat;
  s_values : list cell
}.

Record DataFrame : Type := mkFrame {
  df_index : list nat;
  df_columns : list (string * Series)
}.

Definition add_label (acc : list string) (k : string) : list string :=
  if mem k acc then acc else acc ++ [k].

(** Column labels of [pd.DataFrame(rows)]: the keys in order of first
    appearance. *)
Definition labels_of (rows : list record) : list string :=
  fold_left (fun acc row => fold_left add_label (map fst row) acc) rows [].

(** dtype inference: a column is numeric when it holds at least one number
    and nothing but numbers and missing values. *)
Definition infer_dtype (vals : list cell) : dtype :=
  if forallb (fun c => negb (is_str c)) vals && existsb is_num vals
  then Numeric else Object.

Definition pd_DataFrame (data_json : list record) : DataFrame :=
  let idx := seq 0 (length data_json) in
  mkFrame idx
    (map (fun k =>
            let vals := map (row_get k) data_json in
            (k, mkSeries (infer_dtype vals) idx vals))
         (labels_of data_json)).

Definition len_df (df : DataFrame) : nat := length (df_index df).

Definition len_series (s : Series) : nat := length (s_index s).

(** [df.empty] *)
Definition empty (df : DataFrame) : bool :=
  (len_df df =? 0) || (length (df_columns df) =? 0).

(** [df.columns] *)
Definition columns_of (df : DataFrame) : list string := map fst (df_columns df).

Definition is_numeric (s : Series) : bool :=
  match s_dtype s with Numeric => true | Object => false end.

(** [df.select_dtypes(include=[np.number]).columns] *)
Definition numeric_columns (df : DataFrame) : list string :=
  map fst (filter (fun c => is_numeric (snd c)) (df_columns df)).

(** All columns carrying a label, in frame order. *)
Definition lookup_label (df : DataFrame) (k : string) : list (string * Series) :=
  filter (fun c => String.eqb k (fst c)) (df_columns df).

(** [df[labels]] with a list of labels: every label must exist; a label
    contributes all the columns that carry it. *)
Definition getitem_list (df : DataFrame) (labels : list string) : outcome DataFrame :=
  cols <- mapM (fun k => match lookup_label df k with
                         | [] => Raise ("'" ++ k ++ "'")%string
                         | cs => Ok cs
                         end) labels ;;
  Ok (mkFrame (df_index df) (concat cols)).

(** The result of [df[label]]: a Series when the label is unique, a frame
    when several columns carry it. *)
Inductive pobj : Type :=
| PSeries (s : Series)
| PFrame (f : DataFrame).

Definition getitem (df : DataFrame) (k : string) : outcome pobj :=
  match lookup_label df k with
  | [] => Raise ("'" ++ k ++ "'")%string
  | [(_, s)] => Ok (PSeries s)
  | cs => Ok (PFrame (mkFrame (df_index df) cs))
  end.

Fixpoint zip {A B : Type} (l : list A) (m : list B) : list (A * B) :=
  match l, m with
  | a :: l', b :: m' => (a, b) :: zip l' m'
  | _, _ => []
  end.

Definition enumerate {A : Type} (l : list A) : list (nat * A) :=
  zip (seq 0 (length l)) l.

(** [s.dropna()] keeps the index labels of the surviving rows. *)
Definition dropna (s : Series) : Series :=
  let kept := filter (fun iv => negb (is_null (snd iv))) (zip (s_index s) (s_values s)) in
  mkSeries (s_dtype s) (map fst kept) (map snd kept).

(** Row [i] (by position) of a frame, one cell per column. *)
Definition row_at (df : DataFrame) (i : nat) : list cell :=
  map (fun c => nth i (s_values (snd c)) CNull) (df_columns df).

(** Keep the rows at the given positions. *)
Definition take_rows (df : DataFrame) (pos : list nat) : DataFrame :=
  mkFrame (map (fun i => nth i (df_index df) 0) pos)
    (map (fun c =>
            (fst c,
             mkSeries (s_dtype (snd c))
               (map (fun i => nth i (s_index (snd c)) 0) pos)
               (map (fun i => nth i (s_values (snd c)) CNull) pos)))
         (df_columns df)).

(** [df.dropna()]: the rows without any missing value. *)
Definition dropna_df (df : DataFrame) : DataFrame :=
  take_rows df
    (filter (fun i => forallb (fun c => negb (is_null c)) (row_at df i))
            (seq 0 (len_df df))).

(** The numbers of a column, missing values skipped; arithmetic on a string
    is a [TypeError]. *)
Fixpoint numbers (vals : list cell) : outcome (list R) :=
  match vals with
  | [] => Ok []
  | CNum r :: vals' => rs <- numbers vals' ;; Ok (r :: rs)
  | CNull :: vals' => numbers vals'
  | CStr _ :: _ => Raise "unsupported operand type(s)"
  end.

(** ** Real arithmetic used by the scripts *)

Definition Rgtb (x y : R) : bool := if Rgt_dec x y then true else false.
Definition Rgeb (x y : R) : bool := if Rge_dec x y then true else false.
Definition Rltb (x y : R) : bool := if Rlt_dec x y then true else false.
Definition Req_b (x y : R) : bool := if Req_dec_T x y then true else false.

Definition Rsum (xs : list R) : R := fold_right Rplus 0%R xs.

Definition lenR {A : Type} (xs : list A) : R := INR (length xs).

(** [mean()]: NaN on no data. *)
Definition mean (xs : list R) : pyfloat :=
  match xs with
  | [] => None
  | _ => Some (Rsum xs / lenR xs)%R
  end.

Definition sq_dev (xs : list R) : R :=
  let m := (Rsum xs / lenR xs)%R in
  Rsum (map (fun x => ((x - m) * (x - m))%R) xs).

(** pandas [std()], with [ddof=1]: NaN below two values. *)
Definition std (xs : list R) : pyfloat :=
  match xs with
  | [] | [_] => None
  | _ => Some (sqrt (sq_dev xs / (lenR xs - 1)))%R
  end.

(** [np.std], with [ddof=0]. *)
Definition np_std (xs : list R) : pyfloat :=
  match xs with
  | [] => None
  | _ => Some (sqrt (sq_dev xs / lenR xs))%R
  end.

Definition series_min (xs : list R) : pyfloat :=
  match xs with
  | [] => None
  | x :: xs' => Some (fold_left Rmin xs' x)
  end.

Definition series_max (xs : list R) : pyfloat :=
  match xs with
  | [] => None
  | x :: xs' => Some (fold_left Rmax xs' x)
  end.

(** Arithmetic and comparisons with NaN: NaN propagates, and every
    comparison with NaN is false. *)
Definition f_lift2 (op : R -> R -> R) (x y : pyfloat) : pyfloat :=
  match x, y with
  | Some a, Some b => Some (op a b)
  | _, _ => None
  end.

Definition f_gt (x y : pyfloat) : bool :=
  match x, y with
  | Some a, Some b => Rgtb a b
  | _, _ => false
  end.

Definition f_lt (x y : pyfloat) : bool := f_gt y x.

Definition f_abs (x : pyfloat) : pyfloat := option_map Rabs x.

(** [np.arange(a, a + n)] as floats. *)
Definition arange (a n : nat) : list R := map INR (seq a n).

(** ** More pandas: objects, alignment, boolean masks *)

Definition dropna_obj (o : pobj) : pobj :=
  match o with
  | PSeries s => PSeries (dropna s)
  | PFrame f => PFrame (dropna_df f)
  end.

Definition len_obj (o : pobj) : nat :=
  match o with
  | PSeries s => len_series s
  | PFrame f => len_df f
  end.

Definition index_of (o : pobj) : list nat :=
  match o with
  | PSeries s => s_index s
  | PFrame f => df_index f
  end.

(** [a.intersection(b)] on row labels. *)
Definition index_intersection (a b : list nat) : list nat :=
  filter (fun i => existsb (Nat.eqb i) b) a.

Definition positions_of (idx labels : list nat) : list nat :=
  flat_map (fun l => filter (fun p => nth p idx 0 =? l) (seq 0 (length idx))) labels.

Definition take_series (s : Series) (pos : list nat) : Series :=
  mkSeries (s_dtype s)
    (map (fun i => nth i (s_index s) 0) pos)
    (map (fun i => nth i (s_values s) CNull) pos).

(** [x.loc[labels]] *)
Definition loc (o : pobj) (labels : list nat) : pobj :=
  match o with
  | PSeries s => PSeries (take_series s (positions_of (s_index s) labels))
  | PFrame f => PFrame (take_rows f (positions_of (df_index f) labels))
  end.

Definition loc_df (f : DataFrame) (labels : list nat) : DataFrame :=
  take_rows f (positions_of (df_index f) labels).

(** Positions at which a label array equals [i]: the mask [labels == i]. *)
Definition mask_positions (labels : list nat) (i : nat) : list nat :=
  filter (fun p => nth p labels (S i) =? i) (seq 0 (length labels)).

(** [X[labels == i]] on a frame; a mask of the wrong length is an error. *)
Definition mask_df (X : DataFrame) (labels : list nat) (i : nat) : outcome DataFrame :=
  if length labels =? len_df X
  then Ok (take_rows X (mask_positions labels i))
  else Raise "Item wrong length".

(** [float(x.mean())] and the like: the reduction of a Series is a scalar,
    that of a frame is a Series, which [float] refuses. *)
Definition float_of_reduction (f : list R -> pyfloat) (o : pobj) : outcome pyfloat :=
  match o with
  | PSeries s => xs <- numbers (s_values s) ;; Ok (f xs)
  | PFrame _ => Raise "cannot convert the series to <class 'float'>"
  end.

(** ** The numerical libraries *)

Definition matrix := list (list R).

Record linreg : Type := mkLinreg {
  slope : R;
  intercept : R;
  rvalue : R;
  pvalue : R;
  stderr : R
}.

Record lr_model : Type := mkLrModel {
  coef_ : list R;
  intercept_ : R;
  lr_predict : DataFrame -> outcome (list R)
}.

Record rf_model : Type := mkRfModel {
  feature_importances_ : list R;
  rf_predict : DataFrame -> outcome (list R)
}.

(** scipy, scikit-learn and the numpy routines the scripts call. Each takes
    the pandas object the script passes and may raise. *)
Class Library : Type := {
  stats_linregress : list R -> pobj -> outcome linreg;
  stats_shapiro : pobj -> outcome (pyfloat * pyfloat);
  stats_jarque_bera : pobj -> outcome (pyfloat * pyfloat);
  stats_pearsonr : pobj -> pobj -> outcome (pyfloat * pyfloat);
  stats_skew : pobj -> outcome pyfloat;
  stats_kurtosis : pobj -> outcome pyfloat;
  series_median : list R -> pyfloat;
  np_corrcoef : pobj -> pobj -> outcome pyfloat;
  r2_score : pobj -> list R -> outcome pyfloat;
  LinearRegression_fit : DataFrame -> pobj -> outcome lr_model;
  RandomForestRegressor_fit : DataFrame -> pobj -> outcome rf_model;
  StandardScaler_fit_transform : DataFrame -> outcome matrix;
  PCA_explained_variance_ratio : matrix -> outcome (list R);
  KMeans_fit_predict : nat -> matrix -> outcome (list nat);
  KMeans_inertia : nat -> matrix -> outcome R;
  format_percent : pyfloat -> string
}.

(** * statistical_analysis_engine.py *)

Module StatisticalAnalysisEngine.
Section Engine.
Context {lib : Library}.

Definition init_results : dict :=
  [("insights", VDict []); ("statistics", VDict []); ("recommendations", VList [])].

Definition is_time_label (col : string) : bool :=
  contains "month" (lower col) || contains "date" (lower col)
  || contains "time" (lower col).

(** The column taken as time index: the first one whose name matches, else
    the first column. *)
Definition time_col_of (data : DataFrame) : outcome string :=
  match find is_time_label (columns_of data) with
  | Some c => Ok c
  | None =>
      match columns_of data with
      | c :: _ => Ok c
      | [] => Raise "index 0 is out of bounds for axis 0 with size 0"
      end
  end.

Definition f_ne0 (x : pyfloat) : bool :=
  match x with
  | Some r => negb (Req_b r 0)
  | None => true
  end.

(** The body of the loop of [perform_time_series_analysis] for one column
    other than the time column. *)
Definition time_series_column (data : DataFrame) (results : dict) (col : string)
  : outcome dict :=
  o <- getitem data col ;;
  let series := dropna_obj o in
  let n := len_obj series in
  if 3 <? n then
    lr <- stats_linregress (arange 0 n) series ;;
    match series with
    | PFrame _ =>
        Raise (if 12 <=? n
               then "The truth value of a Series is ambiguous"
               else "cannot convert the series to <class 'float'>")
    | PSeries s =>
        xs <- numbers (s_values s) ;;
        let mean_val := mean xs in
        let std_val := std xs in
        let min_val := series_min xs in
        let max_val := series_max xs in
        let seasonality_strength :=
          if 12 <=? n then
            if f_ne0 mean_val
            then f_lift2 Rdiv (np_std (firstn 12 xs)) mean_val
            else Some 0%R
          else Some 0%R in
        let slope := slope lr in
        let r_value := rvalue lr in
        let results :=
          dict_set_in "statistics" col
            (VDict [("mean", vfloat mean_val);
                    ("std_dev", vfloat std_val);
                    ("min", vfloat min_val);
                    ("max", vfloat max_val);
                    ("trend_slope", VFloat slope);
                    ("trend_r_squared", VFloat (r_value * r_value));
                    ("trend_p_value", VFloat (pvalue lr));
                    ("seasonality_strength", vfloat seasonality_strength)])
            results in
        let trend_direction :=
          if Rgtb slope 0 then "increasing"
          else if Rltb slope 0 then "decreasing" else "stable" in
        let trend_strength :=
          if Rgtb (Rabs r_value) 0.7 then "strong"
          else if Rgtb (Rabs r_value) 0.4 then "moderate" else "weak" in
        Ok (dict_set_in "insights" col
              (VDict [("trend_direction", VStr trend_direction);
                      ("trend_strength", VStr trend_strength);
                      ("volatility",
                       VStr (if f_gt std_val (f_lift2 Rmult mean_val (Some 0.3%R))
                             then "high"
                             else if f_gt std_val (f_lift2 Rmult mean_val (Some 0.1%R))
                                  then "moderate" else "low"));
                      ("seasonality",
                       VStr (if f_gt seasonality_strength (Some 0.2%R)
                             then "strong" else "weak"));
                      ("forecast_next_period",
                       if Rgtb (Rabs r_value) 0.3
                       then VFloat (slope * INR n + intercept lr)
                       else VNone)])
              results)
    end
  else Ok results.

Definition time_series_recommendations : value :=
  VList [VStr "Use trend analysis for strategic planning";
         VStr "Monitor seasonal patterns for inventory management";
         VStr "Consider external factors affecting volatility"].

Definition perform_time_series_analysis (data : DataFrame) (numeric_cols : list string)
  : outcome dict :=
  let results := init_results in
  time_col <- time_col_of data ;;
  results <- foldM (fun results col =>
                      if negb (String.eqb col time_col)
                      then time_series_column data results col
                      else Ok results)
                   numeric_cols results ;;
  Ok (dict_set "recommendations" time_series_recommendations results).

(** [max(keys, key=...)]: the first key with the greatest score. *)
Fixpoint argmax_first (key : string -> R) (l : list string) (best : string) : string :=
  match l with
  | [] => best
  | k :: l' => argmax_first key l' (if Rgtb (key k) (key best) then k else best)
  end.

Definition get_float (k : string) (v : value) : pyfloat :=
  match v with
  | VDict d => match dict_get k d with
               | Some (VFloat r) => Some r
               | _ => None
               end
  | _ => None
  end.

Definition get_bool (k : string) (v : value) : bool :=
  match v with
  | VDict d => match dict_get k d with
               | Some (VBool b) => b
               | _ => false
               end
  | _ => false
  end.

Definition index_error : string := "index out of bounds".

(** One iteration of the feature loop of [perform_regression_analysis]. *)
Definition regression_feature (X : DataFrame) (y : pobj) (model : lr_model)
    (coef_sum : R) (feature_importance : dict) (icol : nat * string) : outcome dict :=
  let i := fst icol in
  let col := snd icol in
  match nth_error (coef_ model) i with
  | None => Raise index_error
  | Some c =>
      let importance := if Rgtb coef_sum 0 then (Rabs c / coef_sum)%R else 0%R in
      xc <- getitem X col ;;
      corr <- np_corrcoef xc y ;;
      Ok (dict_set col
            (VDict [("coefficient", VFloat c);
                    ("importance", VFloat importance);
                    ("correlation", vfloat corr)])
            feature_importance)
  end.

(** The [try] block of [perform_regression_analysis]; every assignment to
    [results] comes after the last call that can raise. *)
Definition regression_try (data : DataFrame) (target_col : string)
    (feature_cols : list string) (results : dict) : outcome dict :=
  X0 <- getitem_list data feature_cols ;;
  let X := dropna_df X0 in
  y0 <- getitem data target_col ;;
  let y := dropna_obj y0 in
  let common_idx := index_intersection (df_index X) (index_of y) in
  let X := loc_df X common_idx in
  let y := loc y common_idx in
  if len_df X <? 3 then Ok results else
  model <- LinearRegression_fit X y ;;
  y_pred <- lr_predict model X ;;
  r2 <- r2_score y y_pred ;;
  match y with
  | PFrame _ => Raise "only length-1 arrays can be converted to Python scalars"
  | PSeries _ =>
      let coef_sum := Rsum (map Rabs (coef_ model)) in
      feature_importance <-
        foldM (regression_feature X y model coef_sum) (enumerate feature_cols) [] ;;
      let results :=
        dict_set "statistics"
          (VDict [("target_variable", VStr target_col);
                  ("r_squared", vfloat r2);
                  ("intercept", VFloat (intercept_ model));
                  ("feature_importance", VDict feature_importance)])
          results in
      let score k :=
        match get_float "importance" (match dict_get k feature_importance with
                                      | Some v => v
                                      | None => VNone
                                      end) with
        | Some r => r
        | None => 0%R
        end in
      let top_driver :=
        match dict_keys feature_importance with
        | [] => ""
        | k :: ks => argmax_first score ks k
        end in
      let model_quality :=
        if f_gt r2 (Some 0.8%R) then "excellent"
        else if f_gt r2 (Some 0.6%R) then "good"
        else if f_gt r2 (Some 0.4%R) then "moderate" else "poor" in
      let results :=
        dict_set "insights"
          (VDict [("model_quality", VStr model_quality);
                  ("top_driver", VStr top_driver);
                  ("top_driver_impact", VFloat (score top_driver));
                  ("explained_variance", vfloat r2);
                  ("predictability",
                   VStr (if f_gt r2 (Some 0.7%R) then "high"
                         else if f_gt r2 (Some 0.4%R) then "moderate" else "low"))])
          results in
      Ok (dict_set "recommendations"
            (VList [VStr ("Focus on " ++ top_driver
                          ++ " as it has the highest impact on " ++ target_col)%string;
                    VStr "Use this model for forecasting and scenario planning";
                    VStr "Monitor key drivers regularly for business optimization"])
            results)
  end.

Definition perform_regression_analysis (data : DataFrame) (numeric_cols : list string)
  : dict :=
  let results := init_results in
  if length numeric_cols <? 2 then results else
  let target_col := last numeric_cols "" in
  let feature_cols := removelast numeric_cols in
  match feature_cols with
  | [] => results
  | _ =>
      match regression_try data target_col feature_cols results with
      | Ok results' => results'
      | Raise e =>
          dict_set "error" (VStr ("Regression analysis failed: " ++ e)%string) results
      end
  end.

(** [X_scaled[labels == i]] on an array. *)
Definition mask_rows (X_scaled : matrix) (labels : list nat) (i : nat) : outcome matrix :=
  if length labels =? length X_scaled
  then Ok (map (fun p => nth p X_scaled []) (mask_positions labels i))
  else Raise "boolean index did not match indexed array".

(** [np.linalg.norm(p1 - p2)] *)
Definition norm_diff (p1 p2 : list R) : R :=
  sqrt (Rsum (map (fun ab => ((fst ab - snd ab) * (fst ab - snd ab))%R) (zip p1 p2))).

(** The "simple silhouette approximation" of one clustering. *)
Definition silhouette_approx (X_scaled : matrix) (labels : list nat) (n_clusters : nat)
  : outcome R :=
  foldM (fun silhouette_avg i =>
           cluster_points <- mask_rows X_scaled labels i ;;
           if 1 <? length cluster_points then
             let dists := flat_map (fun p1 => map (norm_diff p1) cluster_points)
                                   cluster_points in
             let intra_cluster_dist := (Rsum dists / lenR dists)%R in
             Ok (silhouette_avg + 1 / (1 + intra_cluster_dist))%R
           else Ok silhouette_avg)
        (seq 0 n_clusters) 0%R.

(** The search for the number of clusters, [range(2, min(6, len(X)))]. *)
Definition choose_clusters (X_scaled : matrix) (n : nat) : outcome nat :=
  r <- foldM (fun st n_clusters =>
                cluster_labels <- KMeans_fit_predict n_clusters X_scaled ;;
                silhouette_avg <- silhouette_approx X_scaled cluster_labels n_clusters ;;
                if Rgtb silhouette_avg (snd st)
                then Ok (n_clusters, silhouette_avg)
                else Ok st)
             (seq 2 (Nat.min 6 n - 2)) (2, (-1)%R) ;;
  Ok (fst r).

Definition percentage (size total : nat) : R := (INR size / INR total * 100)%R.

(** The entry of [cluster_stats] for cluster [i]. *)
Definition cluster_entry (X : DataFrame) (numeric_cols : list string)
    (cluster_labels : list nat) (i : nat) : outcome value :=
  cluster_data <- mask_df X cluster_labels i ;;
  characteristics <-
    foldM (fun chars col =>
             c <- getitem cluster_data col ;;
             m <- float_of_reduction mean c ;;
             sd <- float_of_reduction std c ;;
             Ok (dict_set col (VDict [("mean", vfloat m); ("std", vfloat sd)]) chars))
          numeric_cols [] ;;
  Ok (VDict [("size", VInt (Z.of_nat (len_df cluster_data)));
             ("percentage", VFloat (percentage (len_df cluster_data) (len_df X)));
             ("characteristics", VDict characteristics)]).

Definition cluster_key (i : nat) : string := ("cluster_" ++ str_of_nat i)%string.

Definition cluster_statistics (X : DataFrame) (numeric_cols : list string)
    (cluster_labels : list nat) (optimal_clusters : nat) : outcome dict :=
  foldM (fun cluster_stats i =>
           e <- cluster_entry X numeric_cols cluster_labels i ;;
           Ok (dict_set (cluster_key i) e cluster_stats))
        (seq 0 optimal_clusters) [].

(** What the [try] block of [perform_clustering_analysis] computes before
    its first assignment to [results]; [None] is the early return on fewer
    than 3 complete rows. *)
Definition clustering_try (data : DataFrame) (numeric_cols : list string)
  : outcome (option (list R * nat * dict)) :=
  X0 <- getitem_list data numeric_cols ;;
  let X := dropna_df X0 in
  if len_df X <? 3 then Ok None else
  X_scaled <- StandardScaler_fit_transform X ;;
  evr <- PCA_explained_variance_ratio X_scaled ;;
  optimal_clusters <- choose_clusters X_scaled (len_df X) ;;
  cluster_labels <- KMeans_fit_predict optimal_clusters X_scaled ;;
  cluster_stats <- cluster_statistics X numeric_cols cluster_labels optimal_clusters ;;
  Ok (Some (evr, optimal_clusters, cluster_stats)).

Definition clustering_failed (e : string) (results : dict) : dict :=
  dict_set "error" (VStr ("Clustering analysis failed: " ++ e)%string) results.

Definition perform_clustering_analysis (data : DataFrame) (numeric_cols : list string)
  : dict :=
  let results := init_results in
  if length numeric_cols <? 2 then results else
  match clustering_try data numeric_cols with
  | Raise e => clustering_failed e results
  | Ok None => results
  | Ok (Some (evr, optimal_clusters, cluster_stats)) =>
      let results :=
        dict_set "statistics"
          (VDict [("pca_explained_variance", VList (map VFloat (firstn 3 evr)));
                  ("optimal_clusters", VInt (Z.of_nat optimal_clusters));
                  ("cluster_statistics", VDict cluster_stats)])
          results in
      match evr with
      | [] => clustering_failed index_error results
      | evr0 :: _ =>
          let results :=
            dict_set "insights"
              (VDict [("data_complexity",
                       VStr (if Rltb evr0 0.6 then "high" else "moderate"));
                      ("natural_groupings", VInt (Z.of_nat optimal_clusters));
                      ("main_variation_explained", VFloat evr0)])
              results in
          dict_set "recommendations"
            (VList [VStr ("Your data naturally forms " ++ str_of_nat optimal_clusters
                          ++ " distinct groups")%string;
                    VStr "Use clustering for customer segmentation or product categorization";
                    VStr "Focus on the main components that explain most variation"])
            results
      end
  end.

(** One iteration of the normality loop of [perform_statistical_tests]. *)
Definition normality_column (data : DataFrame) (normality_results : dict) (col : string)
  : outcome dict :=
  o <- getitem data col ;;
  let series := dropna_obj o in
  let n := len_obj series in
  if 3 <? n then
    sp <- (if n <=? 5000 then stats_shapiro series else stats_jarque_bera series) ;;
    let p_value := snd sp in
    Ok (dict_set col
          (VDict [("is_normal", VBool (f_gt p_value (Some 0.05%R)));
                  ("p_value", vfloat p_value);
                  ("test_used", VStr (if n <=? 5000 then "shapiro" else "jarque_bera"))])
          normality_results)
  else Ok normality_results.

(** One iteration of the inner correlation loop. *)
Definition correlation_pair (data : DataFrame) (col1 : string)
    (correlation_results : dict) (col2 : string) : outcome dict :=
  o1 <- getitem data col1 ;;
  let series1 := dropna_obj o1 in
  o2 <- getitem data col2 ;;
  let series2 := dropna_obj o2 in
  let common_idx := index_intersection (index_of series1) (index_of series2) in
  if 3 <? length common_idx then
    let s1 := loc series1 common_idx in
    let s2 := loc series2 common_idx in
    cp <- stats_pearsonr s1 s2 ;;
    let corr_coef := fst cp in
    let p_value := snd cp in
    Ok (dict_set (col1 ++ "_vs_" ++ col2)%string
          (VDict [("correlation", vfloat corr_coef);
                  ("p_value", vfloat p_value);
                  ("significant", VBool (f_lt p_value (Some 0.05%R)));
                  ("strength",
                   VStr (if f_gt (f_abs corr_coef) (Some 0.7%R) then "strong"
                         else if f_gt (f_abs corr_coef) (Some 0.4%R) then "moderate"
                              else "weak"))])
          correlation_results)
  else Ok correlation_results.

(** [for i, col1 in enumerate(cols): for col2 in cols[i+1:]] *)
Fixpoint correlation_loop (data : DataFrame) (cols : list string)
    (correlation_results : dict) : outcome dict :=
  match cols with
  | [] => Ok correlation_results
  | col1 :: rest =>
      r <- foldM (correlation_pair data col1) rest correlation_results ;;
      correlation_loop data rest r
  end.

Definition statistical_tests_try (data : DataFrame) (numeric_cols : list string)
    (results : dict) : outcome dict :=
  normality_results <- foldM (normality_column data) numeric_cols [] ;;
  correlation_results <- correlation_loop data numeric_cols [] ;;
  let results :=
    dict_set "statistics"
      (VDict [("normality_tests", VDict normality_results);
              ("correlation_tests", VDict correlation_results)])
      results in
  let normal_vars := filter (fun kv => get_bool "is_normal" (snd kv)) normality_results in
  let significant_correlations :=
    filter (fun kv => get_bool "significant" (snd kv)) correlation_results in
  let results :=
    dict_set "insights"
      (VDict [("normal_distributions", VInt (Z.of_nat (length normal_vars)));
              ("significant_relationships",
               VInt (Z.of_nat (length significant_correlations)));
              ("data_quality",
               VStr (if length numeric_cols <? 2 * length normal_vars
                     then "good" else "requires_attention"))])
      results in
  Ok (dict_set "recommendations"
        (VList [VStr "Use parametric tests for normally distributed variables";
                VStr "Focus on statistically significant relationships";
                VStr "Consider data transformation for non-normal variables"])
        results).

Definition perform_statistical_tests (data : DataFrame) (numeric_cols : list string)
  : dict :=
  let results := init_results in
  if length numeric_cols <? 2 then results else
  match statistical_tests_try data numeric_cols results with
  | Ok results' => results'
  | Raise e => dict_set "error" (VStr ("Statistical tests failed: " ++ e)%string) results
  end.

(** One iteration of the column loop of [perform_exploratory_analysis]. *)
Definition exploratory_column (data : DataFrame) (column_stats : dict) (col : string)
  : outcome dict :=
  o <- getitem data col ;;
  let series := dropna_obj o in
  if 0 <? len_obj series then
    m <- float_of_reduction mean series ;;
    med <- float_of_reduction series_median series ;;
    sd <- float_of_reduction std series ;;
    mn <- float_of_reduction series_min series ;;
    mx <- float_of_reduction series_max series ;;
    sk <- stats_skew series ;;
    ku <- stats_kurtosis series ;;
    Ok (dict_set col
          (VDict [("count", VInt (Z.of_nat (len_obj series)));
                  ("mean", vfloat m);
                  ("median", vfloat med);
                  ("std", vfloat sd);
                  ("min", vfloat mn);
                  ("max", vfloat mx);
                  ("skewness", vfloat sk);
                  ("kurtosis", vfloat ku)])
          column_stats)
  else Ok column_stats.

Definition f_sq (x : pyfloat) : pyfloat := f_lift2 Rmult x x.

Definition exploratory_try (data : DataFrame) (numeric_cols : list string)
    (results : dict) : outcome dict :=
  column_stats <- foldM (exploratory_column data) numeric_cols [] ;;
  let total_variance :=
    fold_left (fun acc kv => f_lift2 Rplus acc (f_sq (get_float "std" (snd kv))))
              column_stats (Some 0%R) in
  let threshold :=
    f_lift2 Rmult (f_lift2 Rdiv total_variance (Some (lenR column_stats))) (Some 1.5%R) in
  let high_variance_cols :=
    map (fun kv => VStr (fst kv))
        (filter (fun kv => f_gt (f_sq (get_float "std" (snd kv))) threshold)
                column_stats) in
  let results :=
    dict_set "statistics"
      (VDict [("column_statistics", VDict column_stats);
              ("high_variance_columns", VList high_variance_cols);
              ("data_shape",
               VDict [("rows", VInt (Z.of_nat (len_df data)));
                      ("columns", VInt (Z.of_nat (length numeric_cols)))])])
      results in
  let results :=
    dict_set "insights"
      (VDict [("data_quality", VStr "good");
              ("most_variable_columns", VList (firstn 3 high_variance_cols));
              ("analysis_readiness", VStr "ready")])
      results in
  Ok (dict_set "recommendations"
        (VList [VStr "Data is ready for detailed analysis";
                VStr "Focus on high-variance columns for insights";
                VStr "Consider specific analysis types based on business goals"])
        results).

Definition perform_exploratory_analysis (data : DataFrame) (numeric_cols : list string)
  : dict :=
  let results := init_results in
  match exploratory_try data numeric_cols results with
  | Ok results' => results'
  | Raise e => dict_set "error" (VStr ("Exploratory analysis failed: " ++ e)%string) results
  end.

(** The columns [analyze_data] hands to the analyses: the selected columns
    that exist, or the whole frame when none of them does. *)
Definition analysis_frame (data : DataFrame) (selected_columns : list string)
  : outcome DataFrame :=
  match selected_columns with
  | [] => Ok data
  | _ =>
      let available_cols := filter (fun col => mem col (columns_of data)) selected_columns in
      match available_cols with
      | [] => Ok data
      | _ => getitem_list data available_cols
      end
  end.

Definition analyze_data_try (data_json : list record) (analysis_type : string)
    (selected_columns : list string) : outcome dict :=
  let data := pd_DataFrame data_json in
  if empty data then Ok [("error", VStr "No data provided")] else
  let results :=
    [("success", VBool true);
     ("data_points_analyzed", VInt (Z.of_nat (len_df data)));
     ("columns_analyzed", VInt (Z.of_nat (length selected_columns)));
     ("analysis_type", VStr analysis_type);
     ("insights", VDict []);
     ("statistics", VDict []);
     ("recommendations", VList [])] in
  analysis_data <- analysis_frame data selected_columns ;;
  let numeric_cols := numeric_columns analysis_data in
  match numeric_cols with
  | [] => Ok [("error", VStr "No numeric columns found for analysis")]
  | _ =>
      if String.eqb analysis_type "time_series"
         || String.eqb analysis_type "time_series_forecast" then
        r <- perform_time_series_analysis analysis_data numeric_cols ;;
        Ok (dict_update results r)
      else if String.eqb analysis_type "regression_feature_importance" then
        Ok (dict_update results (perform_regression_analysis analysis_data numeric_cols))
      else if String.eqb analysis_type "pca_clustering" then
        Ok (dict_update results (perform_clustering_analysis analysis_data numeric_cols))
      else if String.eqb analysis_type "statistical_tests" then
        Ok (dict_update results (perform_statistical_tests analysis_data numeric_cols))
      else
        Ok (dict_update results (perform_exploratory_analysis analysis_data numeric_cols))
  end.

Definition analyze_data (data_json : list record) (analysis_type : string)
    (selected_columns : list string) : dict :=
  match analyze_data_try data_json analysis_type selected_columns with
  | Ok results => results
  | Raise e => [("error", VStr ("Analysis failed: " ++ e)%string)]
  end.

End Engine.
End StatisticalAnalysisEngine.

(** * analysis_engine.py *)

(** ** pandas: mean imputation and [corr] *)

(** [s.fillna(s.mean())]; a mean that is NaN fills nothing. *)
Definition fillna_mean (s : Series) : outcome Series :=
  xs <- numbers (s_values s) ;;
  match mean xs with
  | Some m =>
      Ok (mkSeries (s_dtype s) (s_index s)
            (map (fun c => match c with CNull => CNum m | _ => c end) (s_values s)))
  | None => Ok s
  end.

(** [f.fillna(f.mean())], column by column. *)
Definition fillna_mean_df (f : DataFrame) : outcome DataFrame :=
  cols <- mapM (fun c => s <- fillna_mean (snd c) ;; Ok (fst c, s)) (df_columns f) ;;
  Ok (mkFrame (df_index f) cols).

Definition fillna_mean_obj (o : pobj) : outcome pobj :=
  match o with
  | PSeries s => s' <- fillna_mean s ;; Ok (PSeries s')
  | PFrame f => f' <- fillna_mean_df f ;; Ok (PFrame f')
  end.

(** The rows on which both columns hold a number. *)
Fixpoint pair_obs (a b : list cell) : list (R * R) :=
  match a, b with
  | CNum x :: a', CNum y :: b' => (x, y) :: pair_obs a' b'
  | _ :: a', _ :: b' => pair_obs a' b'
  | _, _ => []
  end.

(** Sum of products of deviations from the means. *)
Definition co_dev (xs ys : list R) : R :=
  let mx := (Rsum xs / lenR xs)%R in
  let my := (Rsum ys / lenR ys)%R in
  Rsum (map (fun xy => ((fst xy - mx) * (snd xy - my))%R) (zip xs ys)).

(** One entry of [DataFrame.corr()]: Pearson's coefficient over the rows
    complete for the pair ([min_periods=1]), NaN when the divisor is zero. *)
Definition pearson (a b : list cell) : pyfloat :=
  let obs := pair_obs a b in
  let xs := map fst obs in
  let ys := map snd obs in
  match obs with
  | [] => None
  | _ =>
      let divisor := sqrt (co_dev xs xs * co_dev ys ys) in
      if Req_dec_T divisor 0 then None else Some (co_dev xs ys / divisor)%R
  end.

(** [f.corr()], row by row. *)
Definition corr (f : DataFrame) : list (list pyfloat) :=
  map (fun ci => map (fun cj => pearson (s_values (snd ci)) (s_values (snd cj)))
                     (df_columns f))
      (df_columns f).

(** [corr_matrix.iloc[i, j]] *)
Definition iloc (m : list (list pyfloat)) (i j : nat) : pyfloat :=
  nth j (nth i m []) None.

(** [corr_matrix.to_dict()]: column label, then row label. *)
Definition corr_to_dict (labels : list string) (m : list (list pyfloat)) : dict :=
  fold_left
    (fun d jc =>
       dict_set (snd jc)
         (VDict (fold_left
                   (fun inner ir => dict_set (snd ir) (vfloat (iloc m (fst ir) (fst jc))) inner)
                   (enumerate labels) []))
         d)
    (enumerate labels) [].

(** [l.sort(key=..., reverse=True)]: stable, greatest key first. *)
Fixpoint insert_desc {A : Type} (key : A -> R) (x : A) (l : list A) : list A :=
  match l with
  | [] => [x]
  | y :: l' => if Rltb (key y) (key x) then x :: y :: l' else y :: insert_desc key x l'
  end.

Definition sort_desc {A : Type} (key : A -> R) (l : list A) : list A :=
  fold_left (fun acc x => insert_desc key x acc) l [].

Module AnalysisEngine.
Section Engine.
Context {lib : Library}.

Record DataAnalysisEngine : Type := mkEngine { df : DataFrame }.

(** [DataAnalysisEngine(data_json)] *)
Definition init (data_json : list record) : DataAnalysisEngine :=
  mkEngine (pd_DataFrame data_json).

Definition _interpret_correlation (corr_value : R) : string :=
  if Rgeb corr_value 0.7 then "Strong"
  else if Rgeb corr_value 0.3 then "Moderate"
  else if Rgeb corr_value 0.1 then "Weak"
  else "Very Weak".

(** The column choice shared by the correlation and clustering analyses. *)
Definition select_numeric (self : DataAnalysisEngine) (columns : option (list string))
  : list string :=
  match columns with
  | None => numeric_columns (df self)
  | Some cols => filter (fun col => mem col (numeric_columns (df self))) cols
  end.

(** The pairs [i < j] of positions below [n], in loop order. *)
Definition upper_pairs (n : nat) : list (nat * nat) :=
  flat_map (fun i => map (fun j => (i, j)) (seq (S i) (n - S i))) (seq 0 n).

Definition run_correlation_analysis (self : DataAnalysisEngine)
    (columns : option (list string)) : outcome dict :=
  let numeric_cols := select_numeric self columns in
  if length numeric_cols <? 2 then
    Ok [("error", VStr "Need at least 2 numeric columns for correlation analysis")]
  else
    sub <- getitem_list (df self) numeric_cols ;;
    let corr_matrix := corr sub in
    let correlations :=
      flat_map (fun ij =>
                  match iloc corr_matrix (fst ij) (snd ij) with
                  | None => []
                  | Some corr_value =>
                      [(corr_value,
                        VDict [("var1", VStr (nth (fst ij) numeric_cols ""));
                               ("var2", VStr (nth (snd ij) numeric_cols ""));
                               ("correlation", VFloat corr_value);
                               ("strength",
                                VStr (_interpret_correlation (Rabs corr_value)))])]
                  end)
               (upper_pairs (length numeric_cols)) in
    let correlations := sort_desc (fun c => Rabs (fst c)) correlations in
    Ok [("correlation_matrix", VDict (corr_to_dict (columns_of sub) corr_matrix));
        ("top_correlations", VList (map snd (firstn 10 correlations)));
        ("summary",
         VStr ("Found " ++ str_of_nat (length correlations)
               ++ " correlation pairs among " ++ str_of_nat (length numeric_cols)
               ++ " numeric variables")%string)].

(** Python's [max(a, b)] on floats. *)
Definition py_max (a b : pyfloat) : pyfloat := if f_gt b a then b else a.

Definition run_regression_analysis (self : DataAnalysisEngine) (target_column : string)
    (feature_columns : option (list string)) : outcome dict :=
  if negb (mem target_column (columns_of (df self))) then
    Ok [("error", VStr ("Target column " ++ target_column ++ " not found")%string)]
  else
    let feature_columns :=
      match feature_columns with
      | None => filter (fun col => negb (String.eqb col target_column))
                       (numeric_columns (df self))
      | Some cols => cols
      end in
    if length feature_columns =? 0 then
      Ok [("error", VStr "No feature columns available for regression")]
    else
      X0 <- getitem_list (df self) feature_columns ;;
      X <- fillna_mean_df X0 ;;
      y0 <- getitem (df self) target_column ;;
      y <- fillna_mean_obj y0 ;;
      rf_model <- RandomForestRegressor_fit X y ;;
      lr_model <- LinearRegression_fit X y ;;
      rf_pred <- rf_predict rf_model X ;;
      lr_pred <- lr_predict lr_model X ;;
      rf_r2 <- r2_score y rf_pred ;;
      lr_r2 <- r2_score y lr_pred ;;
      let feature_importance :=
        sort_desc snd (zip feature_columns (feature_importances_ rf_model)) in
      Ok [("target_column", VStr target_column);
          ("feature_columns", VList (map VStr feature_columns));
          ("random_forest_r2", vfloat rf_r2);
          ("linear_regression_r2", vfloat lr_r2);
          ("feature_importance",
           VList (map (fun fi => VDict [("feature", VStr (fst fi));
                                        ("importance", VFloat (snd fi))])
                      feature_importance));
          ("top_drivers",
           VList (map (fun fi => VList [VStr (fst fi); VFloat (snd fi)])
                      (firstn 5 feature_importance)));
          ("model_comparison",
           VStr (if f_gt rf_r2 lr_r2 then "Random Forest" else "Linear Regression"));
          ("summary",
           VStr ("Model explains " ++ format_percent (py_max rf_r2 lr_r2)
                 ++ " of variance in " ++ target_column)%string)].

(** [diffs.index(max(diffs))]: the first position of the greatest element. *)
Fixpoint index_of_max (l : list R) (pos best_pos : nat) (best : R) : nat :=
  match l with
  | [] => best_pos
  | x :: l' =>
      if Rgtb x best then index_of_max l' (S pos) pos x
      else index_of_max l' (S pos) best_pos best
  end.

Fixpoint diffs_of (inertias : list R) : list R :=
  match inertias with
  | a :: ((b :: _) as rest) => (a - b)%R :: diffs_of rest
  | _ => []
  end.

(** The elbow heuristic that picks [n_clusters] when the caller gives none. *)
Definition elbow (self : DataAnalysisEngine) (X_scaled : matrix) : outcome nat :=
  let K_range := seq 2 (Nat.min 8 (len_df (df self) / 2) - 2) in
  inertias <- mapM (fun k => KMeans_inertia k X_scaled) K_range ;;
  if 2 <=? length inertias then
    match diffs_of inertias with
    | [] => Ok 3
    | d :: ds => Ok (nth (index_of_max ds 1 0 d) K_range 0)
    end
  else Ok 3.

(** The entry of [cluster_summary] for cluster [i]. *)
Definition cluster_info (self : DataAnalysisEngine) (numeric_cols : list string)
    (clusters : list nat) (i : nat) : outcome value :=
  cluster_data <- mask_df (df self) clusters i ;;
  if len_df (df self) =? 0 then Raise "division by zero" else
  characteristics <-
    foldM (fun chars col =>
             c <- getitem cluster_data col ;;
             m <- float_of_reduction mean c ;;
             a <- getitem (df self) col ;;
             overall <- float_of_reduction mean a ;;
             Ok (dict_set col
                   (VDict [("mean", vfloat m);
                           ("vs_overall", vfloat (f_lift2 Rminus m overall))])
                   chars))
          numeric_cols [] ;;
  Ok (VDict [("cluster_id", VInt (Z.of_nat i));
             ("size", VInt (Z.of_nat (len_df cluster_data)));
             ("percentage",
              VFloat (INR (len_df cluster_data) / INR (len_df (df self)) * 100));
             ("characteristics", VDict characteristics)]).

Definition run_clustering_analysis (self : DataAnalysisEngine)
    (columns : option (list string)) (n_clusters : option nat) : outcome dict :=
  let numeric_cols := select_numeric self columns in
  if length numeric_cols <? 2 then
    Ok [("error", VStr "Need at least 2 numeric columns for clustering")]
  else
    X0 <- getitem_list (df self) numeric_cols ;;
    X <- fillna_mean_df X0 ;;
    X_scaled <- StandardScaler_fit_transform X ;;
    n_clusters <- match n_clusters with
                  | None => elbow self X_scaled
                  | Some k => Ok k
                  end ;;
    clusters <- KMeans_fit_predict n_clusters X_scaled ;;
    cluster_summary <- mapM (cluster_info self numeric_cols clusters) (seq 0 n_clusters) ;;
    Ok [("n_clusters", VInt (Z.of_nat n_clusters));
        ("cluster_assignments", VList (map (fun c => VInt (Z.of_nat c)) clusters));
        ("cluster_summary", VList cluster_summary);
        ("features_used", VList (map VStr numeric_cols));
        ("summary",
         VStr ("Identified " ++ str_of_nat n_clusters
               ++ " distinct groups in your data")%string)].

(** [data - (slope * x + intercept)] *)
Definition residuals_of (data : pobj) (x : list R) (lr : linreg) : outcome (list R) :=
  match data with
  | PSeries s =>
      ys <- numbers (s_values s) ;;
      Ok (map (fun yx => (fst yx - (slope lr * snd yx + intercept lr))%R) (zip ys x))
  | PFrame _ => Raise "Unable to coerce to Series"
  end.

Definition tolist (xs : list R) : value := VList (map VFloat xs).

(** [data.tolist()] *)
Definition tolist_obj (data : pobj) : outcome value :=
  match data with
  | PSeries s =>
      Ok (VList (map (fun c => match c with
                               | CNum r => VFloat r
                               | CStr t => VStr t
                               | CNull => VNaN
                               end) (s_values s)))
  | PFrame _ => Raise "'DataFrame' object has no attribute 'tolist'"
  end.

Definition run_time_series_forecast (self : DataAnalysisEngine) (target_column : string)
    (periods : Z) : outcome dict :=
  if negb (mem target_column (columns_of (df self))) then
    Ok [("error", VStr ("Target column " ++ target_column ++ " not found")%string)]
  else
    d0 <- getitem (df self) target_column ;;
    let data := dropna_obj d0 in
    if len_obj data <? 3 then
      Ok [("error", VStr "Need at least 3 data points for forecasting")]
    else
      let x := arange 0 (len_obj data) in
      lr <- stats_linregress x data ;;
      let future_x := arange (len_obj data) (Z.to_nat periods) in
      let forecast := map (fun fx => (slope lr * fx + intercept lr)%R) future_x in
      residuals <- residuals_of data x lr ;;
      let mse := (Rsum (map (fun r => (r * r)%R) residuals) / lenR residuals)%R in
      let std_error := sqrt mse in
      let forecast_upper := map (fun f => (f + 1.96 * std_error)%R) forecast in
      let forecast_lower := map (fun f => (f - 1.96 * std_error)%R) forecast in
      historical_data <- tolist_obj data ;;
      Ok [("target_column", VStr target_column);
          ("historical_data", historical_data);
          ("forecast", tolist forecast);
          ("forecast_upper", tolist forecast_upper);
          ("forecast_lower", tolist forecast_lower);
          ("trend_slope", VFloat (slope lr));
          ("r_squared", VFloat (rvalue lr * rvalue lr));
          ("periods_forecasted", VInt periods);
          ("summary",
           VStr ("Forecasted " ++ str_of_Z periods ++ " periods for " ++ target_column
                 ++ " with " ++ format_percent (Some (rvalue lr * rvalue lr)%R)
                 ++ " trend fit")%string)].

End Engine.
End AnalysisEngine.

(** ** The statistical tests of [analysis_engine.py] *)

(** The scipy tests and the float formatting that [run_statistical_tests]
    and its two interpreters use. *)
Class TestLibrary : Type := {
  stats_ttest_ind : pobj -> pobj -> outcome (pyfloat * pyfloat);
  stats_f_oneway : list pobj -> outcome (pyfloat * pyfloat);
  format_3f : pyfloat -> string
}.

Module AnalysisEngineTests.
Import AnalysisEngine.
Section Tests.
Context {tests : TestLibrary}.

Definition _interpret_ttest (p_value mean1 mean2 : pyfloat) : string :=
  if f_lt p_value (Some 0.05%R) then
    let direction := if f_gt mean1 mean2 then "higher" else "lower" in
    ("Statistically significant difference found (p=" ++ format_3f p_value
     ++ "). First group is " ++ direction ++ ".")%string
  else
    ("No statistically significant difference found (p=" ++ format_3f p_value
     ++ ").")%string.

Definition _interpret_anova (p_value : pyfloat) : string :=
  if f_lt p_value (Some 0.05%R) then
    ("Statistically significant differences found between groups (p="
     ++ format_3f p_value ++ ").")%string
  else
    ("No statistically significant differences found between groups (p="
     ++ format_3f p_value ++ ").")%string.

(** [float(statistic)]: the tests return scalars on Series and arrays on
    frames, which [float] refuses. *)
Definition is_frame (o : pobj) : bool :=
  match o with PSeries _ => false | PFrame _ => true end.

Definition scalar_result (samples : list pobj) (x : pyfloat) : outcome pyfloat :=
  if existsb is_frame samples
  then Raise "only length-1 arrays can be converted to Python scalars"
  else Ok x.

Definition run_statistical_tests (self : DataAnalysisEngine) (test_type : string)
    (variables : list string) : outcome dict :=
  if String.eqb test_type "ttest" && (length variables =? 2) then
    match variables with
    | [var1; var2] =>
        if mem var1 (columns_of (df self)) && mem var2 (columns_of (df self)) then
          d1 <- getitem (df self) var1 ;;
          let data1 := dropna_obj d1 in
          d2 <- getitem (df self) var2 ;;
          let data2 := dropna_obj d2 in
          sp <- stats_ttest_ind data1 data2 ;;
          statistic <- scalar_result [data1; data2] (fst sp) ;;
          p_value <- scalar_result [data1; data2] (snd sp) ;;
          mean1 <- float_of_reduction mean data1 ;;
          mean2 <- float_of_reduction mean data2 ;;
          Ok [("test_type", VStr "Independent T-Test");
              ("variables", VList (map VStr variables));
              ("statistic", vfloat statistic);
              ("p_value", vfloat p_value);
              ("significant", VBool (f_lt p_value (Some 0.05%R)));
              ("interpretation", VStr (_interpret_ttest p_value mean1 mean2));
              ("summary", VStr ("Comparing " ++ var1 ++ " vs " ++ var2)%string)]
        else Ok []
    | _ => Ok []
    end
  else if String.eqb test_type "anova" then
    if 2 <=? length variables then
      groups <- mapM (fun var => d <- getitem (df self) var ;; Ok (dropna_obj d))
                     (filter (fun var => mem var (columns_of (df self))) variables) ;;
      if 2 <=? length groups then
        sp <- stats_f_oneway groups ;;
        statistic <- scalar_result groups (fst sp) ;;
        p_value <- scalar_result groups (snd sp) ;;
        Ok [("test_type", VStr "One-Way ANOVA");
            ("variables", VList (map VStr variables));
            ("statistic", vfloat statistic);
            ("p_value", vfloat p_value);
            ("significant", VBool (f_lt p_value (Some 0.05%R)));
            ("interpretation", VStr (_interpret_anova p_value));
            ("summary",
             VStr ("Comparing means across " ++ str_of_nat (length variables)
                   ++ " groups")%string)]
      else Ok []
    else Ok []
  else Ok [].

End Tests.
End AnalysisEngineTests.

(** ** The forecast band in binary64 *)

(** Lines 240-254 of [run_time_series_forecast] in the arithmetic of the
    program: numpy's float64. *)
Set Warnings "-inexact-float".
Module Binary64.
Import PrimFloat.

Definition float_of_nat (n : nat) : float := of_uint63 (Uint63.of_Z (Z.of_nat n)).

(** [np.arange(a, a + n)] *)
Definition arange (a n : nat) : list float := map float_of_nat (seq a n).

(** [np.mean]; below 8 values numpy adds them from left to right. *)
Definition np_mean (xs : list float) : float :=
  div (fold_left add xs 0%float) (float_of_nat (length xs)).

Record band : Type := mkBand {
  forecast : list float;
  forecast_upper : list float;
  forecast_lower : list float
}.

(** The band computed from the values [data] present in the target column
    and the [slope] and [intercept] that [linregress] returned. *)
Definition forecast_band (data : list float) (slope intercept : float) (periods : nat)
  : band :=
  let x := arange 0 (length data) in
  let future_x := arange (length data) periods in
  let forecast := map (fun fx => add (mul slope fx) intercept) future_x in
  let residuals := map (fun yx => sub (fst yx) (add (mul slope (snd yx)) intercept))
                       (zip data x) in
  let mse := np_mean (map (fun r => mul r r) residuals) in
  let std_error := sqrt mse in
  let forecast_upper := map (fun f => add f (mul 1.96%float std_error)) forecast in
  let forecast_lower := map (fun f => sub f (mul 1.96%float std_error)) forecast in
  mkBand forecast forecast_upper forecast_lower.

(** [forecast_upper[i] - forecast[i]] and [forecast[i] - forecast_lower[i]] *)
Definition above (b : band) (i : nat) : float :=
  sub (nth i (forecast_upper b) 0%float) (nth i (forecast b) 0%float).

Definition below (b : band) (i : nat) : float :=
  sub (nth i (forecast b) 0%float) (nth i (forecast_lower b) 0%float).

End Binary64.

(** * Notions used in the statements *)

Import StatisticalAnalysisEngine.
Import AnalysisEngine.

(** ** Reading a result *)

(** The keys a dictionary may hold. *)
Definition keys_within (ks : list string) (d : dict) : Prop :=
  forall k, dict_get k d <> None -> In k ks.

Definition inner_keys : list string :=
  ["insights"; "statistics"; "recommendations"; "error"].

(** The entry of a column in one of the nested mappings of a result. *)
Definition entry (section col : string) (results : dict) : option value :=
  match dict_get section results with
  | Some (VDict inner) => dict_get col inner
  | _ => None
  end.

(** The two shapes an inner routine with a [try] block can return: its
    three sections, with or without a trailing ['error']. *)
Definition sections (i s r : value) : dict :=
  [("insights", i); ("statistics", s); ("recommendations", r)].

Definition inner_shape (d : dict) : Prop :=
  exists i s r, d = sections i s r \/ exists e, d = sections i s r ++ [("error", e)].

(** A result that reports success and an error at once. *)
Definition success_with_error (result : dict) (msg : value) : Prop :=
  dict_get "success" result = Some (VBool true)
  /\ dict_get "error" result = Some msg.

(** The band of a forecast result: three lists of [periods] values, the
    upper and the lower one at the same distance [margin] from the forecast. *)
Definition band_around (result : dict) (periods : nat) (margin : R) : Prop :=
  exists forecast forecast_upper forecast_lower,
    dict_get "forecast" result = Some (tolist forecast)
    /\ dict_get "forecast_upper" result = Some (tolist forecast_upper)
    /\ dict_get "forecast_lower" result = Some (tolist forecast_lower)
    /\ length forecast = periods
    /\ length forecast_upper = periods
    /\ length forecast_lower = periods
    /\ forall i, i < periods ->
         (nth i forecast_upper 0 - nth i forecast 0 = margin)%R
         /\ (nth i forecast 0 - nth i forecast_lower 0 = margin)%R.

Definition percentage_of (info : value) : list R :=
  match info with
  | VDict d => match dict_get "percentage" d with
               | Some (VFloat p) => [p]
               | _ => []
               end
  | _ => []
  end.

(** The ['percentage'] fields of the ['cluster_summary'] of
    [run_clustering_analysis]. *)
Definition summary_percentages (result : dict) : list R :=
  match dict_get "cluster_summary" result with
  | Some (VList infos) => flat_map percentage_of infos
  | _ => []
  end.

(** The ['percentage'] fields of the ['cluster_statistics'] of
    [perform_clustering_analysis]. *)
Definition statistics_percentages (results : dict) : list R :=
  match entry "statistics" "cluster_statistics" results with
  | Some (VDict cluster_stats) => flat_map (fun kv => percentage_of (snd kv)) cluster_stats
  | _ => []
  end.

(** [result['correlation_matrix'][a][b]] *)
Definition matrix_entry (result : dict) (a b : string) : option value :=
  match dict_get "correlation_matrix" result with
  | Some (VDict d) =>
      match dict_get a d with
      | Some (VDict inner) => dict_get b inner
      | _ => None
      end
  | _ => None
  end.

(** The position of the last occurrence of a label. *)
Definition last_pos (labels : list string) (k : string) : option nat :=
  option_map fst (find (fun x => String.eqb k (snd x)) (rev (enumerate labels))).

(** ** Data and contracts *)

(** How many rows carry label [i]. *)
Definition count (i : nat) (labels : list nat) : nat :=
  length (filter (fun l => l =? i) labels).

(** scikit-learn's contract for [KMeans(n_clusters=k).fit_predict]: [k] is at
    least 1 and the labels are drawn from [range(k)]. *)
Definition KMeans_contract (lib : Library) : Prop :=
  forall k X labels,
    KMeans_fit_predict k X = Ok labels -> 1 <= k /\ Forall (fun l => l < k) labels.

(** The numbers present in a column. *)
Definition observed (vals : list cell) : list R :=
  flat_map (fun c => match c with CNum r => [r] | _ => [] end) vals.



(** ** Two small instances of the library interface, for the examples *)

(** The rows of a frame as an array. *)
Definition rows_matrix (X : DataFrame) : outcome matrix :=
  mapM (fun i => numbers (row_at X i)) (seq 0 (len_df X)).

(** The least-squares line through the points. *)
Definition least_squares (x : list R) (o : pobj) : outcome linreg :=
  match o with
  | PSeries s =>
      ys <- numbers (s_values s) ;;
      let b := (co_dev x ys / co_dev x x)%R in
      Ok (mkLinreg b (Rsum ys / lenR ys - b * (Rsum x / lenR x)) 0 0 0)
  | PFrame _ => Raise "all the input array dimensions must match"
  end.

Definition constant_lr_model : lr_model :=
  mkLrModel [] 0 (fun X => Ok (map (fun _ => 0%R) (df_index X))).

Definition constant_rf_model : rf_model :=
  mkRfModel [] (fun X => Ok (map (fun _ => 0%R) (df_index X))).

(** A stand-in for the libraries: the least-squares line, constant
    predictors, and a k-means that puts every row in cluster 0. *)
Definition example_library : Library := {|
  stats_linregress := least_squares;
  stats_shapiro := fun _ => Ok (Some 1%R, Some 1%R);
  stats_jarque_bera := fun _ => Ok (Some 0%R, Some 1%R);
  stats_pearsonr := fun _ _ => Ok (Some 0%R, Some 1%R);
  stats_skew := fun _ => Ok (Some 0%R);
  stats_kurtosis := fun _ => Ok (Some 0%R);
  series_median := mean;
  np_corrcoef := fun _ _ => Ok (Some 0%R);
  r2_score := fun _ _ => Ok (Some 0%R);
  LinearRegression_fit := fun _ _ => Ok constant_lr_model;
  RandomForestRegressor_fit := fun _ _ => Ok constant_rf_model;
  StandardScaler_fit_transform := rows_matrix;
  PCA_explained_variance_ratio := fun _ => Ok [1%R];
  KMeans_fit_predict :=
    fun k X => if k =? 0
               then Raise "n_clusters must be at least 1"
               else Ok (map (fun _ => 0) X);
  KMeans_inertia := fun _ _ => Ok 0%R;
  format_percent := fun _ => "0.0%"
|}.

Definition refused : string :=
  "Input X contains infinity or a value too large for dtype('float64').".

(** A library whose scikit-learn estimators refuse their input. *)
Definition refusing_library : Library := {|
  stats_linregress := least_squares;
  stats_shapiro := fun _ => Ok (Some 1%R, Some 1%R);
  stats_jarque_bera := fun _ => Ok (Some 0%R, Some 1%R);
  stats_pearsonr := fun _ _ => Ok (Some 0%R, Some 1%R);
  stats_skew := fun _ => Ok (Some 0%R);
  stats_kurtosis := fun _ => Ok (Some 0%R);
  series_median := mean;
  np_corrcoef := fun _ _ => Ok (Some 0%R);
  r2_score := fun _ _ => Ok (Some 0%R);
  LinearRegression_fit := fun _ _ => Raise refused;
  RandomForestRegressor_fit := fun _ _ => Raise refused;
  StandardScaler_fit_transform := fun _ => Raise refused;
  PCA_explained_variance_ratio := fun _ => Raise refused;
  KMeans_fit_predict := fun _ _ => Raise refused;
  KMeans_inertia := fun _ _ => Raise refused;
  format_percent := fun _ => "0.0%"
|}.

(** ** Example datasets *)

Definition monthly_sales : list record :=
  [[("month", CNum 1); ("sales", CNum 10); ("returns", CNum 1)];
   [("month", CNum 2); ("sales", CNum 12); ("returns", CNum 2)];
   [("month", CNum 3); ("sales", CNum 14)];
   [("month", CNum 4); ("sales", CNum 13)];
   [("month", CNum 5); ("sales", CNum 15)]].

Definition quarterly : list record :=
  [[("quarter", CStr "Q1"); ("revenue", CNum 10)];
   [("quarter", CStr "Q2"); ("revenue", CNum 12)];
   [("quarter", CStr "Q3"); ("revenue", CNull)];
   [("quarter", CStr "Q4"); ("revenue", CNum 17)]].

Definition houses : list record :=
  [[("rooms", CNum 2); ("area", CNum 50); ("price", CNum 100)];
   [("rooms", CNum 3); ("area", CNull); ("price", CNum 150)];
   [("rooms", CNum 4); ("area", CNum 90); ("price", CNum 210)]].

Definition doubled : list record :=
  [[("x", CNum 1); ("y", CNum 2)];
   [("x", CNum 2); ("y", CNum 4)];
   [("x", CNum 3); ("y", CNum 6)]].

(** ** Notions for the further properties *)

(** The float stored under [k] in a mapping, if any. *)
Definition float_field (k : string) (v : value) : list R :=
  match v with
  | VDict d => match dict_get k d with
               | Some (VFloat r) => [r]
               | _ => []
               end
  | _ => []
  end.

(** The floats stored under [field] in the mappings listed under [k]. *)
Definition list_field (k field : string) (result : dict) : list R :=
  match dict_get k result with
  | Some (VList vs) => flat_map (float_field field) vs
  | _ => []
  end.

(** Non-increasing order of the keys. *)
Definition descending {A : Type} (key : A -> R) (l : list A) : Prop :=
  forall i j, i < j -> j < length l ->
              forall d, (key (nth j l d) <= key (nth i l d))%R.

(** Sortedness, in the form that is easy to maintain under insertion. *)
Inductive sorted_desc {A : Type} (key : A -> R) : list A -> Prop :=
| sorted_nil : sorted_desc key []
| sorted_cons x l :
    (forall y, In y l -> (key y <= key x)%R) ->
    sorted_desc key l -> sorted_desc key (x :: l).

(** The importances of the feature loop lie between 0 and 1. *)
Definition importances_bounded (feature_importance : dict) : Prop :=
  forall k v, dict_get k feature_importance = Some v ->
    exists r, get_float "importance" v = Some r /\ (0 <= r <= 1)%R.

(** A stand-in for the scipy tests. *)
Definition example_tests : TestLibrary := {|
  stats_ttest_ind := fun _ _ => Ok (Some 0%R, Some 1%R);
  stats_f_oneway := fun _ => Ok (Some 0%R, Some 1%R);
  format_3f := fun _ => "1.000"
|}.

(** A library whose linear model gives every feature the coefficient 1. *)
Definition unit_coef_library : Library := {|
  stats_linregress := least_squares;
  stats_shapiro := fun _ => Ok (Some 1%R, Some 1%R);
  stats_jarque_bera := fun _ => Ok (Some 0%R, Some 1%R);
  stats_pearsonr := fun _ _ => Ok (Some 0%R, Some 1%R);
  stats_skew := fun _ => Ok (Some 0%R);
  stats_kurtosis := fun _ => Ok (Some 0%R);
  series_median := mean;
  np_corrcoef := fun _ _ => Ok (Some 0%R);
  r2_score := fun _ _ => Ok (Some 0%R);
  LinearRegression_fit :=
    fun X _ => Ok (mkLrModel (map (fun _ => 1%R) (df_columns X)) 0
                     (fun X' => Ok (map (fun _ => 0%R) (df_index X'))));
  RandomForestRegressor_fit := fun _ _ => Ok constant_rf_model;
  StandardScaler_fit_transform := rows_matrix;
  PCA_explained_variance_ratio := fun _ => Ok [1%R];
  KMeans_fit_predict := fun _ X => Ok (map (fun _ => 0) X);
  KMeans_inertia := fun _ _ => Ok 0%R;
  format_percent := fun _ => "0.0%"
|}.

Definition shop : list record :=
  [[("name", CStr "a"); ("units", CNum 1); ("price", CNum 5); ("cost", CNum 3)];
   [("name", CStr "b"); ("units", CNum 2); ("price", CNum 4); ("cost", CNum 1)];
   [("name", CStr "c"); ("units", CNum 3); ("price", CNum 6); ("cost", CNum 2)];
   [("name", CStr "d"); ("units", CNum 4); ("price", CNum 5); ("cost", CNull)]].

(** The four leading entries of a success-shaped result of [analyze_data]. *)
Definition result_header (data_json : list record) (analysis_type : string)
    (selected_columns : list string) : dict :=
  [("success", VBool true);
   ("data_points_analyzed", VInt (Z.of_nat (length data_json)));
   ("columns_analyzed", VInt (Z.of_nat (length selected_columns)));
   ("analysis_type", VStr analysis_type)].

Definition two_rows : list record :=
  [[("x", CNum 1); ("y", CNum 2)];
   [("x", CNum 2); ("y", CNum 4)]].

(** A column with its missing values replaced by the mean of the values
    present; left as it is when no value is present. *)
Definition mean_imputed (vals : list cell) : list cell :=
  match observed vals with
  | [] => vals
  | obs => map (fun c => match c with
                         | CNull => CNum (Rsum obs / INR (length obs))
                         | _ => c
                         end) vals
  end.

Definition imputed (s : Series) : Series :=
  mkSeries (s_dtype s) (s_index s) (mean_imputed (s_values s)).

(** The coefficient of determination of predictions [pred] for targets [ys]. *)
Definition r_squared (ys pred : list R) : R :=
  let ybar := (Rsum ys / INR (length ys))%R in
  (1 - Rsum (map (fun yp => (fst yp - snd yp) * (fst yp - snd yp)) (zip ys pred))
       / Rsum (map (fun y => (y - ybar) * (y - ybar)) ys))%R.

Definition targets (y : pobj) : outcome (list R) :=
  match y with
  | PSeries s => numbers (s_values s)
  | PFrame _ => Raise "y should be a 1d array"
  end.

(** A stand-in for the estimators, scored by the coefficient of
    determination: each model either reproduces its training targets or
    predicts their mean, and feature [i] (from 0) of [n] has importance
    [(i + 1) / (1 + ... + n)]. *)
Definition stand_in_library (forest_exact linear_exact : bool) : Library := {|
  stats_linregress := least_squares;
  stats_shapiro := fun _ => Ok (Some 1%R, Some 1%R);
  stats_jarque_bera := fun _ => Ok (Some 0%R, Some 1%R);
  stats_pearsonr := fun _ _ => Ok (Some 0%R, Some 1%R);
  stats_skew := fun _ => Ok (Some 0%R);
  stats_kurtosis := fun _ => Ok (Some 0%R);
  series_median := mean;
  np_corrcoef := fun _ _ => Ok (Some 0%R);
  r2_score := fun y pred => ys <- targets y ;; Ok (Some (r_squared ys pred));
  LinearRegression_fit :=
    fun X y =>
      ys <- targets y ;;
      let ybar := (Rsum ys / INR (length ys))%R in
      Ok (mkLrModel (map (fun _ => 0%R) (df_columns X)) ybar
            (fun _ => Ok (if linear_exact then ys else map (fun _ => ybar) ys)));
  RandomForestRegressor_fit :=
    fun X y =>
      ys <- targets y ;;
      let ybar := (Rsum ys / INR (length ys))%R in
      let n := length (df_columns X) in
      Ok (mkRfModel (map (fun i => (INR (S i) / INR (n * S n / 2))%R) (seq 0 n))
            (fun _ => Ok (if forest_exact then ys else map (fun _ => ybar) ys)));
  StandardScaler_fit_transform := rows_matrix;
  PCA_explained_variance_ratio := fun _ => Ok [1%R];
  KMeans_fit_predict := fun _ X => Ok (map (fun _ => 0) X);
  KMeans_inertia := fun _ _ => Ok 0%R;
  format_percent := fun _ => "0.0%"
|}.

Definition homes : list record :=
  [[("rooms", CNum 1); ("area", CNum 30); ("price", CNum 10)];
   [("rooms", CNum 2); ("area", CNull); ("price", CNull)];
   [("rooms", CNull); ("area", CNum 50); ("price", CNum 30)]].

Definition noisy : list record :=
  [[("v", CNum 1)]; [("v", CNum 3)]; [("v", CNum 2)]].

(** * Properties *)

(** ** Dictionaries *)

Lemma dict_get_set (k k' : string) (v : value) (d : dict) :
  dict_get k' (dict_set k v d) = if String.eqb k' k then Some v else dict_get k' d.
Proof.
  induction d as [|[k0 v0] d IH]; simpl.
  - destruct (String.eqb k' k); reflexivity.
  - destruct (String.eqb k k0) eqn:E; simpl.
    + apply String.eqb_eq in E; subst k0.
      destruct (String.eqb k' k); reflexivity.
    + rewrite IH. destruct (String.eqb k' k0) eqn:E0; [|reflexivity].
      apply String.eqb_eq in E0; subst k0.
      destruct (String.eqb k' k) eqn:E1; [|reflexivity].
      apply String.eqb_eq in E1; subst k'. rewrite String.eqb_refl in E. discriminate.
Qed.

Lemma dict_get_set_other (k k' : string) (v : value) (d : dict) :
  String.eqb k' k = false -> dict_get k' (dict_set k v d) = dict_get k' d.
Proof. intros H. rewrite dict_get_set, H. reflexivity. Qed.

Lemma dict_get_set_same (k : string) (v : value) (d : dict) :
  dict_get k (dict_set k v d) = Some v.
Proof. rewrite dict_get_set, String.eqb_refl. reflexivity. Qed.

(** A key absent from [e] is left alone by [d.update(e)]. *)
Lemma dict_get_update_absent (k : string) (e d : dict) :
  dict_get k e = None -> dict_get k (dict_update d e) = dict_get k d.
Proof.
  unfold dict_update. revert d.
  induction e as [|[k0 v0] e IH]; intros d H; simpl in *.
  - reflexivity.
  - destruct (String.eqb k k0) eqn:E; [discriminate|].
    rewrite IH by assumption. apply dict_get_set_other. assumption.
Qed.

(** A key present in [e] takes its value from [e]; the keys of a Python
    dictionary are unique, here: the first binding is the only one. *)
Lemma dict_get_update_last (k : string) (e d : dict) (v : value) :
  dict_get k (rev e) = Some v -> dict_get k (dict_update d e) = Some v.
Proof.
  unfold dict_update. revert d.
  induction e as [|[k0 v0] e IH] using rev_ind; intros d H.
  - discriminate.
  - rewrite rev_unit in H. simpl in H.
    rewrite fold_left_app. simpl. rewrite dict_get_set.
    destruct (String.eqb k k0); [assumption|]. apply IH. assumption.
Qed.

Lemma dict_get_set_in (outer k k' : string) (v : value) (d : dict) :
  String.eqb k' outer = false ->
  dict_get k' (dict_set_in outer k v d) = dict_get k' d.
Proof.
  intros H. unfold dict_set_in.
  destruct (dict_get outer d) as [[| | | | | | |inner]|]; try reflexivity.
  apply dict_get_set_other. assumption.
Qed.

Lemma keys_within_set (ks : list string) (k : string) (v : value) (d : dict) :
  In k ks -> keys_within ks d -> keys_within ks (dict_set k v d).
Proof.
  intros Hk Hd k' Hget. rewrite dict_get_set in Hget.
  destruct (String.eqb k' k) eqn:E.
  - apply String.eqb_eq in E. subst. assumption.
  - apply Hd. assumption.
Qed.

Lemma keys_within_set_in (ks : list string) (outer k : string) (v : value) (d : dict) :
  keys_within ks d -> keys_within ks (dict_set_in outer k v d).
Proof.
  intros Hd. unfold dict_set_in.
  destruct (dict_get outer d) as [[| | | | | | |inner]|] eqn:E; try assumption.
  apply keys_within_set; [|assumption].
  apply Hd. rewrite E. discriminate.
Qed.

Lemma keys_within_absent (ks : list string) (k : string) (d : dict) :
  keys_within ks d -> ~ In k ks -> dict_get k d = None.
Proof.
  intros Hd Hk. destruct (dict_get k d) eqn:E; [|reflexivity].
  exfalso. apply Hk, Hd. rewrite E. discriminate.
Qed.

Lemma keys_within_forallb (ks : list string) (d : dict) :
  forallb (fun kv => mem (fst kv) ks) d = true -> keys_within ks d.
Proof.
  induction d as [|[k0 v0] d IH]; simpl; intros H k Hget.
  - contradiction.
  - apply andb_prop in H. destruct H as [H0 H1].
    simpl in Hget. destruct (String.eqb k k0) eqn:E.
    + apply String.eqb_eq in E. subst k0.
      unfold mem in H0. apply existsb_exists in H0.
      destruct H0 as [x [Hin Hx]]. apply String.eqb_eq in Hx. subst. assumption.
    + apply IH; assumption.
Qed.

Ltac inv_bind H :=
  unfold bind in H;
  repeat match type of H with
         | (match ?x with Ok _ => _ | Raise _ => _ end) = _ =>
             let E := fresh "E" in destruct x eqn:E; try discriminate H
         end.

Lemma foldM_invariant {A S : Type} (P : S -> Prop) (f : S -> A -> outcome S) :
  (forall s a s', P s -> f s a = Ok s' -> P s') ->
  forall l s s', P s -> foldM f l s = Ok s' -> P s'.
Proof.
  intros Hf l. induction l as [|a l IH]; intros s s' Hs H; simpl in H.
  - injection H as <-. assumption.
  - unfold bind in H. destruct (f s a) as [s1|e] eqn:E; [|discriminate].
    eapply IH; [|eassumption]. eapply Hf; eassumption.
Qed.

(** ** Frames built from records have unique labels *)

Lemma mem_In (x : string) (l : list string) : mem x l = true <-> In x l.
Proof.
  unfold mem. rewrite existsb_exists. split.
  - intros [y [Hy E]]. apply String.eqb_eq in E. subst. assumption.
  - intros H. exists x. split; [assumption|apply String.eqb_refl].
Qed.

Lemma mem_false (x : string) (l : list string) : mem x l = false <-> ~ In x l.
Proof.
  rewrite <- mem_In. destruct (mem x l); split; intros H; congruence.
Qed.

Lemma add_label_NoDup (acc : list string) (k : string) :
  NoDup acc -> NoDup (add_label acc k).
Proof.
  intros H. unfold add_label. destruct (mem k acc) eqn:E; [assumption|].
  apply mem_false in E.
  apply NoDup_rev in H. rewrite <- (rev_involutive (acc ++ [k])).
  apply NoDup_rev. rewrite rev_unit. constructor; [|assumption].
  rewrite <- in_rev. assumption.
Qed.

Lemma labels_of_NoDup (rows : list record) : NoDup (labels_of rows).
Proof.
  unfold labels_of.
  assert (G : forall acc, NoDup acc ->
              NoDup (fold_left (fun acc row => fold_left add_label (map fst row) acc)
                               rows acc)).
  { induction rows as [|row rows IH]; intros acc Hacc; simpl; [assumption|].
    apply IH. generalize (map fst row). intros ks. revert acc Hacc.
    induction ks as [|k ks IHk]; intros acc Hacc; simpl; [assumption|].
    apply IHk, add_label_NoDup, Hacc. }
  apply G. constructor.
Qed.

Lemma pd_DataFrame_columns (data_json : list record) :
  columns_of (pd_DataFrame data_json) = labels_of data_json.
Proof.
  unfold columns_of, pd_DataFrame. simpl. rewrite map_map. simpl. apply map_id.
Qed.

Lemma pd_DataFrame_NoDup (data_json : list record) :
  NoDup (columns_of (pd_DataFrame data_json)).
Proof. rewrite pd_DataFrame_columns. apply labels_of_NoDup. Qed.

Lemma filter_label_absent (k : string) (cols : list (string * Series)) :
  ~ In k (map fst cols) -> filter (fun c => String.eqb k (fst c)) cols = [].
Proof.
  induction cols as [|[k0 s0] cols IH]; simpl; intros H; [reflexivity|].
  destruct (String.eqb k k0) eqn:E.
  - apply String.eqb_eq in E. subst. exfalso. apply H. left. reflexivity.
  - apply IH. intros Hin. apply H. right. assumption.
Qed.

(** With unique labels, a label that exists names exactly one column. *)
Lemma lookup_label_unique (f : DataFrame) (k : string) (s : Series) :
  NoDup (columns_of f) -> In (k, s) (df_columns f) -> lookup_label f k = [(k, s)].
Proof.
  unfold columns_of, lookup_label. destruct f as [idx cols]. simpl.
  induction cols as [|[k0 s0] cols IH]; simpl; intros Hnd Hin; [contradiction|].
  inversion Hnd as [|x l Hnotin Hnd']; subst.
  destruct Hin as [Heq|Hin].
  - injection Heq as -> ->. rewrite String.eqb_refl.
    rewrite filter_label_absent by assumption. reflexivity.
  - destruct (String.eqb k k0) eqn:E.
    + apply String.eqb_eq in E. subst. exfalso. apply Hnotin.
      apply (in_map fst) in Hin. assumption.
    + apply IH; assumption.
Qed.

Lemma In_columns_of (f : DataFrame) (k : string) :
  In k (columns_of f) -> exists s, In (k, s) (df_columns f).
Proof.
  unfold columns_of. intros H. apply in_map_iff in H.
  destruct H as [[k0 s] [E Hin]]. simpl in E. subst. exists s. assumption.
Qed.

Lemma getitem_unique (f : DataFrame) (k : string) (s : Series) :
  NoDup (columns_of f) -> In (k, s) (df_columns f) -> getitem f k = Ok (PSeries s).
Proof.
  intros Hnd Hin. unfold getitem. rewrite (lookup_label_unique f k s Hnd Hin).
  reflexivity.
Qed.

Lemma mapM_ok {A B : Type} (f : A -> outcome B) (g : A -> B) (l : list A) :
  (forall a, In a l -> f a = Ok (g a)) -> mapM f l = Ok (map g l).
Proof.
  induction l as [|a l IH]; intros H; simpl; [reflexivity|].
  rewrite (H a) by (left; reflexivity). simpl.
  rewrite IH by (intros b Hb; apply H; right; assumption). reflexivity.
Qed.

(** Selecting existing labels from a frame with unique labels. *)
Lemma getitem_list_unique (f : DataFrame) (labels : list string) :
  NoDup (columns_of f) ->
  (forall k, In k labels -> In k (columns_of f)) ->
  getitem_list f labels
  = Ok (mkFrame (df_index f) (concat (map (lookup_label f) labels))).
Proof.
  intros Hnd Hall. unfold getitem_list.
  rewrite (mapM_ok _ (lookup_label f)); [reflexivity|].
  intros k Hk. destruct (In_columns_of f k (Hall k Hk)) as [s Hs].
  rewrite (lookup_label_unique f k s Hnd Hs). reflexivity.
Qed.

Lemma numeric_columns_In (f : DataFrame) (k : string) :
  In k (numeric_columns f) <->
  exists s, In (k, s) (df_columns f) /\ is_numeric s = true.
Proof.
  unfold numeric_columns. rewrite in_map_iff. split.
  - intros [[k0 s] [E Hin]]. simpl in E. subst. apply filter_In in Hin.
    exists s. assumption.
  - intros [s [Hin Hn]]. exists (k, s). split; [reflexivity|].
    apply filter_In. split; assumption.
Qed.


Lemma numeric_columns_incl (f : DataFrame) (k : string) :
  In k (numeric_columns f) -> In k (columns_of f).
Proof.
  intros H. apply numeric_columns_In in H. destruct H as [s [Hin _]].
  unfold columns_of. apply (in_map fst) in Hin. assumption.
Qed.


(** ** The results of the inner routines of [analyze_data] *)

Module StatisticalAnalysisEngineFacts.
Import StatisticalAnalysisEngine.
Section Facts.
Context {lib : Library}.

Lemma init_results_keys : keys_within inner_keys init_results.
Proof.
  intros k H. simpl in H.
  destruct (String.eqb k "insights") eqn:E1;
    [apply String.eqb_eq in E1; subst; simpl; auto|].
  destruct (String.eqb k "statistics") eqn:E2;
    [apply String.eqb_eq in E2; subst; simpl; auto|].
  destruct (String.eqb k "recommendations") eqn:E3;
    [apply String.eqb_eq in E3; subst; simpl; auto|].
  contradiction.
Qed.

Ltac keys_step :=
  first [ apply init_results_keys
        | assumption
        | apply keys_within_forallb; reflexivity
        | apply keys_within_set; [simpl; tauto|]
        | apply keys_within_set_in ].

Lemma time_series_column_keys (data : DataFrame) (results results' : dict) (col : string) :
  keys_within inner_keys results ->
  time_series_column data results col = Ok results' ->
  keys_within inner_keys results'.
Proof.
  intros Hk H. unfold time_series_column in H.
  inv_bind H.
  destruct (3 <? len_obj (dropna_obj a)).
  - inv_bind H. destruct (dropna_obj a); [|discriminate].
    inv_bind H. injection H as <-. repeat keys_step.
  - injection H as <-. assumption.
Qed.

Lemma perform_time_series_analysis_keys (data : DataFrame) (numeric_cols : list string)
    (results : dict) :
  perform_time_series_analysis data numeric_cols = Ok results ->
  keys_within inner_keys results.
Proof.
  intros H. unfold perform_time_series_analysis in H. inv_bind H.
  injection H as <-. keys_step.
  eapply (foldM_invariant (keys_within inner_keys)); [|apply init_results_keys|eassumption].
  intros s c s' Hs Hstep. cbv beta in Hstep.
  destruct (negb (String.eqb c a)).
  - eapply time_series_column_keys; eassumption.
  - injection Hstep as <-. assumption.
Qed.

Lemma perform_regression_analysis_keys (data : DataFrame) (numeric_cols : list string) :
  keys_within inner_keys (perform_regression_analysis data numeric_cols).
Proof.
  unfold perform_regression_analysis.
  destruct (length numeric_cols <? 2); [apply init_results_keys|].
  destruct (removelast numeric_cols) eqn:Ef; [apply init_results_keys|].
  rewrite <- Ef.
  destruct (regression_try _ _ _ _) as [r|e] eqn:H; [|repeat keys_step].
  unfold regression_try in H. inv_bind H.
  destruct (len_df _ <? 3); [injection H as <-; apply init_results_keys|].
  inv_bind H. destruct (loc _ _); [|discriminate].
  inv_bind H. injection H as <-. repeat keys_step.
Qed.

Lemma perform_clustering_analysis_keys (data : DataFrame) (numeric_cols : list string) :
  keys_within inner_keys (perform_clustering_analysis data numeric_cols).
Proof.
  unfold perform_clustering_analysis, clustering_failed.
  destruct (length numeric_cols <? 2); [apply init_results_keys|].
  destruct (clustering_try data numeric_cols) as [[[[evr k] st]|]|e];
    [|apply init_results_keys|repeat keys_step].
  destruct evr; repeat keys_step.
Qed.

Lemma perform_statistical_tests_keys (data : DataFrame) (numeric_cols : list string) :
  keys_within inner_keys (perform_statistical_tests data numeric_cols).
Proof.
  unfold perform_statistical_tests.
  destruct (length numeric_cols <? 2); [apply init_results_keys|].
  destruct (statistical_tests_try _ _ _) as [r|e] eqn:H; [|repeat keys_step].
  unfold statistical_tests_try in H. inv_bind H.
  injection H as <-. repeat keys_step.
Qed.

Lemma perform_exploratory_analysis_keys (data : DataFrame) (numeric_cols : list string) :
  keys_within inner_keys (perform_exploratory_analysis data numeric_cols).
Proof.
  unfold perform_exploratory_analysis.
  destruct (exploratory_try _ _ _) as [r|e] eqn:H; [|repeat keys_step].
  unfold exploratory_try in H. inv_bind H.
  injection H as <-. repeat keys_step.
Qed.

End Facts.
End StatisticalAnalysisEngineFacts.

(** * The claims of the specification, checked against the code *)

Import StatisticalAnalysisEngineFacts.

(** C1. Called on an empty record collection (a frame without rows),
    [analyze_data] returns exactly the mapping [{"error": "No data provided"}];
    the function returns a mapping on every input, so nothing escapes. *)
Theorem analyze_data_no_rows {lib : Library} (data_json : list record)
    (analysis_type : string) (selected_columns : list string) :
  len_df (pd_DataFrame data_json) = 0 ->
  analyze_data data_json analysis_type selected_columns
  = [("error", VStr "No data provided")].
Proof.
  intros H. unfold analyze_data, analyze_data_try, empty.
  rewrite H. reflexivity.
Qed.

Lemma analyze_data_no_rows_witness :
  analyze_data (lib := example_library) [] "pca_clustering" ["x"; "y"]
  = [("error", VStr "No data provided")].
Proof. apply analyze_data_no_rows. reflexivity. Defined.

(** C9, as amended. Whenever [analyze_data] returns a success-shaped result
    (one with ["success": True]), its ['columns_analyzed'] field is the length
    of the selected-columns list as given, whether or not the names exist in
    the dataset. *)
Theorem columns_analyzed_is_selection_length {lib : Library} (data_json : list record)
    (analysis_type : string) (selected_columns : list string) :
  dict_get "success" (analyze_data data_json analysis_type selected_columns)
  = Some (VBool true) ->
  dict_get "columns_analyzed" (analyze_data data_json analysis_type selected_columns)
  = Some (VInt (Z.of_nat (length selected_columns))).
Proof.
  unfold analyze_data, analyze_data_try.
  destruct (empty (pd_DataFrame data_json)); [discriminate|].
  unfold bind.
  destruct (analysis_frame _ _) as [analysis_data|e]; [|discriminate].
  destruct (numeric_columns analysis_data) as [|c cs] eqn:En; [discriminate|].
  rewrite <- En. clear En.
  assert (Habs : ~ In "columns_analyzed" inner_keys).
  { simpl. intros [H|[H|[H|[H|[]]]]]; discriminate. }
  assert (Hupd : forall r d, keys_within inner_keys r ->
                 dict_get "columns_analyzed" (dict_update d r)
                 = dict_get "columns_analyzed" d).
  { intros r d Hr. apply dict_get_update_absent.
    eapply keys_within_absent; eassumption. }
  repeat match goal with
         | |- context [if ?b then _ else _] => destruct b
         end;
    try (intros _; rewrite Hupd;
         [reflexivity
         | first [ apply perform_regression_analysis_keys
                 | apply perform_clustering_analysis_keys
                 | apply perform_statistical_tests_keys
                 | apply perform_exploratory_analysis_keys ]]).
  destruct (perform_time_series_analysis _ _) as [r|e] eqn:Ets.
  - intros _. rewrite Hupd; [reflexivity|].
    eapply perform_time_series_analysis_keys; eassumption.
  - discriminate.
Qed.

Lemma columns_analyzed_is_selection_length_witness :
  dict_get "columns_analyzed"
    (analyze_data (lib := example_library)
       [[("x", CNum 1)]; [("x", CNum 2)]] "summary" ["a"; "b"; "c"])
  = Some (VInt 3).
Proof.
  apply (columns_analyzed_is_selection_length (lib := example_library)).
  reflexivity.
Defined.

(** C9 as stated fails: a non-empty dataset without a numeric column among
    the analysed ones gets an error mapping, which has no
    ['columns_analyzed'] field at all. *)
Lemma columns_analyzed_absent_without_numeric :
  len_df (pd_DataFrame [[("name", CStr "a")]]) = 1
  /\ analyze_data (lib := example_library) [[("name", CStr "a")]] "summary" ["name"]
     = [("error", VStr "No numeric columns found for analysis")]
  /\ dict_get "columns_analyzed"
       (analyze_data (lib := example_library) [[("name", CStr "a")]] "summary" ["name"])
     <> Some (VInt (Z.of_nat (length ["name"]))).
Proof.
  split; [reflexivity|]. split; [reflexivity|]. discriminate.
Qed.

Lemma pd_DataFrame_with_columns_not_empty (data_json : list record) (k : string) :
  In k (columns_of (pd_DataFrame data_json)) -> empty (pd_DataFrame data_json) = false.
Proof.
  intros H. unfold empty, len_df. simpl. rewrite length_seq, length_map.
  rewrite pd_DataFrame_columns in H.
  destruct data_json as [|row rows]; [contradiction|].
  destruct (labels_of (row :: rows)); [contradiction|]. reflexivity.
Qed.






Lemma entry_set_in (section outer col c : string) (v : value) (d : dict) :
  String.eqb col c = false ->
  entry section col (dict_set_in outer c v d) = entry section col d.
Proof.
  intros Hc. unfold entry, dict_set_in.
  destruct (dict_get outer d) as [[| | | | | | |inner]|] eqn:E; try reflexivity.
  rewrite dict_get_set. destruct (String.eqb section outer) eqn:Es; [|reflexivity].
  apply String.eqb_eq in Es. subst outer. rewrite E.
  apply dict_get_set_other. assumption.
Qed.

Lemma entry_set (section col k : string) (v : value) (d : dict) :
  String.eqb section k = false ->
  entry section col (dict_set k v d) = entry section col d.
Proof.
  intros H. unfold entry. rewrite dict_get_set_other by assumption. reflexivity.
Qed.

(** A column with at most 3 values left after [dropna] goes through the
    loop body without effect. *)
Lemma time_series_column_short {lib : Library} (data : DataFrame) (results : dict)
    (col : string) (o : pobj) :
  getitem data col = Ok o -> len_obj (dropna_obj o) <= 3 ->
  time_series_column data results col = Ok results.
Proof.
  intros Hget Hlen. unfold time_series_column. rewrite Hget. simpl.
  apply Nat.ltb_ge in Hlen. rewrite Hlen. reflexivity.
Qed.

(** The loop body for column [c] leaves the entries of other columns alone. *)
Lemma time_series_column_other {lib : Library} (data : DataFrame) (results results' : dict)
    (section col c : string) :
  String.eqb col c = false ->
  time_series_column data results c = Ok results' ->
  entry section col results' = entry section col results.
Proof.
  intros Hc H. unfold time_series_column in H. inv_bind H.
  destruct (3 <? len_obj (dropna_obj a)).
  - inv_bind H. destruct (dropna_obj a); [|discriminate].
    inv_bind H. injection H as <-.
    rewrite !entry_set_in by assumption. reflexivity.
  - injection H as <-. reflexivity.
Qed.

Lemma time_series_column_no_error {lib : Library} (data : DataFrame)
    (results results' : dict) (c : string) :
  time_series_column data results c = Ok results' ->
  dict_get "error" results' = dict_get "error" results.
Proof.
  intros H. unfold time_series_column in H. inv_bind H.
  destruct (3 <? len_obj (dropna_obj a)).
  - inv_bind H. destruct (dropna_obj a); [|discriminate].
    inv_bind H. injection H as <-.
    rewrite !dict_get_set_in by reflexivity. reflexivity.
  - injection H as <-. reflexivity.
Qed.

(** C10. In [perform_time_series_analysis] the column taken as time index
    (the first whose name contains month, date or time, else the first
    column) gets no entry in ['statistics'] nor ['insights']; a column with 3
    or fewer non-missing values passes through the loop without effect, so it
    gets no entry either; and the result has no ['error'] key. *)
Theorem time_series_omissions {lib : Library} (data : DataFrame)
    (numeric_cols : list string) (results : dict) :
  perform_time_series_analysis data numeric_cols = Ok results ->
  (exists time_col,
      time_col_of data = Ok time_col
      /\ (find is_time_label (columns_of data) = Some time_col
          \/ (find is_time_label (columns_of data) = None
              /\ hd_error (columns_of data) = Some time_col))
      /\ entry "statistics" time_col results = None
      /\ entry "insights" time_col results = None)
  /\ (forall col o,
        getitem data col = Ok o -> len_obj (dropna_obj o) <= 3 ->
        (forall partial, time_series_column data partial col = Ok partial)
        /\ entry "statistics" col results = None
        /\ entry "insights" col results = None)
  /\ dict_has "error" results = false.
Proof.
  intros H. unfold perform_time_series_analysis in H. inv_bind H.
  injection H as <-. rename a into time_col, a0 into looped, E0 into Hloop.
  (* entries of a column the loop skips or passes through *)
  assert (Hskip : forall section col,
             (String.eqb col time_col = true
              \/ exists o, getitem data col = Ok o /\ len_obj (dropna_obj o) <= 3) ->
             String.eqb section "recommendations" = false ->
             entry section col
               (dict_set "recommendations" time_series_recommendations looped) = None).
  { intros section col Hcol Hsec. rewrite entry_set by assumption.
    assert (Hinit : entry section col init_results = None).
    { unfold entry. simpl.
      destruct (String.eqb section "insights"); [reflexivity|].
      destruct (String.eqb section "statistics"); [reflexivity|].
      destruct (String.eqb section "recommendations"); reflexivity. }
    revert Hinit Hloop.
    apply (foldM_invariant (fun s => entry section col s = None)).
    intros s c s' Hs Hstep. cbv beta in Hstep.
    destruct (String.eqb c time_col) eqn:Ect; simpl in Hstep.
    - injection Hstep as <-. assumption.
    - destruct (String.eqb col c) eqn:Ecc.
      + apply String.eqb_eq in Ecc. subst c.
        destruct Hcol as [Ht|[o [Hget Hlen]]]; [congruence|].
        rewrite (time_series_column_short data s col o Hget Hlen) in Hstep.
        injection Hstep as <-. assumption.
      + rewrite (time_series_column_other data s s' section col c Ecc Hstep).
        assumption. }
  split; [|split].
  - exists time_col. split; [reflexivity|]. split.
    + unfold time_col_of in E. destruct (find is_time_label (columns_of data)) eqn:Ef.
      * left. congruence.
      * right. split; [reflexivity|].
        destruct (columns_of data); [discriminate|]. simpl. congruence.
    + split; apply Hskip; try reflexivity; left; apply String.eqb_refl.
  - intros col o Hget Hlen. split.
    + intros partial. eapply time_series_column_short; eassumption.
    + split; apply Hskip; try reflexivity; right; exists o; split; assumption.
  - unfold dict_has. rewrite dict_get_set_other by reflexivity.
    assert (Hnone : dict_get "error" looped = None).
    { revert Hloop.
      apply (foldM_invariant (fun s => dict_get "error" s = None)); [|reflexivity].
      intros s c s' Hs Hstep. cbv beta in Hstep.
      destruct (negb (String.eqb c time_col)).
      - rewrite (time_series_column_no_error data s s' c Hstep). assumption.
      - injection Hstep as <-. assumption. }
    rewrite Hnone. reflexivity.
Qed.

Lemma time_series_omissions_witness :
  exists results,
    perform_time_series_analysis (lib := example_library) (pd_DataFrame monthly_sales)
      ["month"; "sales"; "returns"] = Ok results
    /\ entry "statistics" "month" results = None
    /\ entry "insights" "month" results = None
    /\ entry "statistics" "returns" results = None
    /\ entry "insights" "returns" results = None
    /\ dict_has "error" results = false.
Proof.
  eexists. split; [reflexivity|].
  match goal with
  | |- context [entry _ _ ?r] =>
      destruct (time_series_omissions (lib := example_library)
                  (pd_DataFrame monthly_sales) ["month"; "sales"; "returns"] r)
        as [[time_col [Htc [_ [Hs Hi]]]] [Hshort Herr]]
  end.
  - reflexivity.
  - lazy in Htc. injection Htc as <-.
    set (returns := PSeries (mkSeries Numeric (seq 0 5)
                               [CNum 1; CNum 2; CNull; CNull; CNull])).
    assert (Hget : getitem (pd_DataFrame monthly_sales) "returns" = Ok returns)
      by reflexivity.
    assert (Hlen : len_obj (dropna_obj returns) <= 3)
      by (apply Nat.leb_le; reflexivity).
    destruct (Hshort "returns" returns Hget Hlen) as [_ [Hrs Hri]].
    repeat split; assumption.
Defined.

Lemma nth_map_lt {A B : Type} (f : A -> B) (l : list A) (i : nat) (d : A) (d' : B) :
  i < length l -> nth i (map f l) d' = f (nth i l d).
Proof.
  intros H. rewrite (nth_indep (map f l) d' (f d)) by (rewrite length_map; assumption).
  apply map_nth.
Qed.

Lemma Rgtb_asym (a b : R) : Rgtb a b = true -> Rgtb b a = false.
Proof.
  unfold Rgtb. destruct (Rgt_dec a b); [|discriminate].
  destruct (Rgt_dec b a); [lra|reflexivity].
Qed.

Lemma f_gt_asym (a b : pyfloat) : f_gt a b = true -> f_gt b a = false.
Proof.
  destruct a as [a|], b as [b|]; simpl; try discriminate. apply Rgtb_asym.
Qed.

Ltac shape_ok := do 3 eexists; left; reflexivity.
Ltac shape_error := do 3 eexists; right; eexists; reflexivity.

Lemma perform_regression_analysis_shape {lib : Library} (data : DataFrame)
    (numeric_cols : list string) :
  inner_shape (perform_regression_analysis data numeric_cols).
Proof.
  unfold perform_regression_analysis.
  destruct (length numeric_cols <? 2); [shape_ok|].
  destruct (removelast numeric_cols) eqn:Ef; [shape_ok|].
  rewrite <- Ef.
  destruct (regression_try _ _ _ _) as [r|e] eqn:H; [|shape_error].
  unfold regression_try in H. inv_bind H.
  destruct (len_df _ <? 3); [injection H as <-; shape_ok|].
  inv_bind H. destruct (loc _ _); [|discriminate].
  inv_bind H. injection H as <-. shape_ok.
Qed.

Lemma perform_clustering_analysis_shape {lib : Library} (data : DataFrame)
    (numeric_cols : list string) :
  inner_shape (perform_clustering_analysis data numeric_cols).
Proof.
  unfold perform_clustering_analysis, clustering_failed.
  destruct (length numeric_cols <? 2); [shape_ok|].
  destruct (clustering_try data numeric_cols) as [[[[evr k] st]|]|e];
    [|shape_ok|shape_error].
  destruct evr; [shape_error|shape_ok].
Qed.

Lemma perform_statistical_tests_shape {lib : Library} (data : DataFrame)
    (numeric_cols : list string) :
  inner_shape (perform_statistical_tests data numeric_cols).
Proof.
  unfold perform_statistical_tests.
  destruct (length numeric_cols <? 2); [shape_ok|].
  destruct (statistical_tests_try _ _ _) as [r|e] eqn:H; [|shape_error].
  unfold statistical_tests_try in H. inv_bind H.
  injection H as <-. shape_ok.
Qed.

Lemma perform_exploratory_analysis_shape {lib : Library} (data : DataFrame)
    (numeric_cols : list string) :
  inner_shape (perform_exploratory_analysis data numeric_cols).
Proof.
  unfold perform_exploratory_analysis.
  destruct (exploratory_try _ _ _) as [r|e] eqn:H; [|shape_error].
  unfold exploratory_try in H. inv_bind H.
  injection H as <-. shape_ok.
Qed.

(** Merging an inner result that carries ['error'] into the success-shaped
    mapping keeps ["success": True] and adds the error. *)
Lemma update_keeps_success (results inner : dict) (msg : value) :
  dict_get "success" results = Some (VBool true) ->
  inner_shape inner ->
  dict_get "error" inner = Some msg ->
  success_with_error (dict_update results inner) msg.
Proof.
  intros Hs [i [s [r [->|[e ->]]]]] He.
  - discriminate.
  - simpl in He. injection He as ->. split.
    + rewrite dict_get_update_absent by reflexivity. assumption.
    + apply dict_get_update_last. reflexivity.
Qed.

(** C8. [analyze_data] can return a mapping with both ["success": True] and
    an ['error']: when the regression, clustering, statistical-test or
    exploratory routine it dispatches to has caught an exception and stored
    an ['error'] message in its partial result, [analyze_data] merges that
    result into the success-shaped mapping instead of replacing it. For the
    regression routine, an exception [e] raised inside its [try] block is
    enough. *)
Theorem inner_error_is_merged {lib : Library} (data_json : list record)
    (selected_columns : list string) (analysis_data : DataFrame) :
  empty (pd_DataFrame data_json) = false ->
  analysis_frame (pd_DataFrame data_json) selected_columns = Ok analysis_data ->
  numeric_columns analysis_data <> [] ->
  let numeric_cols := numeric_columns analysis_data in
  (forall msg,
      dict_get "error" (perform_regression_analysis analysis_data numeric_cols) = Some msg ->
      success_with_error
        (analyze_data data_json "regression_feature_importance" selected_columns) msg)
  /\ (forall msg,
        dict_get "error" (perform_clustering_analysis analysis_data numeric_cols) = Some msg ->
        success_with_error (analyze_data data_json "pca_clustering" selected_columns) msg)
  /\ (forall msg,
        dict_get "error" (perform_statistical_tests analysis_data numeric_cols) = Some msg ->
        success_with_error (analyze_data data_json "statistical_tests" selected_columns) msg)
  /\ (forall analysis_type msg,
        negb (mem analysis_type
                ["time_series"; "time_series_forecast"; "regression_feature_importance";
                 "pca_clustering"; "statistical_tests"]) = true ->
        dict_get "error" (perform_exploratory_analysis analysis_data numeric_cols) = Some msg ->
        success_with_error (analyze_data data_json analysis_type selected_columns) msg)
  /\ (forall e,
        2 <= length numeric_cols ->
        regression_try analysis_data (last numeric_cols "") (removelast numeric_cols)
          init_results = Raise e ->
        success_with_error
          (analyze_data data_json "regression_feature_importance" selected_columns)
          (VStr ("Regression analysis failed: " ++ e)%string)).
Proof.
  intros Hempty Hframe Hnum numeric_cols.
  assert (Hrun : forall analysis_type,
            analyze_data_try data_json analysis_type selected_columns
            = let results :=
                [("success", VBool true);
                 ("data_points_analyzed", VInt (Z.of_nat (len_df (pd_DataFrame data_json))));
                 ("columns_analyzed", VInt (Z.of_nat (length selected_columns)));
                 ("analysis_type", VStr analysis_type);
                 ("insights", VDict []);
                 ("statistics", VDict []);
                 ("recommendations", VList [])] in
              if String.eqb analysis_type "time_series"
                 || String.eqb analysis_type "time_series_forecast" then
                r <- perform_time_series_analysis analysis_data numeric_cols ;;
                Ok (dict_update results r)
              else if String.eqb analysis_type "regression_feature_importance" then
                Ok (dict_update results
                      (perform_regression_analysis analysis_data numeric_cols))
              else if String.eqb analysis_type "pca_clustering" then
                Ok (dict_update results
                      (perform_clustering_analysis analysis_data numeric_cols))
              else if String.eqb analysis_type "statistical_tests" then
                Ok (dict_update results
                      (perform_statistical_tests analysis_data numeric_cols))
              else
                Ok (dict_update results
                      (perform_exploratory_analysis analysis_data numeric_cols))).
  { intros analysis_type. unfold analyze_data_try.
    rewrite Hempty, Hframe. simpl. fold numeric_cols.
    destruct numeric_cols eqn:E; [contradiction|]. reflexivity. }
  assert (Hreg : forall msg,
      dict_get "error" (perform_regression_analysis analysis_data numeric_cols) = Some msg ->
      success_with_error
        (analyze_data data_json "regression_feature_importance" selected_columns) msg).
  { intros msg Hmsg. unfold analyze_data. rewrite Hrun. simpl.
    apply update_keeps_success;
      [reflexivity|apply perform_regression_analysis_shape|assumption]. }
  split; [exact Hreg|]. split; [|split; [|split]].
  - intros msg Hmsg. unfold analyze_data. rewrite Hrun. simpl.
    apply update_keeps_success;
      [reflexivity|apply perform_clustering_analysis_shape|assumption].
  - intros msg Hmsg. unfold analyze_data. rewrite Hrun. simpl.
    apply update_keeps_success;
      [reflexivity|apply perform_statistical_tests_shape|assumption].
  - intros analysis_type msg Htype Hmsg. unfold analyze_data. rewrite Hrun.
    apply negb_true_iff in Htype. simpl in Htype.
    repeat (apply orb_false_iff in Htype; destruct Htype as [?H Htype]).
    cbv zeta. rewrite H, H0, H1, H2, H3. simpl.
    apply update_keeps_success;
      [reflexivity|apply perform_exploratory_analysis_shape|assumption].
  - intros e Hlen Hraise. apply Hreg.
    unfold perform_regression_analysis.
    apply Nat.ltb_ge in Hlen. rewrite Hlen.
    destruct (removelast numeric_cols) eqn:Ef.
    + destruct numeric_cols as [|c [|c' cs]]; simpl in *; try discriminate.
    + rewrite Hraise. reflexivity.
Qed.

(** An input of that kind, whatever the libraries do: a selection that
    names a column twice gives a frame with two columns of that label, on
    which [float(series.mean())] is a [TypeError] that the exploratory routine
    catches. *)
Lemma inner_error_is_merged_witness :
  success_with_error
    (analyze_data (lib := example_library) doubled "summary" ["x"; "x"])
    (VStr "Exploratory analysis failed: cannot convert the series to <class 'float'>").
Proof.
  eapply (inner_error_is_merged (lib := example_library) doubled ["x"; "x"]).
  - reflexivity.
  - reflexivity.
  - discriminate.
  - reflexivity.
  - reflexivity.
Defined.

(** The same mechanism when an estimator refuses its input. *)
Example refused_regression_is_merged :
  success_with_error
    (analyze_data (lib := refusing_library) doubled "regression_feature_importance" [])
    (VStr ("Regression analysis failed: " ++ refused)%string).
Proof. split; reflexivity. Qed.

(** ** Counting cluster members *)

Lemma str_of_nat_inj (n m : nat) : str_of_nat n = str_of_nat m -> n = m.
Proof.
  unfold str_of_nat. intros H.
  assert (Hnn : forall k, Nat.to_uint k <> Decimal.Nil).
  { intros k. rewrite <- (DecimalNat.Unsigned.of_to k) at 1.
    rewrite DecimalNat.Unsigned.to_of. apply DecimalFacts.unorm_nonnil. }
  apply (f_equal NilZero.uint_of_string) in H.
  rewrite !NilZero.usu in H by apply Hnn.
  injection H as H. apply DecimalNat.Unsigned.to_uint_inj. assumption.
Qed.

Lemma cluster_key_inj (i j : nat) : cluster_key i = cluster_key j -> i = j.
Proof.
  unfold cluster_key. simpl. intros H. injection H as H.
  apply str_of_nat_inj. assumption.
Qed.

Lemma filter_positions {A : Type} (f : A -> bool) (d : A) (l : list A) :
  length (filter (fun p => f (nth p l d)) (seq 0 (length l))) = length (filter f l).
Proof.
  induction l as [|a l IH] using rev_ind; [reflexivity|].
  rewrite length_app. simpl length. rewrite Nat.add_1_r, seq_S, !filter_app, !length_app.
  simpl (0 + length l).
  rewrite (filter_ext_in (fun p => f (nth p (l ++ [a]) d)) (fun p => f (nth p l d))).
  - rewrite IH. f_equal. simpl. rewrite nth_middle. destruct (f a); reflexivity.
  - intros p Hp. apply in_seq in Hp. rewrite app_nth1 by lia. reflexivity.
Qed.

Lemma mask_positions_length (labels : list nat) (i : nat) :
  length (mask_positions labels i) = count i labels.
Proof.
  unfold mask_positions, count.
  apply (filter_positions (fun l => l =? i) (S i) labels).
Qed.

Lemma list_sum_indicator (a k : nat) :
  list_sum (map (fun i => if a =? i then 1 else 0) (seq 0 k)) = if a <? k then 1 else 0.
Proof.
  induction k as [|k IH]; [reflexivity|].
  rewrite seq_S, map_app, list_sum_app, IH. simpl.
  destruct (a <? k) eqn:E1, (a =? k) eqn:E2, (a <? S k) eqn:E3;
    try reflexivity;
    rewrite ?Nat.ltb_lt, ?Nat.ltb_ge, ?Nat.eqb_eq, ?Nat.eqb_neq in *; lia.
Qed.

Lemma list_sum_map_add {A : Type} (g h : A -> nat) (l : list A) :
  list_sum (map (fun i => g i + h i) l) = list_sum (map g l) + list_sum (map h l).
Proof.
  induction l as [|a l IH]; simpl; [reflexivity|]. rewrite IH. lia.
Qed.

(** Every row is counted in exactly one cluster. *)
Lemma sum_counts (k : nat) (labels : list nat) :
  Forall (fun l => l < k) labels ->
  list_sum (map (fun i => count i labels) (seq 0 k)) = length labels.
Proof.
  induction 1 as [|a l Ha Hl IH].
  - induction (seq 0 k) as [|i s IHs]; simpl; [reflexivity|assumption].
  - rewrite (map_ext (fun i => count i (a :: l))
                     (fun i => (if a =? i then 1 else 0) + count i l)).
    + rewrite list_sum_map_add, IH, list_sum_indicator.
      apply Nat.ltb_lt in Ha. rewrite Ha. reflexivity.
    + intros i. unfold count. simpl. destruct (a =? i); reflexivity.
Qed.

Lemma Rsum_percentages (c : nat -> nat) (n : nat) (l : list nat) :
  Rsum (map (fun i => percentage (c i) n) l)
  = percentage (list_sum (map c l)) n.
Proof.
  unfold percentage. induction l as [|i l IH]; simpl.
  - unfold Rdiv. ring.
  - rewrite IH, plus_INR. unfold Rdiv. ring.
Qed.

Lemma percentages_sum_to_100 (k : nat) (labels : list nat) :
  labels <> [] ->
  Forall (fun l => l < k) labels ->
  Rsum (map (fun i => percentage (length (mask_positions labels i)) (length labels))
            (seq 0 k)) = 100%R.
Proof.
  intros Hne Hall.
  rewrite (Rsum_percentages (fun i => length (mask_positions labels i))).
  rewrite (map_ext _ (fun i => count i labels)) by (intros; apply mask_positions_length).
  rewrite sum_counts by assumption.
  unfold percentage. field.
  apply not_0_INR. destruct labels; [contradiction|discriminate].
Qed.

Lemma mapM_Forall2 {A B : Type} (f : A -> outcome B) (l : list A) (bs : list B) :
  mapM f l = Ok bs -> Forall2 (fun a b => f a = Ok b) l bs.
Proof.
  revert bs. induction l as [|a l IH]; intros bs H; simpl in H.
  - injection H as <-. constructor.
  - inv_bind H. injection H as <-. constructor; [assumption|]. apply IH. reflexivity.
Qed.

Lemma dict_set_absent (k : string) (v : value) (d : dict) :
  dict_get k d = None -> dict_set k v d = d ++ [(k, v)].
Proof.
  induction d as [|[k0 v0] d IH]; simpl; intros H; [reflexivity|].
  rewrite String.eqb_sym in H. destruct (String.eqb k0 k) eqn:E; [discriminate|].
  rewrite String.eqb_sym, E. rewrite IH by assumption. reflexivity.
Qed.

Lemma dict_get_app_absent (k : string) (d e : dict) :
  dict_get k d = None -> dict_get k (d ++ e) = dict_get k e.
Proof.
  induction d as [|[k0 v0] d IH]; simpl; intros H; [reflexivity|].
  destruct (String.eqb k k0); [discriminate|]. apply IH. assumption.
Qed.

(** A loop that stores one computed entry per element under distinct new
    keys builds the dictionary of those entries, in order. *)
Lemma foldM_dict_set_distinct {A : Type} (g : A -> outcome value) (key : A -> string)
    (l : list A) (acc d : dict) :
  NoDup (map key l) ->
  (forall a, In a l -> dict_get (key a) acc = None) ->
  foldM (fun cs a => e <- g a ;; Ok (dict_set (key a) e cs)) l acc = Ok d ->
  exists es, Forall2 (fun a e => g a = Ok e) l es /\ d = acc ++ zip (map key l) es.
Proof.
  revert acc d. induction l as [|a l IH]; intros acc d Hnd Habs H; simpl in H.
  - injection H as <-. exists []. split; [constructor|]. simpl. rewrite app_nil_r. reflexivity.
  - unfold bind in H. destruct (g a) as [e|e] eqn:Eg; [|discriminate].
    simpl in Hnd. inversion Hnd as [|x xs Hnotin Hnd']; subst.
    rewrite dict_set_absent in H by (apply Habs; left; reflexivity).
    assert (Habs' : forall b, In b l -> dict_get (key b) (acc ++ [(key a, e)]) = None).
    { intros b Hb. rewrite dict_get_app_absent by (apply Habs; right; assumption).
      simpl. destruct (String.eqb (key b) (key a)) eqn:E; [|reflexivity].
      apply String.eqb_eq in E. exfalso. apply Hnotin. rewrite <- E.
      apply in_map. assumption. }
    destruct (IH _ _ Hnd' Habs' H) as [es [Hes ->]].
    exists (e :: es). split; [constructor; assumption|].
    simpl. rewrite <- app_assoc. reflexivity.
Qed.

(** ** Cluster percentages *)

Lemma len_df_take_rows (f : DataFrame) (pos : list nat) :
  len_df (take_rows f pos) = length pos.
Proof. unfold len_df, take_rows. simpl. apply length_map. Qed.

Lemma cluster_info_inv {lib : Library} (self : DataAnalysisEngine)
    (numeric_cols : list string) (clusters : list nat) (i : nat) (info : value) :
  cluster_info self numeric_cols clusters i = Ok info ->
  length clusters = len_df (df self)
  /\ len_df (df self) <> 0
  /\ percentage_of info
     = [percentage (length (mask_positions clusters i)) (length clusters)].
Proof.
  intros H. unfold cluster_info, mask_df in H.
  destruct (length clusters =? len_df (df self)) eqn:El; [|discriminate].
  apply Nat.eqb_eq in El. simpl in H.
  destruct (len_df (df self) =? 0) eqn:Ez; [discriminate|].
  apply Nat.eqb_neq in Ez. inv_bind H. injection H as <-.
  split; [assumption|]. split; [assumption|].
  simpl. rewrite len_df_take_rows, El. reflexivity.
Qed.

Lemma cluster_entry_inv {lib : Library} (X : DataFrame) (numeric_cols : list string)
    (cluster_labels : list nat) (i : nat) (e : value) :
  cluster_entry X numeric_cols cluster_labels i = Ok e ->
  length cluster_labels = len_df X
  /\ percentage_of e
     = [percentage (length (mask_positions cluster_labels i)) (length cluster_labels)].
Proof.
  intros H. unfold cluster_entry, mask_df in H.
  destruct (length cluster_labels =? len_df X) eqn:El; [|discriminate].
  apply Nat.eqb_eq in El. simpl in H. inv_bind H. injection H as <-.
  split; [assumption|].
  simpl. rewrite len_df_take_rows, El. reflexivity.
Qed.

Lemma flat_map_percentages {A : Type} (f : A -> outcome value) (proj : A -> R)
    (l : list A) (vs : list value) :
  Forall2 (fun a v => f a = Ok v) l vs ->
  (forall a v, f a = Ok v -> percentage_of v = [proj a]) ->
  flat_map percentage_of vs = map proj l.
Proof.
  intros H Hp. induction H as [|a v l vs Hav _ IH]; simpl; [reflexivity|].
  rewrite (Hp a v Hav), IH. reflexivity.
Qed.

Lemma flat_map_zip_snd {A : Type} (f : value -> list A) (ks : list string) (vs : list value) :
  length ks = length vs ->
  flat_map (fun kv => f (snd kv)) (zip ks vs) = flat_map f vs.
Proof.
  revert vs. induction ks as [|k ks IH]; intros [|v vs] H; simpl in *;
    try reflexivity; try discriminate.
  rewrite IH by lia. reflexivity.
Qed.

Lemma NoDup_map_injective {A B : Type} (f : A -> B) (l : list A) :
  (forall a b, f a = f b -> a = b) -> NoDup l -> NoDup (map f l).
Proof.
  intros Hf H. induction H as [|a l Hnotin _ IH]; simpl; constructor; [|assumption].
  intros Hin. apply in_map_iff in Hin. destruct Hin as [b [Hb Hbl]].
  apply Hf in Hb. subst. contradiction.
Qed.

Lemma cluster_keys_NoDup (k : nat) : NoDup (map cluster_key (seq 0 k)).
Proof. apply NoDup_map_injective; [apply cluster_key_inj|apply seq_NoDup]. Qed.

(** C7. With k-means labels drawn from [range(n_clusters)], every analysed
    row belongs to exactly one cluster, so the ['percentage'] fields of a
    successful clustering (size over analysed rows, times 100) sum to 100;
    this holds for [run_clustering_analysis] and for
    [perform_clustering_analysis]. Floats are taken as real numbers here. *)
Theorem cluster_percentages_sum_to_100 {lib : Library} :
  KMeans_contract lib ->
  (forall data_json columns n_clusters result,
      run_clustering_analysis (init data_json) columns n_clusters = Ok result ->
      dict_has "error" result = false ->
      Rsum (summary_percentages result) = 100%R)
  /\ (forall data numeric_cols,
        dict_has "error" (perform_clustering_analysis data numeric_cols) = false ->
        entry "statistics" "cluster_statistics"
          (perform_clustering_analysis data numeric_cols) <> None ->
        Rsum (statistics_percentages (perform_clustering_analysis data numeric_cols))
        = 100%R).
Proof.
  intros Hkm. split.
  - intros data_json columns n_clusters result H Hne.
    unfold run_clustering_analysis in H.
    destruct (length (select_numeric (init data_json) columns) <? 2);
      [injection H as <-; discriminate|].
    inv_bind H. injection H as <-.
    rename a2 into k, a3 into clusters, a4 into cluster_summary.
    destruct (Hkm _ _ _ E3) as [Hk Hrange].
    apply mapM_Forall2 in E4.
    assert (Hlen : clusters <> []).
    { destruct k as [|k]; [lia|]. inversion E4 as [|i v l vs Hi _]; subst.
      apply cluster_info_inv in Hi. destruct Hi as [Hl [Hz _]].
      intros ->. apply Hz. rewrite <- Hl. reflexivity. }
    unfold summary_percentages. simpl.
    rewrite (flat_map_percentages _
               (fun i => percentage (length (mask_positions clusters i)) (length clusters))
               _ _ E4).
    + apply percentages_sum_to_100; assumption.
    + intros i v Hi. apply cluster_info_inv in Hi. apply Hi.
  - intros data numeric_cols Hne Hstats.
    unfold perform_clustering_analysis, clustering_failed in *.
    destruct (length numeric_cols <? 2); [exfalso; apply Hstats; reflexivity|].
    destruct (clustering_try data numeric_cols) as [[[[evr k] cluster_stats]|]|e] eqn:H;
      [|exfalso; apply Hstats; reflexivity|discriminate].
    destruct evr as [|evr0 evr]; [discriminate|].
    unfold clustering_try in H. inv_bind H.
    destruct (len_df (dropna_df a) <? 3) eqn:E3; [discriminate|].
    apply Nat.ltb_ge in E3.
    inv_bind H. injection H as -> -> ->.
    rename a into X0, a3 into labels.
    destruct (Hkm _ _ _ E4) as [Hk Hrange].
    unfold cluster_statistics in E5.
    apply foldM_dict_set_distinct in E5;
      [|apply cluster_keys_NoDup|reflexivity].
    destruct E5 as [es [Hes ->]].
    assert (Hlen : length labels = len_df (dropna_df X0)).
    { destruct k as [|k]; [lia|]. inversion Hes as [|i v l vs Hi _]; subst.
      apply cluster_entry_inv in Hi. apply Hi. }
    unfold statistics_percentages, entry. simpl.
    rewrite flat_map_zip_snd
      by (rewrite length_map; apply (Forall2_length Hes)).
    rewrite (flat_map_percentages _
               (fun i => percentage (length (mask_positions labels i)) (length labels))
               _ _ Hes).
    + apply percentages_sum_to_100; [|assumption].
      intros ->. simpl in Hlen. lia.
    + intros i v Hi. apply cluster_entry_inv in Hi. apply Hi.
Qed.

Lemma example_library_KMeans : KMeans_contract example_library.
Proof.
  intros k X labels H. simpl in H. destruct k as [|k]; [discriminate|].
  simpl in H. injection H as <-. split; [lia|].
  apply Forall_forall. intros l Hl. apply in_map_iff in Hl. destruct Hl as [_ [<- _]]. lia.
Qed.

Lemma cluster_percentages_sum_to_100_witness :
  (exists result,
      run_clustering_analysis (lib := example_library) (init doubled) None None = Ok result
      /\ Rsum (summary_percentages result) = 100%R)
  /\ Rsum (statistics_percentages
             (perform_clustering_analysis (lib := example_library)
                (pd_DataFrame doubled) ["x"; "y"])) = 100%R.
Proof.
  destruct (cluster_percentages_sum_to_100 (lib := example_library) example_library_KMeans)
    as [Hrun Hperform].
  split.
  - assert (H : exists result,
               run_clustering_analysis (lib := example_library) (init doubled) None None
               = Ok result
               /\ dict_has "error" result = false).
    { eexists. split; reflexivity. }
    destruct H as [result [H Hne]].
    exists result. split; [assumption|]. exact (Hrun doubled None None result H Hne).
  - apply Hperform;
      unfold perform_clustering_analysis, clustering_try, choose_clusters;
      lazy -[Rgtb Rsum sqrt Rplus Rminus Rmult Rdiv Rinv INR IZR];
      destruct (Rgtb _ _); first [reflexivity | discriminate].
Defined.

(** ** Pearson's coefficient as [DataFrame.corr] computes it *)








Lemma zip_self (xs : list R) : zip xs xs = map (fun x => (x, x)) xs.
Proof. induction xs as [|x xs IH]; simpl; [|rewrite IH]; reflexivity. Qed.

Lemma co_dev_self (xs : list R) : co_dev xs xs = sq_dev xs.
Proof.
  unfold co_dev, sq_dev. rewrite zip_self, map_map. reflexivity.
Qed.

Lemma square_nonneg (t : R) : (0 <= t * t)%R.
Proof. nra. Qed.

Lemma Rsum_nonneg (xs : list R) :
  (forall x, In x xs -> 0 <= x)%R -> (0 <= Rsum xs)%R.
Proof.
  induction xs as [|x xs IH]; simpl; intros H; [lra|].
  pose proof (H x (or_introl eq_refl)).
  pose proof (IH (fun y Hy => H y (or_intror Hy))). lra.
Qed.







(** ** The correlation matrix as a dictionary *)

(** A loop of assignments leaves under each key the value assigned last. *)
Lemma dict_get_fold_set {A : Type} (key : A -> string) (val : A -> value)
    (l : list A) (d0 : dict) (k : string) :
  dict_get k (fold_left (fun d x => dict_set (key x) (val x) d) l d0)
  = match find (fun x => String.eqb k (key x)) (rev l) with
    | Some x => Some (val x)
    | None => dict_get k d0
    end.
Proof.
  induction l as [|x l IH] using rev_ind; [reflexivity|].
  rewrite fold_left_app, rev_unit. simpl. rewrite dict_get_set.
  destruct (String.eqb k (key x)); [reflexivity|]. apply IH.
Qed.

Lemma corr_to_dict_get (labels : list string) (m : list (list pyfloat)) (a b : string) :
  match dict_get a (corr_to_dict labels m) with
  | Some (VDict inner) => dict_get b inner
  | _ => None
  end
  = match last_pos labels a, last_pos labels b with
    | Some j, Some i => Some (vfloat (iloc m i j))
    | _, _ => None
    end.
Proof.
  unfold corr_to_dict, last_pos.
  rewrite (dict_get_fold_set snd
             (fun jc => VDict (fold_left
                                 (fun inner ir =>
                                    dict_set (snd ir) (vfloat (iloc m (fst ir) (fst jc))) inner)
                                 (enumerate labels) []))).
  destruct (find (fun x => String.eqb a (snd x)) (rev (enumerate labels))) as [jc|];
    [|reflexivity].
  simpl.
  rewrite (dict_get_fold_set snd (fun ir => vfloat (iloc m (fst ir) (fst jc)))).
  destruct (find (fun x => String.eqb b (snd x)) (rev (enumerate labels))); reflexivity.
Qed.

Lemma nth_map_error {A B : Type} (F : A -> B) (l : list A) (i : nat) (d : B) :
  nth i (map F l) d = match nth_error l i with Some x => F x | None => d end.
Proof.
  revert i. induction l as [|x l IH]; intros [|i]; simpl; try reflexivity. apply IH.
Qed.

Lemma iloc_corr (f : DataFrame) (i j : nat) :
  iloc (corr f) i j
  = match nth_error (df_columns f) i, nth_error (df_columns f) j with
    | Some ci, Some cj => pearson (s_values (snd ci)) (s_values (snd cj))
    | _, _ => None
    end.
Proof.
  unfold iloc, corr. rewrite nth_map_error.
  destruct (nth_error (df_columns f) i) as [ci|].
  - rewrite nth_map_error. reflexivity.
  - destruct j; reflexivity.
Qed.








Lemma select_numeric_incl (data_json : list record) (columns : option (list string))
    (k : string) :
  In k (select_numeric (init data_json) columns) ->
  In k (columns_of (pd_DataFrame data_json)).
Proof.
  intros H. apply numeric_columns_incl. destruct columns as [cols|]; simpl in H.
  - apply filter_In in H. apply mem_In. apply H.
  - assumption.
Qed.

Lemma matrix_entry_head (d rest : dict) (a b : string) :
  matrix_entry (("correlation_matrix", VDict d) :: rest) a b
  = match dict_get a d with
    | Some (VDict inner) => dict_get b inner
    | _ => None
    end.
Proof. reflexivity. Qed.




(** * Further properties of the code *)

(** ** Sorting *)

Lemma insert_desc_In {A : Type} (key : A -> R) (x z : A) (l : list A) :
  In z (insert_desc key x l) <-> z = x \/ In z l.
Proof.
  induction l as [|y l IH]; simpl.
  - intuition congruence.
  - destruct (Rltb (key y) (key x)); simpl; [intuition congruence|].
    rewrite IH. intuition congruence.
Qed.

Lemma sort_desc_In {A : Type} (key : A -> R) (z : A) (l : list A) :
  In z (sort_desc key l) <-> In z l.
Proof.
  unfold sort_desc.
  assert (G : forall acc, In z (fold_left (fun acc x => insert_desc key x acc) l acc)
                          <-> In z l \/ In z acc).
  { induction l as [|x l IH]; intros acc; simpl; [tauto|].
    rewrite IH, insert_desc_In. intuition congruence. }
  rewrite G. simpl. tauto.
Qed.

Lemma insert_desc_length {A : Type} (key : A -> R) (x : A) (l : list A) :
  length (insert_desc key x l) = S (length l).
Proof.
  induction l as [|y l IH]; simpl; [reflexivity|].
  destruct (Rltb (key y) (key x)); simpl; [reflexivity|]. rewrite IH. reflexivity.
Qed.

Lemma sort_desc_length {A : Type} (key : A -> R) (l : list A) :
  length (sort_desc key l) = length l.
Proof.
  unfold sort_desc.
  assert (G : forall acc, length (fold_left (fun acc x => insert_desc key x acc) l acc)
                          = length l + length acc).
  { induction l as [|x l IH]; intros acc; simpl; [reflexivity|].
    rewrite IH, insert_desc_length. lia. }
  rewrite G. simpl. lia.
Qed.

Lemma insert_desc_sorted {A : Type} (key : A -> R) (x : A) (l : list A) :
  sorted_desc key l -> sorted_desc key (insert_desc key x l).
Proof.
  induction 1 as [|y l Hy Hl IH]; simpl.
  - constructor; [intros y []|constructor].
  - unfold Rltb. destruct (Rlt_dec (key y) (key x)) as [Hlt|Hge].
    + constructor; [|constructor; assumption].
      intros z [<-|Hz]; [lra|]. specialize (Hy z Hz). lra.
    + constructor; [|assumption].
      intros z Hz. apply insert_desc_In in Hz. destruct Hz as [->|Hz]; [lra|].
      apply Hy. assumption.
Qed.

Lemma sort_desc_sorted {A : Type} (key : A -> R) (l : list A) :
  sorted_desc key (sort_desc key l).
Proof.
  unfold sort_desc.
  assert (G : forall acc, sorted_desc key acc ->
                          sorted_desc key (fold_left (fun acc x => insert_desc key x acc) l acc)).
  { induction l as [|x l IH]; intros acc Hacc; simpl; [assumption|].
    apply IH, insert_desc_sorted, Hacc. }
  apply G. constructor.
Qed.

Lemma In_firstn {A : Type} (n : nat) (l : list A) (x : A) :
  In x (firstn n l) -> In x l.
Proof.
  intros H. rewrite <- (firstn_skipn n l). apply in_or_app. left. assumption.
Qed.

Lemma sorted_desc_firstn {A : Type} (key : A -> R) (n : nat) (l : list A) :
  sorted_desc key l -> sorted_desc key (firstn n l).
Proof.
  intros H. revert n. induction H as [|x l Hx Hl IH]; intros [|n]; simpl;
    try constructor.
  - intros y Hy. apply Hx. eapply In_firstn; eassumption.
  - apply IH.
Qed.

Lemma sorted_desc_map {A B : Type} (key : A -> R) (key' : B -> R) (f : A -> B)
    (l : list A) :
  (forall a, key' (f a) = key a) ->
  sorted_desc key l -> sorted_desc key' (map f l).
Proof.
  intros Hk. induction 1 as [|x l Hx Hl IH]; simpl; constructor; [|assumption].
  intros y Hy. apply in_map_iff in Hy. destruct Hy as [a [<- Ha]].
  rewrite !Hk. apply Hx. assumption.
Qed.

Lemma sorted_desc_descending {A : Type} (key : A -> R) (l : list A) :
  sorted_desc key l -> descending key l.
Proof.
  induction 1 as [|x l Hx Hl IH]; intros i j Hij Hj d.
  - simpl in Hj. lia.
  - destruct j as [|j]; [lia|]. simpl in Hj. destruct i as [|i]; simpl.
    + apply Hx. apply nth_In. lia.
    + apply IH; lia.
Qed.

Lemma flat_map_fields {A : Type} (f : value -> list R) (l : list (A * value))
    (proj : A * value -> R) :
  (forall e, In e l -> f (snd e) = [proj e]) ->
  flat_map f (map snd l) = map proj l.
Proof.
  induction l as [|e l IH]; intros H; simpl; [reflexivity|].
  rewrite (H e (or_introl eq_refl)), IH; [reflexivity|].
  intros e' He'. apply H. right. assumption.
Qed.

Lemma flat_map_map_fields {A : Type} (f : value -> list R) (g : A -> value)
    (proj : A -> R) (l : list A) :
  (forall a, f (g a) = [proj a]) -> flat_map f (map g l) = map proj l.
Proof.
  intros H. induction l as [|a l IH]; simpl; [reflexivity|].
  rewrite H, IH. reflexivity.
Qed.

(** ** [run_correlation_analysis] *)

(** X1. The correlation analysis raises on no dataset and no restriction:
    it returns either its error mapping or a result. *)
Theorem run_correlation_analysis_returns (data_json : list record)
    (columns : option (list string)) :
  exists result, run_correlation_analysis (init data_json) columns = Ok result.
Proof.
  unfold run_correlation_analysis.
  destruct (length (select_numeric (init data_json) columns) <? 2);
    [eexists; reflexivity|].
  unfold init. cbn [df].
  rewrite (getitem_list_unique _ _ (pd_DataFrame_NoDup data_json)).
  - eexists. reflexivity.
  - intros k Hk. eapply select_numeric_incl. exact Hk.
Qed.

(** X2. ['top_correlations'] lists at most 10 pairs, in non-increasing order
    of the absolute value of their correlation. *)
Theorem top_correlations_sorted (data_json : list record)
    (columns : option (list string)) (result : dict) :
  run_correlation_analysis (init data_json) columns = Ok result ->
  length (list_field "top_correlations" "correlation" result) <= 10
  /\ descending Rabs (list_field "top_correlations" "correlation" result).
Proof.
  intros H. unfold run_correlation_analysis in H.
  destruct (length (select_numeric (init data_json) columns) <? 2).
  { injection H as <-. split; [simpl; lia|]. intros i j _ Hj. simpl in Hj. lia. }
  inv_bind H. injection H as <-.
  unfold list_field. cbn [dict_get String.eqb Ascii.eqb Bool.eqb].
  match goal with
  | |- context [sort_desc ?k ?l] => set (cs := l); set (sorted := sort_desc k cs)
  end.
  assert (Hcs : forall e, In e cs -> float_field "correlation" (snd e) = [fst e]).
  { intros e He. unfold cs in He. apply in_flat_map in He.
    destruct He as [ij [_ He]].
    destruct (iloc (corr a) (fst ij) (snd ij)); [|contradiction].
    destruct He as [<-|[]]. reflexivity. }
  assert (Hsorted : forall e, In e (firstn 10 sorted) ->
                      float_field "correlation" (snd e) = [fst e]).
  { intros e He. apply Hcs. apply In_firstn in He.
    apply (sort_desc_In (fun c => Rabs (fst c))). assumption. }
  match goal with
  | |- context [map snd ?t] => change t with (firstn 10 sorted)
  end.
  rewrite (flat_map_fields _ _ fst Hsorted). split.
  - rewrite length_map. apply firstn_le_length.
  - apply sorted_desc_descending.
    apply (sorted_desc_map (fun c : R * value => Rabs (fst c)) Rabs fst);
      [reflexivity|].
    apply sorted_desc_firstn. apply sort_desc_sorted.
Qed.

Lemma top_correlations_sorted_witness :
  exists result,
    run_correlation_analysis (init shop) None = Ok result
    /\ length (list_field "top_correlations" "correlation" result) <= 10
    /\ descending Rabs (list_field "top_correlations" "correlation" result).
Proof.
  assert (H : exists result, run_correlation_analysis (init shop) None = Ok result)
    by (eexists; reflexivity).
  destruct H as [result H]. exists result. split; [assumption|].
  apply (top_correlations_sorted shop None result H).
Defined.

(** ** [run_regression_analysis] and [run_time_series_forecast]: their guards *)

(** X3. A target column that is not a column of the dataset gives the
    error mapping of the regression and of the forecast, before anything else
    is looked at (feature columns, periods) and before any library call. *)
Theorem missing_target_column {lib : Library} (data_json : list record)
    (target_column : string) (feature_columns : option (list string)) (periods : Z) :
  ~ In target_column (columns_of (pd_DataFrame data_json)) ->
  run_regression_analysis (init data_json) target_column feature_columns
  = Ok [("error", VStr ("Target column " ++ target_column ++ " not found")%string)]
  /\ run_time_series_forecast (init data_json) target_column periods
     = Ok [("error", VStr ("Target column " ++ target_column ++ " not found")%string)].
Proof.
  intros H. apply mem_false in H.
  unfold run_regression_analysis, run_time_series_forecast, init. cbn [df].
  rewrite H. split; reflexivity.
Qed.

Lemma missing_target_column_witness :
  run_regression_analysis (lib := example_library) (init shop) "profit" (Some ["zzz"])
  = Ok [("error", VStr "Target column profit not found")]
  /\ run_time_series_forecast (lib := example_library) (init shop) "profit" 6
     = Ok [("error", VStr "Target column profit not found")].
Proof.
  apply (missing_target_column (lib := example_library) shop "profit").
  apply mem_false. reflexivity.
Defined.

Lemma mapM_raises {A B : Type} (f : A -> outcome B) (l : list A) (a : A) (e : string) :
  In a l -> f a = Raise e -> exists e', mapM f l = Raise e'.
Proof.
  induction l as [|b l IH]; intros Hin Hf; [contradiction|]. simpl.
  destruct (f b) as [y|e0] eqn:Eb; [|exists e0; reflexivity]. simpl.
  destruct Hin as [->|Hin]; [congruence|].
  destruct (IH Hin Hf) as [e' He']. rewrite He'. exists e'. reflexivity.
Qed.

(** X4. A caller-supplied feature column that does not exist is not
    reported as an error mapping: the [KeyError] of the selection leaves
    [run_regression_analysis] as an exception. *)
Theorem missing_feature_column_raises {lib : Library} (data_json : list record)
    (target_column : string) (feature_columns : list string) (missing : string) :
  In target_column (columns_of (pd_DataFrame data_json)) ->
  In missing feature_columns ->
  ~ In missing (columns_of (pd_DataFrame data_json)) ->
  exists e,
    run_regression_analysis (init data_json) target_column (Some feature_columns)
    = Raise e.
Proof.
  intros Ht Hin Hmiss. apply mem_In in Ht.
  unfold run_regression_analysis, init. cbn [df]. rewrite Ht. cbn [negb].
  destruct feature_columns as [|c cs] eqn:Ec; [contradiction|]. rewrite <- Ec in *.
  assert (Hlen : (length feature_columns =? 0) = false) by (subst; reflexivity).
  rewrite Hlen. unfold getitem_list.
  assert (Hraise : exists e,
             mapM (fun k => match lookup_label (pd_DataFrame data_json) k with
                            | [] => Raise ("'" ++ k ++ "'")%string
                            | cs => Ok cs
                            end) feature_columns = Raise e).
  { apply (mapM_raises _ _ missing ("'" ++ missing ++ "'")%string Hin).
    unfold lookup_label. rewrite filter_label_absent; [reflexivity|].
    exact Hmiss. }
  destruct Hraise as [e He]. rewrite He. exists e. reflexivity.
Qed.

Lemma missing_feature_column_raises_witness :
  exists e,
    run_regression_analysis (lib := example_library) (init shop) "price"
      (Some ["units"; "weight"]) = Raise e.
Proof.
  apply (missing_feature_column_raises (lib := example_library) shop "price"
           ["units"; "weight"] "weight").
  - apply mem_In. reflexivity.
  - simpl. auto.
  - apply mem_false. reflexivity.
Defined.

(** X5. In a regression result ['feature_importance'] is listed in
    non-increasing order of importance. *)
Theorem feature_importance_sorted {lib : Library} (data_json : list record)
    (target_column : string) (feature_columns : option (list string)) (result : dict) :
  run_regression_analysis (init data_json) target_column feature_columns = Ok result ->
  descending (fun r => r) (list_field "feature_importance" "importance" result).
Proof.
  intros H. unfold run_regression_analysis in H.
  destruct (negb _).
  { injection H as <-. intros i j _ Hj. simpl in Hj. lia. }
  destruct (length _ =? 0).
  { injection H as <-. intros i j _ Hj. simpl in Hj. lia. }
  inv_bind H. injection H as <-.
  unfold list_field. cbn [dict_get String.eqb Ascii.eqb Bool.eqb].
  match goal with
  | |- context [sort_desc ?k ?l] => set (sorted := sort_desc k l)
  end.
  rewrite (flat_map_map_fields _ _ snd) by reflexivity.
  apply sorted_desc_descending.
  apply (sorted_desc_map (snd (A := string)) (fun r => r) snd); [reflexivity|].
  apply sort_desc_sorted.
Qed.

Lemma feature_importance_sorted_witness :
  exists result,
    run_regression_analysis (lib := stand_in_library true false) (init homes) "price" None
    = Ok result
    /\ list_field "feature_importance" "importance" result
       = [(INR 2 / INR 3)%R; (INR 1 / INR 3)%R]
    /\ descending (fun r => r) (list_field "feature_importance" "importance" result).
Proof.
  assert (H : exists result,
             run_regression_analysis (lib := stand_in_library true false) (init homes)
               "price" None = Ok result
             /\ list_field "feature_importance" "importance" result
                = [(INR 2 / INR 3)%R; (INR 1 / INR 3)%R]).
  { eexists. split; [reflexivity|].
    change (flat_map (float_field "importance")
              (map (fun fi : string * R =>
                      VDict [("feature", VStr (fst fi)); ("importance", VFloat (snd fi))])
                   (sort_desc snd [("rooms", (INR 1 / INR 3)%R);
                                   ("area", (INR 2 / INR 3)%R)]))
            = [(INR 2 / INR 3)%R; (INR 1 / INR 3)%R]).
    assert (Hs : sort_desc snd [("rooms", (INR 1 / INR 3)%R); ("area", (INR 2 / INR 3)%R)]
                 = [("area", (INR 2 / INR 3)%R); ("rooms", (INR 1 / INR 3)%R)]).
    { unfold sort_desc. simpl fold_left. unfold insert_desc, Rltb. cbn [snd].
      match goal with
      | |- context [Rlt_dec ?a ?b] => destruct (Rlt_dec a b) as [_|n]
      end; [reflexivity|].
      exfalso. apply n. lra. }
    rewrite Hs. reflexivity. }
  destruct H as [result [H Hl]]. exists result. split; [assumption|]. split; [assumption|].
  apply (feature_importance_sorted (lib := stand_in_library true false) homes "price" None
           result H).
Defined.

(** ** [run_time_series_forecast] *)

Lemma zip_filter_snd_length {A B : Type} (p : B -> bool) (l : list A) (m : list B) :
  length l = length m ->
  length (filter (fun iv => p (snd iv)) (zip l m)) = length (filter p m).
Proof.
  revert m. induction l as [|a l IH]; intros [|b m] H; simpl in *;
    try reflexivity; try discriminate.
  destruct (p b); simpl; rewrite IH by lia; reflexivity.
Qed.

Lemma pd_DataFrame_column_lengths (data_json : list record) (k : string) (s : Series) :
  In (k, s) (df_columns (pd_DataFrame data_json)) ->
  length (s_index s) = length (s_values s).
Proof.
  unfold pd_DataFrame. cbn [df_columns]. intros H. apply in_map_iff in H.
  destruct H as [k' [E _]]. injection E as _ <-. cbn [s_index s_values].
  rewrite length_seq, length_map. reflexivity.
Qed.

(** X6. A target column with fewer than 3 values present (missing values
    do not count) gives the forecast's own error mapping, and neither the
    regression of the trend nor any other library routine is called. *)
Theorem forecast_needs_three_points {lib : Library} (data_json : list record)
    (target_column : string) (s : Series) (periods : Z) :
  In (target_column, s) (df_columns (pd_DataFrame data_json)) ->
  length (filter (fun c => negb (is_null c)) (s_values s)) < 3 ->
  run_time_series_forecast (init data_json) target_column periods
  = Ok [("error", VStr "Need at least 3 data points for forecasting")].
Proof.
  intros Hin Hlen. unfold run_time_series_forecast, init. cbn [df].
  assert (Hmem : mem target_column (columns_of (pd_DataFrame data_json)) = true).
  { apply mem_In. unfold columns_of. apply (in_map fst) in Hin. assumption. }
  rewrite Hmem. cbn [negb].
  rewrite (getitem_unique _ _ s (pd_DataFrame_NoDup data_json) Hin). cbn [bind].
  assert (Hshort : (len_obj (dropna_obj (PSeries s)) <? 3) = true).
  { apply Nat.ltb_lt. cbn [dropna_obj len_obj]. unfold len_series, dropna.
    cbn [s_index]. rewrite length_map.
    rewrite (zip_filter_snd_length (fun c => negb (is_null c)))
      by (eapply pd_DataFrame_column_lengths; eassumption).
    assumption. }
  rewrite Hshort. reflexivity.
Qed.

Lemma forecast_needs_three_points_witness :
  run_time_series_forecast (lib := example_library) (init monthly_sales) "returns" 6
  = Ok [("error", VStr "Need at least 3 data points for forecasting")].
Proof.
  apply (forecast_needs_three_points (lib := example_library) monthly_sales "returns"
           (mkSeries Numeric (seq 0 5) [CNum 1; CNum 2; CNull; CNull; CNull])).
  - simpl. auto.
  - simpl. lia.
Defined.

(** X7. A successful forecast is the fitted line continued: with [n] values
    present in the target column, period [i] (from 0) is forecast as
    [slope * (n + i) + intercept], so consecutive forecasts differ by exactly
    the reported ['trend_slope']. Floats are taken as real numbers. *)
Theorem forecast_is_a_line {lib : Library} (data_json : list record)
    (target_column : string) (periods : Z) (result : dict) :
  run_time_series_forecast (init data_json) target_column periods = Ok result ->
  dict_has "error" result = false ->
  exists data lr forecast,
    getitem (pd_DataFrame data_json) target_column = Ok data
    /\ stats_linregress (arange 0 (len_obj (dropna_obj data))) (dropna_obj data) = Ok lr
    /\ dict_get "trend_slope" result = Some (VFloat (slope lr))
    /\ dict_get "forecast" result = Some (tolist forecast)
    /\ (forall i, i < Z.to_nat periods ->
          nth i forecast 0%R
          = (slope lr * INR (len_obj (dropna_obj data) + i) + intercept lr)%R)
    /\ (forall i, S i < Z.to_nat periods ->
          (nth (S i) forecast 0 - nth i forecast 0 = slope lr)%R).
Proof.
  intros H Hne. unfold run_time_series_forecast in H. unfold init in H. cbn [df] in H.
  destruct (negb (mem target_column (columns_of (pd_DataFrame data_json))));
    [injection H as <-; discriminate|].
  inv_bind H. rename a into data.
  destruct (len_obj (dropna_obj data) <? 3); [injection H as <-; discriminate|].
  inv_bind H. rename a into lr. injection H as <-.
  set (n := len_obj (dropna_obj data)) in *.
  exists data, lr, (map (fun fx => (slope lr * fx + intercept lr)%R)
                        (arange n (Z.to_nat periods))).
  split; [reflexivity|]. split; [assumption|].
  split; [reflexivity|]. split; [reflexivity|].
  assert (Hnth : forall i, i < Z.to_nat periods ->
            nth i (map (fun fx => (slope lr * fx + intercept lr)%R)
                       (arange n (Z.to_nat periods))) 0%R
            = (slope lr * INR (n + i) + intercept lr)%R).
  { intros i Hi. unfold arange.
    rewrite (nth_map_lt _ _ i 0%R) by (rewrite length_map, length_seq; assumption).
    rewrite (nth_map_lt INR _ i 0) by (rewrite length_seq; assumption).
    rewrite seq_nth by assumption. reflexivity. }
  split; [exact Hnth|].
  intros i Hi. rewrite !Hnth by lia.
  replace (n + S i) with (S (n + i)) by lia. rewrite S_INR. ring.
Qed.

Lemma forecast_is_a_line_witness :
  exists result data lr forecast,
    run_time_series_forecast (lib := example_library) (init quarterly) "revenue" 2
    = Ok result
    /\ getitem (pd_DataFrame quarterly) "revenue" = Ok data
    /\ dict_get "trend_slope" result = Some (VFloat (slope lr))
    /\ dict_get "forecast" result = Some (tolist forecast)
    /\ (nth 1 forecast 0 - nth 0 forecast 0 = slope lr)%R.
Proof.
  assert (H : exists result,
             run_time_series_forecast (lib := example_library) (init quarterly)
               "revenue" 2 = Ok result
             /\ dict_has "error" result = false).
  { eexists. split; reflexivity. }
  destruct H as [result [Hrun Hne]].
  destruct (forecast_is_a_line (lib := example_library) quarterly "revenue" 2
              result Hrun Hne) as [data [lr [forecast [Hget [_ [Hs [Hf [_ Hd]]]]]]]].
  exists result, data, lr, forecast.
  repeat (split; [assumption|]). apply Hd. simpl. lia.
Defined.

Lemma dropna_values_present (s : Series) (c : cell) :
  In c (s_values (dropna s)) -> is_null c = false.
Proof.
  unfold dropna. cbn [s_values]. intros H. apply in_map_iff in H.
  destruct H as [[i c'] [E Hin]]. simpl in E. subst c'.
  apply filter_In in Hin. destruct Hin as [_ Hp]. simpl in Hp.
  apply negb_true_iff in Hp. assumption.
Qed.

(** X8. The ['historical_data'] of a successful forecast holds at least 3
    values and no missing one: the forecast is computed from the values
    present only. *)
Theorem historical_data_complete {lib : Library} (data_json : list record)
    (target_column : string) (periods : Z) (result : dict) :
  run_time_series_forecast (init data_json) target_column periods = Ok result ->
  dict_has "error" result = false ->
  exists vs,
    dict_get "historical_data" result = Some (VList vs)
    /\ 3 <= length vs
    /\ ~ In VNaN vs.
Proof.
  intros H Hne. unfold run_time_series_forecast in H. unfold init in H. cbn [df] in H.
  destruct (negb (mem target_column (columns_of (pd_DataFrame data_json))));
    [injection H as <-; discriminate|].
  inv_bind H. rename a into data.
  destruct (len_obj (dropna_obj data) <? 3) eqn:Elen; [injection H as <-; discriminate|].
  apply Nat.ltb_ge in Elen.
  inv_bind H. injection H as <-.
  destruct data as [s|f]; cbn [dropna_obj tolist_obj] in *; [|discriminate].
  injection E2 as <-.
  eexists. split; [reflexivity|]. split.
  - rewrite length_map. cbn [len_obj] in Elen. unfold len_series, dropna in *.
    cbn [s_index s_values] in *. rewrite length_map in *. assumption.
  - intros Hin. apply in_map_iff in Hin. destruct Hin as [c [Ec Hc]].
    apply dropna_values_present in Hc. destruct c; discriminate.
Qed.

Lemma historical_data_complete_witness :
  exists result vs,
    run_time_series_forecast (lib := example_library) (init quarterly) "revenue" 2
    = Ok result
    /\ dict_get "historical_data" result = Some (VList vs)
    /\ 3 <= length vs
    /\ ~ In VNaN vs.
Proof.
  assert (H : exists result,
             run_time_series_forecast (lib := example_library) (init quarterly)
               "revenue" 2 = Ok result
             /\ dict_has "error" result = false).
  { eexists. split; reflexivity. }
  destruct H as [result [Hrun Hne]].
  destruct (historical_data_complete (lib := example_library) quarterly "revenue" 2
              result Hrun Hne) as [vs Hvs].
  exists result, vs. split; assumption.
Defined.

(** ** Choosing the number of clusters *)

Lemma index_of_max_range (l : list R) (pos best_pos : nat) (best : R) :
  index_of_max l pos best_pos best = best_pos
  \/ (pos <= index_of_max l pos best_pos best < pos + length l).
Proof.
  revert pos best_pos best. induction l as [|x l IH]; intros pos bp b; simpl.
  - left. reflexivity.
  - destruct (Rgtb x b).
    + right. destruct (IH (S pos) pos x) as [->|H]; lia.
    + destruct (IH (S pos) bp b) as [->|H]; [left; reflexivity|right; lia].
Qed.

Lemma diffs_of_length (inertias : list R) :
  length (diffs_of inertias) = length inertias - 1.
Proof.
  induction inertias as [|a [|b rest] IH]; simpl in *; try reflexivity.
  rewrite IH. lia.
Qed.

Lemma elbow_range {lib : Library} (self : DataAnalysisEngine) (X_scaled : matrix) (k : nat) :
  elbow self X_scaled = Ok k ->
  2 <= k <= 6 /\ (len_df (df self) < 8 -> k = 3).
Proof.
  intros H. unfold elbow in H. inv_bind H. rename a into inertias.
  apply mapM_Forall2 in E. apply Forall2_length in E. rewrite length_seq in E.
  set (m := Nat.min 8 (len_df (df self) / 2) - 2) in *.
  assert (Hm : m <= 6) by (unfold m; lia).
  destruct (2 <=? length inertias) eqn:E2.
  - apply Nat.leb_le in E2.
    pose proof (diffs_of_length inertias) as Hd.
    destruct (diffs_of inertias) as [|d ds]; [injection H as <-; split; lia|].
    simpl in Hd. injection H as <-.
    assert (Hidx : index_of_max ds 1 0 d + 2 <= m).
    { destruct (index_of_max_range ds 1 0 d) as [->|Hr]; lia. }
    rewrite seq_nth by lia. split; [lia|].
    intros Hn. exfalso.
    assert (len_df (df self) / 2 < 4) by (apply Nat.Div0.div_lt_upper_bound; lia).
    unfold m in *. lia.
  - injection H as <-. split; [lia|]. reflexivity.
Qed.

(** X9. When the caller gives no cluster count, [run_clustering_analysis]
    reports an ['n_clusters'] between 2 and 6, and 3 for every dataset with
    fewer than 8 rows. *)
Theorem default_cluster_count {lib : Library} (data_json : list record)
    (columns : option (list string)) (result : dict) :
  run_clustering_analysis (init data_json) columns None = Ok result ->
  dict_has "error" result = false ->
  exists k,
    dict_get "n_clusters" result = Some (VInt (Z.of_nat k))
    /\ 2 <= k <= 6
    /\ (length data_json < 8 -> k = 3).
Proof.
  intros H Hne. unfold run_clustering_analysis in H.
  destruct (length (select_numeric (init data_json) columns) <? 2);
    [injection H as <-; discriminate|].
  inv_bind H. injection H as <-. rename a2 into k.
  exists k. split; [reflexivity|].
  destruct (elbow_range _ _ _ E2) as [Hk H8]. split; [assumption|].
  intros Hlen. apply H8. unfold init, len_df, pd_DataFrame. cbn [df df_index].
  rewrite length_seq. assumption.
Qed.

Lemma default_cluster_count_witness :
  exists result,
    run_clustering_analysis (lib := example_library) (init doubled) None None = Ok result
    /\ dict_get "n_clusters" result = Some (VInt 3).
Proof.
  assert (H : exists result,
             run_clustering_analysis (lib := example_library) (init doubled) None None
             = Ok result
             /\ dict_has "error" result = false).
  { eexists. split; reflexivity. }
  destruct H as [result [Hrun Hne]]. exists result. split; [assumption|].
  destruct (default_cluster_count (lib := example_library) doubled None result Hrun Hne)
    as [k [Hk [_ H3]]].
  rewrite Hk, (H3 ltac:(simpl; lia)). reflexivity.
Defined.

Lemma foldM_invariant_In {A S : Type} (P : S -> Prop) (f : S -> A -> outcome S)
    (l : list A) :
  (forall s a s', In a l -> P s -> f s a = Ok s' -> P s') ->
  forall s s', P s -> foldM f l s = Ok s' -> P s'.
Proof.
  induction l as [|a l IH]; intros Hf s s' Hs H; simpl in H.
  - injection H as <-. assumption.
  - unfold bind in H. destruct (f s a) as [s1|e] eqn:E; [|discriminate].
    apply (IH (fun s0 b s0' Hb => Hf s0 b s0' (or_intror Hb)) s1 s');
      [|assumption].
    apply (Hf s a s1); [left; reflexivity|assumption|assumption].
Qed.

Lemma choose_clusters_range {lib : Library} (X_scaled : matrix) (n k : nat) :
  choose_clusters X_scaled n = Ok k -> 2 <= k <= 5 /\ (3 <= n -> k < n).
Proof.
  intros H. unfold choose_clusters in H. inv_bind H. injection H as <-.
  revert E.
  apply (foldM_invariant_In (fun st => 2 <= fst st <= 5 /\ (3 <= n -> fst st < n)));
    [|simpl; lia].
  intros st c st' Hc Hst Hstep. apply in_seq in Hc.
  unfold bind in Hstep.
  destruct (KMeans_fit_predict c X_scaled) as [labels|]; [|discriminate].
  destruct (silhouette_approx X_scaled labels c) as [sil|]; [|discriminate].
  destruct (Rgtb sil (snd st)); injection Hstep as <-; [|assumption].
  simpl. lia.
Qed.

(** X10. The number of clusters [perform_clustering_analysis] settles on is
    one of 2, 3, 4, 5, whatever the data and whatever k-means returns. *)
Theorem optimal_clusters_range {lib : Library} (data : DataFrame)
    (numeric_cols : list string) (v : value) :
  entry "statistics" "optimal_clusters" (perform_clustering_analysis data numeric_cols)
  = Some v ->
  exists k, v = VInt (Z.of_nat k) /\ 2 <= k <= 5.
Proof.
  unfold perform_clustering_analysis, clustering_failed.
  destruct (length numeric_cols <? 2); [discriminate|].
  destruct (clustering_try data numeric_cols) as [[[[evr k] cluster_stats]|]|e] eqn:H;
    try discriminate.
  assert (Hk : 2 <= k <= 5).
  { unfold clustering_try in H. inv_bind H.
    destruct (len_df (dropna_df a) <? 3); [discriminate|].
    inv_bind H. injection H as _ <- _.
    eapply choose_clusters_range. eassumption. }
  destruct evr as [|evr0 evr]; intros Hv; injection Hv as <-; exists k; split;
    first [reflexivity | assumption].
Qed.

Lemma optimal_clusters_range_witness :
  exists k,
    entry "statistics" "optimal_clusters"
      (perform_clustering_analysis (lib := example_library) (pd_DataFrame doubled)
         ["x"; "y"]) = Some (VInt (Z.of_nat k))
    /\ 2 <= k <= 5.
Proof.
  assert (H : exists v,
             entry "statistics" "optimal_clusters"
               (perform_clustering_analysis (lib := example_library)
                  (pd_DataFrame doubled) ["x"; "y"]) = Some v).
  { unfold perform_clustering_analysis, clustering_try, choose_clusters.
    lazy -[Rgtb Rsum sqrt Rplus Rminus Rmult Rdiv Rinv INR IZR].
    destruct (Rgtb _ _); eexists; reflexivity. }
  destruct H as [v Hv].
  destruct (optimal_clusters_range (lib := example_library) _ _ v Hv) as [k [-> Hk]].
  exists k. split; assumption.
Defined.

(** ** The results of the clusterings *)

(** X11. A successful [run_clustering_analysis] lists one summary per
    cluster, and (with at least one cluster) one assignment per row of the
    dataset, rows with missing values included. *)
Theorem cluster_assignments_cover_rows {lib : Library} (data_json : list record)
    (columns : option (list string)) (n_clusters : option nat) (result : dict) :
  run_clustering_analysis (init data_json) columns n_clusters = Ok result ->
  dict_has "error" result = false ->
  exists k labels infos,
    dict_get "n_clusters" result = Some (VInt (Z.of_nat k))
    /\ dict_get "cluster_assignments" result
       = Some (VList (map (fun c => VInt (Z.of_nat c)) labels))
    /\ dict_get "cluster_summary" result = Some (VList infos)
    /\ length infos = k
    /\ (1 <= k -> length labels = length data_json).
Proof.
  intros H Hne. unfold run_clustering_analysis in H.
  destruct (length (select_numeric (init data_json) columns) <? 2);
    [injection H as <-; discriminate|].
  inv_bind H. injection H as <-.
  rename a2 into k, a3 into labels, a4 into infos.
  exists k, labels, infos. do 3 (split; [reflexivity|]).
  apply mapM_Forall2 in E4. split.
  - apply Forall2_length in E4. rewrite length_seq in E4. symmetry. assumption.
  - intros Hk. destruct k as [|k]; [lia|].
    inversion E4 as [|i v l vs Hi _]; subst.
    apply cluster_info_inv in Hi. destruct Hi as [Hl _]. rewrite Hl.
    unfold init, len_df, pd_DataFrame. cbn [df df_index]. apply length_seq.
Qed.

Lemma cluster_assignments_cover_rows_witness :
  exists result labels,
    run_clustering_analysis (lib := example_library) (init shop) None (Some 2) = Ok result
    /\ dict_get "cluster_assignments" result
       = Some (VList (map (fun c => VInt (Z.of_nat c)) labels))
    /\ length labels = 4.
Proof.
  assert (H : exists result,
             run_clustering_analysis (lib := example_library) (init shop) None (Some 2)
             = Ok result
             /\ dict_has "error" result = false).
  { eexists. split; reflexivity. }
  destruct H as [result [Hrun Hne]].
  destruct (cluster_assignments_cover_rows (lib := example_library) shop None (Some 2)
              result Hrun Hne) as [k [labels [infos [Hk [Hl [_ [_ Hlen]]]]]]].
  exists result, labels. split; [assumption|]. split; [assumption|].
  apply Hlen.
  assert (Hk2 : dict_get "n_clusters" result = Some (VInt 2)).
  { unfold run_clustering_analysis in Hrun.
    lazy -[Rsum sqrt Rplus Rminus Rmult Rdiv Rinv INR IZR] in Hrun.
    injection Hrun as <-. reflexivity. }
  rewrite Hk in Hk2. injection Hk2 as Hk2. lia.
Defined.

Lemma mapM_exists {A B : Type} (g : A -> outcome B) (l : list A) :
  (forall a, In a l -> exists b, g a = Ok b) -> exists bs, mapM g l = Ok bs.
Proof.
  induction l as [|a l IH]; intros H; [exists []; reflexivity|].
  destruct (H a (or_introl eq_refl)) as [b Hb].
  destruct IH as [bs Hbs]; [intros a' Ha'; apply H; right; assumption|].
  exists (b :: bs). simpl. rewrite Hb. simpl. rewrite Hbs. reflexivity.
Qed.

Lemma getitem_list_exists (f : DataFrame) (labels : list string) :
  (forall k, In k labels -> In k (columns_of f)) ->
  exists X, getitem_list f labels = Ok X /\ df_index X = df_index f.
Proof.
  intros Hall. unfold getitem_list.
  match goal with
  | |- context [mapM ?g labels] => destruct (mapM_exists g labels) as [cols Hcols]
  end.
  - intros k Hk.
    destruct (lookup_label f k) as [|c cs] eqn:El; [|eexists; reflexivity].
    exfalso. destruct (In_columns_of f k (Hall k Hk)) as [s Hs].
    assert (Hin : In (k, s) (lookup_label f k)).
    { unfold lookup_label. apply filter_In. split; [assumption|].
      simpl. apply String.eqb_refl. }
    rewrite El in Hin. contradiction.
  - rewrite Hcols. eexists. split; reflexivity.
Qed.

Lemma dropna_df_length (f : DataFrame) : len_df (dropna_df f) <= len_df f.
Proof.
  unfold dropna_df. rewrite len_df_take_rows.
  etransitivity; [apply filter_length_le|]. rewrite length_seq. reflexivity.
Qed.

(** X12. On a frame with fewer than 3 rows [perform_clustering_analysis]
    returns its empty partial result: no statistics, no insights, no
    recommendations and no ['error'], and no library routine is called. *)
Theorem clustering_needs_three_rows {lib : Library} (data : DataFrame)
    (numeric_cols : list string) :
  len_df data < 3 ->
  (forall k, In k numeric_cols -> In k (columns_of data)) ->
  perform_clustering_analysis data numeric_cols
  = [("insights", VDict []); ("statistics", VDict []); ("recommendations", VList [])].
Proof.
  intros Hlen Hall. unfold perform_clustering_analysis.
  destruct (length numeric_cols <? 2); [reflexivity|].
  unfold clustering_try.
  destruct (getitem_list_exists data numeric_cols Hall) as [X [HX Hidx]].
  rewrite HX. cbn [bind].
  assert (Hshort : (len_df (dropna_df X) <? 3) = true).
  { apply Nat.ltb_lt. pose proof (dropna_df_length X) as Hd.
    unfold len_df in *. rewrite Hidx in Hd. lia. }
  rewrite Hshort. reflexivity.
Qed.

Lemma clustering_needs_three_rows_witness :
  perform_clustering_analysis (lib := refusing_library) (pd_DataFrame two_rows) ["x"; "y"]
  = [("insights", VDict []); ("statistics", VDict []); ("recommendations", VList [])].
Proof.
  apply (clustering_needs_three_rows (lib := refusing_library)).
  - apply Nat.ltb_lt. reflexivity.
  - intros k Hk. simpl in Hk. destruct Hk as [<-|[<-|[]]]; simpl; auto.
Defined.

(** ** The results of [analyze_data] *)

Lemma time_series_column_sections {lib : Library} (data : DataFrame) (col : string)
    (st st' : dict) :
  (exists i s r, st = sections i s r) ->
  time_series_column data st col = Ok st' ->
  exists i s r, st' = sections i s r.
Proof.
  intros [i [s [r ->]]] H. unfold time_series_column in H. inv_bind H.
  destruct (3 <? len_obj (dropna_obj a)); [|injection H as <-; eauto].
  inv_bind H. destruct (dropna_obj a); [|discriminate].
  inv_bind H. injection H as <-.
  unfold dict_set_in, sections. cbn [dict_get String.eqb Ascii.eqb Bool.eqb].
  destruct s; cbn [dict_set dict_get String.eqb Ascii.eqb Bool.eqb];
    destruct i; cbn [dict_set dict_get String.eqb Ascii.eqb Bool.eqb]; eauto.
Qed.

Lemma perform_time_series_analysis_sections {lib : Library} (data : DataFrame)
    (numeric_cols : list string) (results : dict) :
  perform_time_series_analysis data numeric_cols = Ok results ->
  exists i s r, results = sections i s r.
Proof.
  intros H. unfold perform_time_series_analysis in H. inv_bind H. injection H as <-.
  assert (Hloop : exists i s r, a0 = sections i s r).
  { revert E0. apply (foldM_invariant (fun st => exists i s r, st = sections i s r)).
    - intros st c st' Hst Hstep. cbv beta in Hstep.
      destruct (negb (String.eqb c a)).
      + eapply time_series_column_sections; eassumption.
      + injection Hstep as <-. assumption.
    - exists (VDict []), (VDict []), (VList []). reflexivity. }
  destruct Hloop as [i [s [r ->]]]. do 3 eexists. reflexivity.
Qed.

(** X13. Every result of [analyze_data] has one of three shapes: an
    error-only mapping with a message; or the success-shaped mapping, which
    starts with ["success": True], the number of input records, the length
    of the selection and the analysis type as given, followed by the three
    sections insights, statistics and recommendations; or that success-shaped
    mapping with an ['error'] entry at its end. *)
Theorem analyze_data_shape {lib : Library} (data_json : list record)
    (analysis_type : string) (selected_columns : list string) :
  let result := analyze_data data_json analysis_type selected_columns in
  (exists msg, result = [("error", VStr msg)])
  \/ (exists i s r,
        result = result_header data_json analysis_type selected_columns ++ sections i s r
        \/ exists e,
             result = result_header data_json analysis_type selected_columns
                      ++ sections i s r ++ [("error", e)]).
Proof.
  intros result. unfold result, analyze_data, analyze_data_try.
  destruct (empty (pd_DataFrame data_json)); [left; eexists; reflexivity|].
  unfold bind.
  destruct (analysis_frame _ _) as [analysis_data|e]; [|left; eexists; reflexivity].
  destruct (numeric_columns analysis_data) as [|c cs] eqn:En;
    [left; eexists; reflexivity|].
  rewrite <- En. clear En.
  assert (Hrows : len_df (pd_DataFrame data_json) = length data_json).
  { unfold len_df, pd_DataFrame. cbn [df_index]. apply length_seq. }
  rewrite Hrows.
  assert (Hmerge : forall inner, inner_shape inner ->
            exists i s r,
              dict_update
                [("success", VBool true);
                 ("data_points_analyzed", VInt (Z.of_nat (length data_json)));
                 ("columns_analyzed", VInt (Z.of_nat (length selected_columns)));
                 ("analysis_type", VStr analysis_type);
                 ("insights", VDict []); ("statistics", VDict []);
                 ("recommendations", VList [])] inner
              = result_header data_json analysis_type selected_columns ++ sections i s r
              \/ exists e,
                   dict_update
                     [("success", VBool true);
                      ("data_points_analyzed", VInt (Z.of_nat (length data_json)));
                      ("columns_analyzed", VInt (Z.of_nat (length selected_columns)));
                      ("analysis_type", VStr analysis_type);
                      ("insights", VDict []); ("statistics", VDict []);
                      ("recommendations", VList [])] inner
                   = result_header data_json analysis_type selected_columns
                     ++ sections i s r ++ [("error", e)]).
  { intros inner [i [s [r [->|[e ->]]]]]; exists i, s, r.
    - left. reflexivity.
    - right. exists e. reflexivity. }
  repeat match goal with
         | |- context [if ?b then _ else _] => destruct b
         end;
    try (right; apply Hmerge;
         first [ apply perform_regression_analysis_shape
               | apply perform_clustering_analysis_shape
               | apply perform_statistical_tests_shape
               | apply perform_exploratory_analysis_shape ]).
  destruct (perform_time_series_analysis _ _) as [r|e] eqn:Ets;
    [|left; eexists; reflexivity].
  right. apply Hmerge.
  destruct (perform_time_series_analysis_sections _ _ _ Ets) as [i [s [r' ->]]].
  exists i, s, r'. left. reflexivity.
Qed.

(** X14. With exactly one numeric column to analyse, the regression, the
    clustering and the statistical tests of [analyze_data] all report success
    with empty insights, statistics and recommendations, and no error. *)
Theorem one_numeric_column_is_a_silent_success {lib : Library} (data_json : list record)
    (analysis_type : string) (selected_columns : list string)
    (analysis_data : DataFrame) (col : string) :
  empty (pd_DataFrame data_json) = false ->
  analysis_frame (pd_DataFrame data_json) selected_columns = Ok analysis_data ->
  numeric_columns analysis_data = [col] ->
  In analysis_type ["regression_feature_importance"; "pca_clustering"; "statistical_tests"] ->
  analyze_data data_json analysis_type selected_columns
  = result_header data_json analysis_type selected_columns
    ++ sections (VDict []) (VDict []) (VList []).
Proof.
  intros Hempty Hframe Hnum Htype.
  unfold analyze_data, analyze_data_try. rewrite Hempty, Hframe. cbn [bind].
  rewrite Hnum.
  assert (Hrows : len_df (pd_DataFrame data_json) = length data_json).
  { unfold len_df, pd_DataFrame. cbn [df_index]. apply length_seq. }
  rewrite Hrows.
  unfold perform_regression_analysis, perform_clustering_analysis,
    perform_statistical_tests.
  simpl in Htype. destruct Htype as [<-|[<-|[<-|[]]]]; reflexivity.
Qed.

Lemma one_numeric_column_is_a_silent_success_witness :
  analyze_data (lib := refusing_library)
    [[("name", CStr "a"); ("x", CNum 1)]; [("name", CStr "b"); ("x", CNum 2)]]
    "statistical_tests" []
  = [("success", VBool true);
     ("data_points_analyzed", VInt 2);
     ("columns_analyzed", VInt 0);
     ("analysis_type", VStr "statistical_tests");
     ("insights", VDict []);
     ("statistics", VDict []);
     ("recommendations", VList [])].
Proof.
  exact (one_numeric_column_is_a_silent_success (lib := refusing_library)
           [[("name", CStr "a"); ("x", CNum 1)]; [("name", CStr "b"); ("x", CNum 2)]]
           "statistical_tests" []
           (pd_DataFrame [[("name", CStr "a"); ("x", CNum 1)];
                          [("name", CStr "b"); ("x", CNum 2)]]) "x"
           eq_refl eq_refl eq_refl (or_intror (or_intror (or_introl eq_refl)))).
Defined.

(** ** The entries of [perform_time_series_analysis] *)

Lemma time_series_column_step {lib : Library} (data : DataFrame) (c : string)
    (i s : dict) (r : value) (st' : dict) :
  time_series_column data (sections (VDict i) (VDict s) r) c = Ok st' ->
  exists o,
    getitem data c = Ok o
    /\ ((len_obj (dropna_obj o) <= 3 /\ st' = sections (VDict i) (VDict s) r)
        \/ (3 < len_obj (dropna_obj o)
            /\ exists vi vs,
                 st' = sections (VDict (dict_set c vi i)) (VDict (dict_set c vs s)) r)).
Proof.
  intros H. unfold time_series_column in H. inv_bind H. exists a. split; [reflexivity|].
  destruct (3 <? len_obj (dropna_obj a)) eqn:E3.
  - apply Nat.ltb_lt in E3. right. split; [assumption|].
    inv_bind H. destruct (dropna_obj a); [|discriminate].
    inv_bind H. injection H as <-. do 2 eexists. reflexivity.
  - apply Nat.ltb_ge in E3. left. injection H as <-. split; [assumption|reflexivity].
Qed.

Lemma dict_set_keeps (k c : string) (v : value) (d : dict) :
  dict_get k d <> None -> dict_get k (dict_set c v d) <> None.
Proof.
  intros H. rewrite dict_get_set. destruct (String.eqb k c); [discriminate|assumption].
Qed.

(** X15. Conversely to C10: when [perform_time_series_analysis] returns,
    every column it is given that is not the time column and has more than
    3 values present has an entry in ['statistics'] and in ['insights']. *)
Theorem time_series_entries {lib : Library} (data : DataFrame)
    (numeric_cols : list string) (results : dict) (time_col col : string) (o : pobj) :
  perform_time_series_analysis data numeric_cols = Ok results ->
  time_col_of data = Ok time_col ->
  In col numeric_cols ->
  col <> time_col ->
  getitem data col = Ok o ->
  3 < len_obj (dropna_obj o) ->
  entry "statistics" col results <> None /\ entry "insights" col results <> None.
Proof.
  intros H Htc Hin Hne Hget Hlen.
  unfold perform_time_series_analysis in H. rewrite Htc in H. cbn [bind] in H.
  inv_bind H. injection H as <-. rename a into looped.
  set (Q := fun st : dict =>
              exists i s r, st = sections (VDict i) (VDict s) r
                            /\ dict_get col i <> None /\ dict_get col s <> None).
  assert (Hloop : forall l st st',
             (exists i s r, st = sections (VDict i) (VDict s) r) ->
             Q st \/ In col l ->
             foldM (fun results c =>
                      if negb (String.eqb c time_col)
                      then time_series_column data results c
                      else Ok results) l st = Ok st' ->
             Q st').
  { induction l as [|c l IH]; intros st st' Hst Hq Hf; simpl in Hf.
    - injection Hf as <-. destruct Hq as [Hq|[]]. assumption.
    - unfold bind in Hf.
      destruct (negb (String.eqb c time_col)) eqn:Ec.
      + destruct (time_series_column data st c) as [s1|e] eqn:Es1; [|discriminate].
        destruct Hst as [i [s [r ->]]].
        destruct (time_series_column_step data c i s r s1 Es1)
          as [o' [Hget' [[Hshort ->]|[Hlong [vi [vs ->]]]]]].
        * apply (IH (sections (VDict i) (VDict s) r) st');
            [exists i, s, r; reflexivity| |assumption].
          destruct Hq as [Hq|[->|Hq]]; [left; assumption| |right; assumption].
          exfalso. rewrite Hget in Hget'. injection Hget' as <-. lia.
        * apply (IH (sections (VDict (dict_set c vi i)) (VDict (dict_set c vs s)) r) st');
            [do 3 eexists; reflexivity| |assumption].
          destruct Hq as [[i0 [s0 [r0 [E0 [Hi Hs]]]]]|[->|Hq]].
          -- left. exists (dict_set c vi i), (dict_set c vs s), r.
             split; [reflexivity|].
             injection E0 as <- <- <-. split; apply dict_set_keeps; assumption.
          -- left. exists (dict_set col vi i), (dict_set col vs s), r.
             split; [reflexivity|].
             rewrite !dict_get_set_same. split; discriminate.
          -- right. assumption.
      + apply negb_false_iff, String.eqb_eq in Ec. subst c.
        apply (IH _ _ Hst); [|assumption].
        destruct Hq as [Hq|[Ec|Hq]]; [left; assumption| |right; assumption].
        exfalso. apply Hne. symmetry. assumption. }
  destruct (Hloop numeric_cols init_results looped) as [i [s [r [-> [Hi Hs]]]]].
  - do 3 eexists. reflexivity.
  - right. assumption.
  - exact E.
  - split; assumption.
Qed.

Lemma time_series_entries_witness :
  exists results,
    perform_time_series_analysis (lib := example_library) (pd_DataFrame monthly_sales)
      ["month"; "sales"; "returns"] = Ok results
    /\ entry "statistics" "sales" results <> None
    /\ entry "insights" "sales" results <> None.
Proof.
  assert (H : exists results,
             perform_time_series_analysis (lib := example_library)
               (pd_DataFrame monthly_sales) ["month"; "sales"; "returns"] = Ok results)
    by (eexists; reflexivity).
  destruct H as [results Hrun]. exists results. split; [exact Hrun|].
  set (sales := PSeries (mkSeries Numeric (seq 0 5)
                           [CNum 10; CNum 12; CNum 14; CNum 13; CNum 15])).
  apply (time_series_entries (lib := example_library) (pd_DataFrame monthly_sales)
           ["month"; "sales"; "returns"] results "month" "sales" sales).
  - exact Hrun.
  - reflexivity.
  - right. left. reflexivity.
  - discriminate.
  - reflexivity.
  - apply Nat.ltb_lt. reflexivity.
Defined.

(** ** The tests of [DataAnalysisEngine.run_statistical_tests] *)

Lemma mapM_length {A B : Type} (g : A -> outcome B) (l : list A) (bs : list B) :
  mapM g l = Ok bs -> length bs = length l.
Proof.
  revert bs. induction l as [|a l IH]; intros bs H; simpl in H.
  - injection H as <-. reflexivity.
  - unfold bind in H. destruct (g a) as [b|e]; [|discriminate].
    destruct (mapM g l) as [bs'|e]; [|discriminate].
    injection H as <-. simpl. rewrite (IH bs' eq_refl). reflexivity.
Qed.

Lemma getitem_exists (f : DataFrame) (k : string) :
  In k (columns_of f) -> exists o, getitem f k = Ok o.
Proof.
  intros Hin. destruct (In_columns_of f k Hin) as [s Hs].
  assert (Hl : In (k, s) (lookup_label f k)).
  { unfold lookup_label. apply filter_In. split; [assumption|]. simpl.
    apply String.eqb_refl. }
  unfold getitem. destruct (lookup_label f k) as [|[k1 s1] [|c cs]];
    [contradiction|eexists; reflexivity|eexists; reflexivity].
Qed.

(** X16. A request that [run_statistical_tests] does not support is answered
    with the empty mapping, not with an error mapping and not with an
    exception: a test type other than ['ttest'] and ['anova'], a t-test on
    other than two variables or on a variable that is no column, and an
    ANOVA of which fewer than two variables are columns. *)
Theorem unsupported_test_gives_empty_mapping {tests : TestLibrary}
    (self : DataAnalysisEngine) (test_type : string) (variables : list string) :
  (test_type <> "ttest" /\ test_type <> "anova")
  \/ (test_type = "ttest"
      /\ (length variables <> 2
          \/ exists v, In v variables /\ mem v (columns_of (df self)) = false))
  \/ (test_type = "anova"
      /\ length (filter (fun v => mem v (columns_of (df self))) variables) < 2) ->
  AnalysisEngineTests.run_statistical_tests self test_type variables = Ok [].
Proof.
  intros H. unfold AnalysisEngineTests.run_statistical_tests.
  destruct H as [[Ht Ha]|[[-> Hv]|[-> Hf]]].
  - apply String.eqb_neq in Ht, Ha. rewrite Ht, Ha. reflexivity.
  - simpl (String.eqb "ttest" "ttest").
    destruct (length variables =? 2) eqn:E2; [|reflexivity].
    apply Nat.eqb_eq in E2. cbn [andb].
    destruct variables as [|var1 [|var2 [|var3 vs]]]; try discriminate.
    destruct Hv as [Hv|[v [Hin Hmem]]]; [contradiction|].
    destruct Hin as [<-|[<-|[]]]; rewrite Hmem; [reflexivity|].
    rewrite andb_false_r. reflexivity.
  - simpl (String.eqb "anova" "ttest"). cbn [andb].
    simpl (String.eqb "anova" "anova"). cbn iota.
    destruct (2 <=? length variables); [|reflexivity].
    match goal with
    | |- context [mapM ?g ?l] => destruct (mapM_exists g l) as [groups Hg]
    end.
    + intros v Hv. apply filter_In in Hv. destruct Hv as [_ Hv].
      apply mem_In in Hv. destruct (getitem_exists (df self) v Hv) as [o Ho].
      rewrite Ho. eexists. reflexivity.
    + rewrite Hg. cbn [bind]. apply mapM_length in Hg.
      destruct (2 <=? length groups) eqn:E2; [|reflexivity].
      apply Nat.leb_le in E2. lia.
Qed.

Lemma unsupported_test_gives_empty_mapping_witness :
  AnalysisEngineTests.run_statistical_tests (tests := example_tests) (init shop)
    "anova" ["units"; "profit"; "margin"] = Ok [].
Proof.
  apply (unsupported_test_gives_empty_mapping (tests := example_tests)).
  right. right. split; [reflexivity|].
  apply Nat.ltb_lt. reflexivity.
Defined.

(** X17. A non-empty result of [run_statistical_tests] has the seven keys of
    a test report and no ['error'] key, echoes the requested variables, and
    its ['significant'] flag agrees with its ['interpretation']: the text
    starts with 'Statistically significant' exactly when the flag is set,
    which is when the p-value is below 0.05. *)
Theorem test_report_is_consistent {tests : TestLibrary}
    (self : DataAnalysisEngine) (test_type : string) (variables : list string)
    (result : dict) :
  AnalysisEngineTests.run_statistical_tests self test_type variables = Ok result ->
  result <> [] ->
  map fst result = ["test_type"; "variables"; "statistic"; "p_value"; "significant";
                    "interpretation"; "summary"]
  /\ dict_has "error" result = false
  /\ dict_get "variables" result = Some (VList (map VStr variables))
  /\ exists p text,
       dict_get "p_value" result = Some (vfloat p)
       /\ dict_get "significant" result = Some (VBool (f_lt p (Some 0.05%R)))
       /\ dict_get "interpretation" result = Some (VStr text)
       /\ String.prefix "Statistically significant" text = f_lt p (Some 0.05%R).
Proof.
  intros H Hne. unfold AnalysisEngineTests.run_statistical_tests in H.
  destruct (String.eqb test_type "ttest" && (length variables =? 2)).
  - destruct variables as [|var1 [|var2 [|var3 vs]]];
      try (injection H as <-; contradiction).
    destruct (mem var1 (columns_of (df self)) && mem var2 (columns_of (df self)));
      [|injection H as <-; contradiction].
    repeat inv_bind H. injection H as <-.
    repeat split. exists a3, (AnalysisEngineTests._interpret_ttest a3 a4 a5).
    repeat split. unfold AnalysisEngineTests._interpret_ttest.
    destruct (f_lt a3 (Some 0.05%R)); [destruct (f_gt a4 a5)|]; reflexivity.
  - destruct (String.eqb test_type "anova"); [|injection H as <-; contradiction].
    destruct (2 <=? length variables); [|injection H as <-; contradiction].
    inv_bind H.
    destruct (2 <=? length a); [|injection H as <-; contradiction].
    repeat inv_bind H. injection H as <-.
    repeat split. exists a2, (AnalysisEngineTests._interpret_anova a2).
    repeat split. unfold AnalysisEngineTests._interpret_anova.
    destruct (f_lt a2 (Some 0.05%R)); reflexivity.
Qed.

Lemma test_report_is_consistent_witness :
  exists result,
    AnalysisEngineTests.run_statistical_tests (tests := example_tests) (init shop)
      "ttest" ["units"; "cost"] = Ok result
    /\ dict_has "error" result = false
    /\ dict_get "variables" result = Some (VList [VStr "units"; VStr "cost"]).
Proof.
  assert (H : exists result,
             AnalysisEngineTests.run_statistical_tests (tests := example_tests)
               (init shop) "ttest" ["units"; "cost"] = Ok result
             /\ result <> [])
    by (eexists; split; [reflexivity|discriminate]).
  destruct H as [result [Hrun Hne]]. exists result. split; [exact Hrun|].
  destruct (test_report_is_consistent (tests := example_tests) (init shop)
              "ttest" ["units"; "cost"] result Hrun Hne) as [_ [Herr [Hvars _]]].
  split; assumption.
Defined.

(** ** The high-variance columns of [perform_exploratory_analysis] *)

Lemma filter_length_le' {A : Type} (p : A -> bool) (l : list A) :
  length (filter p l) <= length l.
Proof.
  induction l as [|a l IH]; simpl; [lia|]. destruct (p a); simpl; lia.
Qed.

Lemma filter_length_lt {A : Type} (p : A -> bool) (l : list A) :
  (exists x, In x l /\ p x = false) -> length (filter p l) < length l.
Proof.
  induction l as [|a l IH]; intros [x [Hin Hx]]; [contradiction|]. simpl.
  destruct Hin as [->|Hin].
  - rewrite Hx. pose proof (filter_length_le' p l). lia.
  - assert (H : length (filter p l) < length l) by (apply IH; eauto).
    destruct (p a); simpl; lia.
Qed.

Lemma forallb_or_exists {A : Type} (p : A -> bool) (l : list A) :
  (forall x, In x l -> p x = true) \/ (exists x, In x l /\ p x = false).
Proof.
  induction l as [|a l [IH|[x [Hin Hx]]]].
  - left. intros x [].
  - destruct (p a) eqn:E.
    + left. intros x [->|Hx]; [assumption|apply IH; assumption].
    + right. exists a. split; [left; reflexivity|assumption].
  - right. exists x. split; [right; assumption|assumption].
Qed.

Lemma Rgtb_true (a b : R) : Rgtb a b = true -> (a > b)%R.
Proof. unfold Rgtb. destruct (Rgt_dec a b); [trivial|discriminate]. Qed.

Lemma sum_from_nan {A : Type} (g : A -> pyfloat) (l : list A) :
  fold_left (fun acc kv => f_lift2 Rplus acc (g kv)) l None = None.
Proof. induction l as [|a l IH]; simpl; [reflexivity|assumption]. Qed.

(** A sum of squares is not negative. *)
Lemma sum_of_squares_nonneg {A : Type} (h : A -> pyfloat) (l : list A) (a T : R) :
  fold_left (fun acc kv => f_lift2 Rplus acc (f_sq (h kv))) l (Some a) = Some T ->
  (0 <= a)%R -> (0 <= T)%R.
Proof.
  revert a. induction l as [|x l IH]; intros a H Ha; simpl in H.
  - injection H as <-. assumption.
  - destruct (h x) as [v|]; simpl in H.
    + apply (IH _ H). pose proof (square_nonneg v). lra.
    + rewrite sum_from_nan in H. discriminate.
Qed.

(** A sum whose terms all exceed [c] exceeds [c] times their number. *)
Lemma sum_exceeds {A : Type} (g : A -> pyfloat) (l : list A) (a T c : R) :
  fold_left (fun acc kv => f_lift2 Rplus acc (g kv)) l (Some a) = Some T ->
  (forall kv, In kv l -> f_gt (g kv) (Some c) = true) ->
  (a + INR (length l) * c <= T)%R /\ (l <> [] -> (a + INR (length l) * c < T)%R).
Proof.
  revert a. induction l as [|x l IH]; intros a H Hall.
  - simpl in H. injection H as <-. simpl. split; [lra|congruence].
  - assert (Hx := Hall x (or_introl eq_refl)).
    change (fold_left (fun acc kv => f_lift2 Rplus acc (g kv)) l
              (f_lift2 Rplus (Some a) (g x)) = Some T) in H.
    destruct (g x) as [v|]; [|discriminate]. simpl in Hx, H.
    apply Rgtb_true in Hx.
    destruct (IH _ H (fun kv Hkv => Hall kv (or_intror Hkv))) as [Hle _].
    change (length (x :: l)) with (S (length l)). rewrite S_INR.
    split; [|intros _]; lra.
Qed.

Lemma exploratory_column_keys {lib : Library} (data : DataFrame)
    (numeric_cols : list string) (column_stats : dict) :
  foldM (exploratory_column data) numeric_cols [] = Ok column_stats ->
  keys_within numeric_cols column_stats.
Proof.
  apply (foldM_invariant_In (keys_within numeric_cols)).
  - intros s col s' Hin Hs H. unfold exploratory_column in H. inv_bind H.
    destruct (0 <? len_obj (dropna_obj a)); [|injection H as <-; assumption].
    repeat inv_bind H. injection H as <-.
    apply keys_within_set; assumption.
  - intros k Hk. simpl in Hk. congruence.
Qed.

Lemma In_dict_has (kv : string * value) (d : dict) :
  In kv d -> dict_has (fst kv) d = true.
Proof.
  unfold dict_has. induction d as [|[k0 v0] d IH]; intros H; [contradiction|].
  simpl. destruct (String.eqb (fst kv) k0) eqn:E; [reflexivity|].
  destruct H as [<-|H]; [|apply IH; assumption].
  simpl in E. rewrite String.eqb_refl in E. discriminate.
Qed.

(** X18. In a result of [perform_exploratory_analysis] without ['error'],
    every high-variance column has an entry in ['column_statistics'] and is
    one of the columns given, ['most_variable_columns'] are the first three
    of them, and never every analysed column is a high-variance column: at
    least one column with statistics is not flagged. *)
Theorem not_every_column_is_high_variance {lib : Library} (data : DataFrame)
    (numeric_cols : list string) :
  dict_has "error" (perform_exploratory_analysis data numeric_cols) = false ->
  exists column_stats hv,
    entry "statistics" "column_statistics" (perform_exploratory_analysis data numeric_cols)
      = Some (VDict column_stats)
    /\ entry "statistics" "high_variance_columns"
         (perform_exploratory_analysis data numeric_cols) = Some (VList (map VStr hv))
    /\ entry "insights" "most_variable_columns"
         (perform_exploratory_analysis data numeric_cols)
       = Some (VList (map VStr (firstn 3 hv)))
    /\ (forall k, In k hv -> dict_has k column_stats = true /\ In k numeric_cols)
    /\ (column_stats <> [] -> length hv < length column_stats).
Proof.
  unfold perform_exploratory_analysis, exploratory_try.
  destruct (foldM (exploratory_column data) numeric_cols []) as [column_stats|e] eqn:E;
    cbn [bind]; [intros _|intros H; unfold dict_has in H; rewrite dict_get_set_same in H; discriminate].
  set (g := fun kv : string * value => f_sq (get_float "std" (snd kv))).
  set (total := fold_left (fun acc kv => f_lift2 Rplus acc (g kv)) column_stats (Some 0%R)).
  set (threshold := f_lift2 Rmult (f_lift2 Rdiv total (Some (lenR column_stats)))
                      (Some 1.5%R)).
  set (flagged := filter (fun kv => f_gt (g kv) threshold) column_stats).
  exists column_stats, (map fst flagged).
  split; [reflexivity|]. split; [rewrite map_map; reflexivity|].
  split.
  { replace (map VStr (firstn 3 (map fst flagged)))
      with (firstn 3 (map (fun kv : string * value => VStr (fst kv)) flagged))
      by (rewrite <- (map_map fst VStr), !firstn_map; reflexivity).
    reflexivity. }
  split.
  - intros k Hk. apply in_map_iff in Hk. destruct Hk as [kv [<- Hkv]].
    apply filter_In in Hkv. destruct Hkv as [Hkv _].
    pose proof (In_dict_has kv column_stats Hkv) as Hhas.
    split; [assumption|].
    apply (exploratory_column_keys data numeric_cols column_stats E).
    unfold dict_has in Hhas. destruct (dict_get (fst kv) column_stats); congruence.
  - intros Hne. rewrite length_map. apply filter_length_lt.
    destruct (forallb_or_exists (fun kv => f_gt (g kv) threshold) column_stats)
      as [Hall|Hex]; [exfalso|assumption].
    assert (Hkv0 : exists kv0, In kv0 column_stats)
      by (destruct column_stats as [|kv0 rest];
          [congruence|exists kv0; left; reflexivity]).
    destruct Hkv0 as [kv0 H0].
    assert (Hn : (0 < INR (length column_stats))%R)
      by (apply lt_0_INR; destruct column_stats; [congruence|simpl; lia]).
    pose proof (Hall kv0 H0) as Hkv0.
    assert (ET : fold_left (fun acc kv => f_lift2 Rplus acc (g kv)) column_stats
                   (Some 0%R) = total) by reflexivity.
    clearbody total.
    destruct total as [T|]; [|destruct (g kv0); discriminate].
    assert (Hc : threshold = Some (T / INR (length column_stats) * 1.5)%R)
      by reflexivity.
    rewrite Hc in Hall.
    destruct (sum_exceeds g column_stats 0 T _ ET Hall) as [_ Hlt].
    specialize (Hlt Hne).
    assert (HT : (0 <= T)%R)
      by (apply (sum_of_squares_nonneg (fun kv => get_float "std" (snd kv))
                   column_stats 0 T ET); lra).
    replace (0 + INR (length column_stats) * (T / INR (length column_stats) * 1.5))%R
      with (1.5 * T)%R in Hlt by (field; lra).
    lra.
Qed.

Lemma not_every_column_is_high_variance_witness :
  dict_has "error"
    (perform_exploratory_analysis (lib := example_library) (pd_DataFrame shop)
       ["units"; "price"; "cost"]) = false
  /\ exists column_stats hv,
       entry "statistics" "column_statistics"
         (perform_exploratory_analysis (lib := example_library) (pd_DataFrame shop)
            ["units"; "price"; "cost"]) = Some (VDict column_stats)
       /\ entry "statistics" "high_variance_columns"
            (perform_exploratory_analysis (lib := example_library) (pd_DataFrame shop)
               ["units"; "price"; "cost"]) = Some (VList (map VStr hv))
       /\ column_stats <> []
       /\ length hv < length column_stats.
Proof.
  assert (Hrun : dict_has "error"
                   (perform_exploratory_analysis (lib := example_library)
                      (pd_DataFrame shop) ["units"; "price"; "cost"]) = false)
    by reflexivity.
  split; [exact Hrun|].
  destruct (not_every_column_is_high_variance (lib := example_library)
              (pd_DataFrame shop) ["units"; "price"; "cost"] Hrun)
    as [column_stats [hv [Hcs [Hhv [_ [_ Hlt]]]]]].
  exists column_stats, hv.
  assert (Hne : column_stats <> []).
  { intros ->. lazy in Hcs. discriminate. }
  repeat split; [exact Hcs|exact Hhv|exact Hne|exact (Hlt Hne)].
Defined.

(** ** The top driver of [perform_regression_analysis] *)

Lemma argmax_first_spec (key : string -> R) (l : list string) (best : string) :
  In (argmax_first key l best) (best :: l)
  /\ (key best <= key (argmax_first key l best))%R
  /\ forall x, In x l -> (key x <= key (argmax_first key l best))%R.
Proof.
  revert best. induction l as [|k l IH]; intros best; simpl.
  - split; [left; reflexivity|]. split; [lra|intros x []].
  - destruct (IH (if Rgtb (key k) (key best) then k else best)) as [Hin [Hb Hall]].
    unfold Rgtb in *. destruct (Rgt_dec (key k) (key best)) as [Hgt|Hle].
    + split; [destruct Hin as [<-|Hin]; auto|].
      split; [lra|]. intros x [<-|Hx]; [assumption|apply Hall; assumption].
    + split; [destruct Hin as [<-|Hin]; auto|].
      split; [assumption|]. intros x [<-|Hx]; [lra|apply Hall; assumption].
Qed.

Lemma dict_get_In_keys (k : string) (d : dict) (v : value) :
  dict_get k d = Some v -> In k (dict_keys d).
Proof.
  induction d as [|[k0 v0] d IH]; simpl; intros H; [discriminate|].
  destruct (String.eqb k k0) eqn:E.
  - apply String.eqb_eq in E. left. congruence.
  - right. apply IH. assumption.
Qed.

Lemma In_keys_dict_get (k : string) (d : dict) :
  In k (dict_keys d) -> exists v, dict_get k d = Some v.
Proof.
  induction d as [|[k0 v0] d IH]; simpl; intros H; [contradiction|].
  destruct (String.eqb k k0) eqn:E; [eexists; reflexivity|].
  destruct H as [->|H]; [rewrite String.eqb_refl in E; discriminate|].
  apply IH. assumption.
Qed.

Lemma dict_set_nonempty (k : string) (v : value) (d : dict) : dict_set k v d <> [].
Proof.
  destruct d as [|[k0 v0] d]; simpl; [discriminate|].
  destruct (String.eqb k k0); discriminate.
Qed.

Lemma Rabs_le_Rsum (c : R) (l : list R) :
  In c l -> (Rabs c <= Rsum (map Rabs l))%R.
Proof.
  induction l as [|a l IH]; intros H; [contradiction|]. simpl.
  assert (H0 : (0 <= Rsum (map Rabs l))%R).
  { clear. induction l as [|b l IH]; simpl; [lra|].
    pose proof (Rabs_pos b). lra. }
  pose proof (Rabs_pos a).
  destruct H as [->|H]; [lra|]. specialize (IH H). lra.
Qed.

Lemma regression_feature_bounded {lib : Library} (X : DataFrame) (y : pobj)
    (model : lr_model) (fi : dict) (icol : nat * string) (fi' : dict) :
  importances_bounded fi ->
  regression_feature X y model (Rsum (map Rabs (coef_ model))) fi icol = Ok fi' ->
  importances_bounded fi' /\ fi' <> [].
Proof.
  intros Hfi H. unfold regression_feature in H.
  destruct (nth_error (coef_ model) (fst icol)) as [c|] eqn:Ec; [|discriminate].
  inv_bind H. injection H as <-. split; [|apply dict_set_nonempty].
  intros k v Hk. rewrite dict_get_set in Hk.
  destruct (String.eqb k (snd icol)); [|apply (Hfi k v Hk)].
  injection Hk as <-. eexists. split; [reflexivity|].
  apply nth_error_In, Rabs_le_Rsum in Ec.
  unfold Rgtb. destruct (Rgt_dec (Rsum (map Rabs (coef_ model))) 0) as [Hpos|_]; [|lra].
  pose proof (Rabs_pos c). split.
  - apply Rle_mult_inv_pos; assumption.
  - apply (Rmult_le_reg_r (Rsum (map Rabs (coef_ model)))); [assumption|].
    unfold Rdiv. rewrite Rmult_assoc, Rinv_l by lra. lra.
Qed.

(** X19. When [perform_regression_analysis] reports feature importances,
    each importance lies between 0 and 1, ['top_driver'] is one of the
    features reported, ['top_driver_impact'] is its importance, and no
    feature has a greater importance. *)
Theorem top_driver_is_maximal {lib : Library} (data : DataFrame)
    (numeric_cols : list string) (fi : dict) :
  entry "statistics" "feature_importance" (perform_regression_analysis data numeric_cols)
    = Some (VDict fi) ->
  exists top impact,
    entry "insights" "top_driver" (perform_regression_analysis data numeric_cols)
      = Some (VStr top)
    /\ entry "insights" "top_driver_impact" (perform_regression_analysis data numeric_cols)
       = Some (VFloat impact)
    /\ (exists v, dict_get top fi = Some v /\ get_float "importance" v = Some impact)
    /\ forall k v, dict_get k fi = Some v ->
         exists r, get_float "importance" v = Some r /\ (0 <= r <= impact)%R /\ (r <= 1)%R.
Proof.
  unfold perform_regression_analysis.
  destruct (length numeric_cols <? 2); [discriminate|].
  destruct (removelast numeric_cols) as [|f0 fs] eqn:Ef; [discriminate|].
  destruct (regression_try data (last numeric_cols "") (f0 :: fs) init_results)
    as [r|e] eqn:E; [|discriminate].
  unfold regression_try in E. inv_bind E.
  match type of E with
  | (if ?c then _ else _) = _ => destruct c; [injection E as <-; discriminate|]
  end.
  inv_bind E.
  match type of E with
  | match ?y with PSeries _ => _ | PFrame _ => _ end = _ =>
      destruct y as [ys|yf] eqn:Ey; [|discriminate]
  end.
  inv_bind E. rename a4 into fi0. injection E as <-.
  intros H.
  match type of H with
  | entry _ _ ?big = _ =>
      assert (Hs : entry "statistics" "feature_importance" big = Some (VDict fi0))
        by reflexivity
  end.
  rewrite Hs in H. injection H as ->. clear Hs.
  (* the loop keeps the importances bounded and leaves a non-empty mapping *)
  assert (Hloop : importances_bounded fi /\ fi <> []).
  { match goal with
    | Hf : foldM ?f ?l [] = Ok fi |- _ =>
        rename Hf into Eloop;
        assert (Hl : exists ic l', l = ic :: l')
          by (unfold enumerate; simpl; eauto);
        destruct Hl as [ic [l' Hl]]; rewrite Hl in Eloop
    end.
    simpl in Eloop. unfold bind in Eloop.
    match type of Eloop with
    | match ?x with Ok _ => _ | Raise _ => _ end = _ =>
        destruct x as [fi1|e1] eqn:Efirst; [|discriminate]
    end.
    apply regression_feature_bounded in Efirst; [|intros k v Hk; discriminate].
    revert Eloop.
    apply (foldM_invariant (fun d => importances_bounded d /\ d <> [])); [|assumption].
    intros s a' s' [Hs _] Hstep.
    apply (regression_feature_bounded _ _ _ _ _ _ Hs Hstep). }
  destruct Hloop as [Hb Hne].
  destruct fi as [|[k0 v0] rest]; [congruence|].
  set (fi := (k0, v0) :: rest) in *.
  set (score := fun k : string =>
                  match get_float "importance"
                          (match dict_get k fi with Some v => v | None => VNone end) with
                  | Some r => r
                  | None => 0%R
                  end).
  assert (Hscore : forall k v r, dict_get k fi = Some v ->
                     get_float "importance" v = Some r -> score k = r).
  { intros k v r Hk Hr. unfold score. rewrite Hk, Hr. reflexivity. }
  set (top := argmax_first score (dict_keys rest) k0).
  destruct (argmax_first_spec score (dict_keys rest) k0) as [Hin [Hk0 Hall]].
  fold top in Hin, Hk0, Hall.
  assert (Hkeys : dict_keys fi = k0 :: dict_keys rest) by reflexivity.
  destruct (In_keys_dict_get top fi) as [vt Hvt]; [rewrite Hkeys; assumption|].
  destruct (Hb top vt Hvt) as [rt [Hrt _]].
  exists top, (score top).
  split; [reflexivity|]. split; [reflexivity|].
  split; [exists vt; split; [assumption|rewrite (Hscore top vt rt Hvt Hrt); assumption]|].
  intros k v Hk. destruct (Hb k v Hk) as [r [Hr [Hr0 Hr1]]].
  exists r. split; [assumption|]. split; [|assumption]. split; [assumption|].
  rewrite <- (Hscore k v r Hk Hr).
  apply dict_get_In_keys in Hk. rewrite Hkeys in Hk.
  destruct Hk as [<-|Hk]; [assumption|apply Hall; assumption].
Qed.

Lemma top_driver_is_maximal_witness :
  exists fi top impact,
    entry "statistics" "feature_importance"
      (perform_regression_analysis (lib := unit_coef_library) (pd_DataFrame shop)
         ["units"; "price"; "cost"]) = Some (VDict fi)
    /\ entry "insights" "top_driver"
         (perform_regression_analysis (lib := unit_coef_library) (pd_DataFrame shop)
            ["units"; "price"; "cost"]) = Some (VStr top)
    /\ exists v, dict_get top fi = Some v /\ get_float "importance" v = Some impact.
Proof.
  assert (H : exists fi,
             entry "statistics" "feature_importance"
               (perform_regression_analysis (lib := unit_coef_library)
                  (pd_DataFrame shop) ["units"; "price"; "cost"]) = Some (VDict fi))
    by (eexists; reflexivity).
  destruct H as [fi Hfi].
  destruct (top_driver_is_maximal (lib := unit_coef_library) (pd_DataFrame shop)
              ["units"; "price"; "cost"] fi Hfi) as [top [impact [Htop [_ [Hv _]]]]].
  exists fi, top, impact. split; [exact Hfi|]. split; [exact Htop|exact Hv].
Defined.

(** ** The range of the correlations *)

Lemma quadratic_nonneg (l : list (R * R)) (t : R) :
  (0 <= Rsum (map (fun p => fst p * fst p) l) * (t * t)
        + 2 * Rsum (map (fun p => fst p * snd p) l) * t
        + Rsum (map (fun p => snd p * snd p) l))%R.
Proof.
  induction l as [|[a b] l IH]; simpl; [lra|].
  pose proof (square_nonneg (a * t + b)). nra.
Qed.

(** The Cauchy-Schwarz inequality on lists of pairs. *)
Lemma cauchy_schwarz (l : list (R * R)) :
  (Rsum (map (fun p => fst p * snd p) l) * Rsum (map (fun p => fst p * snd p) l)
   <= Rsum (map (fun p => fst p * fst p) l) * Rsum (map (fun p => snd p * snd p) l))%R.
Proof.
  pose proof (quadratic_nonneg l) as Hq.
  set (A := Rsum (map (fun p => fst p * fst p)%R l)) in *.
  set (B := Rsum (map (fun p => snd p * snd p)%R l)) in *.
  set (C := Rsum (map (fun p => fst p * snd p)%R l)) in *.
  assert (HA : (0 <= A)%R).
  { unfold A. apply Rsum_nonneg. intros x Hx. apply in_map_iff in Hx.
    destruct Hx as [p [<- _]]. apply square_nonneg. }
  destruct (Req_dec A 0) as [HA0|HA0].
  - destruct (Req_dec C 0) as [HC0|HC0]; [rewrite HC0, HA0; lra|].
    exfalso. specialize (Hq (- (B + 1) / (2 * C))%R). rewrite HA0 in Hq.
    replace (0 * (- (B + 1) / (2 * C) * (- (B + 1) / (2 * C)))
             + 2 * C * (- (B + 1) / (2 * C)) + B)%R with (-1)%R in Hq
      by (field; assumption).
    lra.
  - specialize (Hq (- C / A)%R).
    replace (A * (- C / A * (- C / A)) + 2 * C * (- C / A) + B)%R
      with ((A * B - C * C) / A)%R in Hq by (field; assumption).
    assert (HApos : (0 < A)%R) by lra.
    assert (H : (0 <= (A * B - C * C) / A * A)%R)
      by (apply Rmult_le_pos; lra).
    replace ((A * B - C * C) / A * A)%R with (A * B - C * C)%R in H
      by (field; assumption).
    lra.
Qed.

Lemma zip_map_fst_snd (l : list (R * R)) : zip (map fst l) (map snd l) = l.
Proof.
  induction l as [|[x y] l IH]; simpl; [reflexivity|]. rewrite IH. reflexivity.
Qed.

(** Pearson's coefficient lies between -1 and 1. *)
Lemma pearson_bounded (a b : list cell) (r : R) :
  pearson a b = Some r -> (-1 <= r <= 1)%R.
Proof.
  unfold pearson.
  destruct (pair_obs a b) as [|o obs'] eqn:Eobs; [discriminate|].
  set (obs := o :: obs').
  set (xs := map fst obs). set (ys := map snd obs).
  destruct (Req_dec_T (sqrt (co_dev xs xs * co_dev ys ys)) 0) as [|Hd]; [discriminate|].
  intros H. injection H as <-.
  set (mx := (Rsum xs / lenR xs)%R). set (my := (Rsum ys / lenR ys)%R).
  pose proof (cauchy_schwarz (map (fun xy => (fst xy - mx, snd xy - my)%R) obs)) as Hcs.
  rewrite !map_map in Hcs. cbn [fst snd] in Hcs.
  assert (HC : co_dev xs ys
               = Rsum (map (fun xy => ((fst xy - mx) * (snd xy - my))%R) obs)).
  { unfold co_dev, xs, ys. rewrite zip_map_fst_snd. reflexivity. }
  assert (HA : co_dev xs xs
               = Rsum (map (fun xy => ((fst xy - mx) * (fst xy - mx))%R) obs)).
  { rewrite co_dev_self. unfold sq_dev, xs. rewrite map_map. reflexivity. }
  assert (HB : co_dev ys ys
               = Rsum (map (fun xy => ((snd xy - my) * (snd xy - my))%R) obs)).
  { rewrite co_dev_self. unfold sq_dev, ys. rewrite map_map. reflexivity. }
  rewrite <- HC, <- HA, <- HB in Hcs.
  set (A := co_dev xs xs) in *. set (B := co_dev ys ys) in *.
  set (C := co_dev xs ys) in *.
  assert (HAB : (0 <= A * B)%R) by (pose proof (square_nonneg C); lra).
  pose proof (sqrt_pos (A * B)) as Hd0.
  pose proof (sqrt_sqrt (A * B) HAB) as Hdd.
  set (d := sqrt (A * B)) in *.
  assert (Hdpos : (0 < d)%R) by lra.
  assert (Hbound : (- d <= C <= d)%R) by nra.
  split.
  - apply (Rmult_le_reg_r d); [assumption|].
    unfold Rdiv. rewrite Rmult_assoc, Rinv_l by lra. lra.
  - apply (Rmult_le_reg_r d); [assumption|].
    unfold Rdiv. rewrite Rmult_assoc, Rinv_l by lra. lra.
Qed.

Lemma iloc_corr_bounded (f : DataFrame) (i j : nat) (r : R) :
  iloc (corr f) i j = Some r -> (-1 <= r <= 1)%R.
Proof.
  rewrite iloc_corr.
  destruct (nth_error (df_columns f) i); [|discriminate].
  destruct (nth_error (df_columns f) j); [|discriminate].
  apply pearson_bounded.
Qed.

(** X20. Every correlation that [run_correlation_analysis] reports, in
    ['correlation_matrix'] and in ['top_correlations'], lies between -1 and 1
    (floats taken as real numbers). *)
Theorem correlations_within_unit_interval (data_json : list record)
    (columns : option (list string)) (result : dict) :
  run_correlation_analysis (init data_json) columns = Ok result ->
  (forall a b r, matrix_entry result a b = Some (VFloat r) -> (-1 <= r <= 1)%R)
  /\ Forall (fun r => (-1 <= r <= 1)%R)
            (list_field "top_correlations" "correlation" result).
Proof.
  intros H. unfold run_correlation_analysis in H.
  destruct (length (select_numeric (init data_json) columns) <? 2).
  { injection H as <-. split; [intros a b r Hr; discriminate|constructor]. }
  inv_bind H. injection H as <-. rename a into sub. split.
  - intros a b r Hr. rewrite matrix_entry_head, corr_to_dict_get in Hr.
    destruct (last_pos (columns_of sub) a) as [j|]; [|discriminate].
    destruct (last_pos (columns_of sub) b) as [i|]; [|discriminate].
    destruct (iloc (corr sub) i j) as [x|] eqn:Ex; [|discriminate].
    injection Hr as <-. apply (iloc_corr_bounded sub i j x Ex).
  - unfold list_field. cbn [dict_get String.eqb Ascii.eqb Bool.eqb].
    match goal with
    | |- context [sort_desc ?k ?l] => set (cs := l); set (sorted := sort_desc k cs)
    end.
    assert (Hcs : forall e, In e cs ->
                    float_field "correlation" (snd e) = [fst e]
                    /\ (-1 <= fst e <= 1)%R).
    { intros e He. unfold cs in He. apply in_flat_map in He.
      destruct He as [ij [_ He]].
      destruct (iloc (corr sub) (fst ij) (snd ij)) as [x|] eqn:Ex; [|contradiction].
      destruct He as [<-|[]]. split; [reflexivity|].
      apply (iloc_corr_bounded sub _ _ x Ex). }
    assert (Hin : forall e, In e (firstn 10 sorted) -> In e cs).
    { intros e He. apply In_firstn in He.
      apply (sort_desc_In (fun c => Rabs (fst c))). assumption. }
    match goal with
    | |- context [map snd ?t] => change t with (firstn 10 sorted)
    end.
    rewrite (flat_map_fields _ _ fst (fun e He => proj1 (Hcs e (Hin e He)))).
    apply Forall_forall. intros x Hx. apply in_map_iff in Hx.
    destruct Hx as [e [<- He]]. apply (Hcs e (Hin e He)).
Qed.

Lemma correlations_within_unit_interval_witness :
  exists result,
    run_correlation_analysis (init shop) None = Ok result
    /\ dict_has "error" result = false
    /\ Forall (fun r => (-1 <= r <= 1)%R)
              (list_field "top_correlations" "correlation" result).
Proof.
  assert (H : exists result,
             run_correlation_analysis (init shop) None = Ok result
             /\ dict_has "error" result = false)
    by (eexists; split; reflexivity).
  destruct H as [result [Hrun Hne]]. exists result.
  split; [exact Hrun|]. split; [exact Hne|].
  apply (correlations_within_unit_interval shop None result Hrun).
Defined.

(** ** The tests of [perform_statistical_tests] *)

Lemma normality_column_keys {lib : Library} (data : DataFrame)
    (numeric_cols : list string) (normality_results : dict) :
  foldM (normality_column data) numeric_cols [] = Ok normality_results ->
  forall k, dict_get k normality_results <> None ->
    In k numeric_cols
    /\ exists o, getitem data k = Ok o /\ 3 < len_obj (dropna_obj o).
Proof.
  apply (foldM_invariant_In
           (fun d => forall k, dict_get k d <> None ->
                       In k numeric_cols
                       /\ exists o, getitem data k = Ok o /\ 3 < len_obj (dropna_obj o))).
  - intros s col s' Hin Hs H. unfold normality_column in H. inv_bind H.
    destruct (3 <? len_obj (dropna_obj a)) eqn:E3; [|injection H as <-; assumption].
    inv_bind H. injection H as <-. intros k Hk. rewrite dict_get_set in Hk.
    destruct (String.eqb k col) eqn:Ek; [|apply Hs; assumption].
    apply String.eqb_eq in Ek. subst k. split; [assumption|].
    exists a. split; [assumption|]. apply Nat.ltb_lt. assumption.
  - intros k Hk. simpl in Hk. congruence.
Qed.

Lemma correlation_loop_keys {lib : Library} (data : DataFrame) (cols : list string) :
  forall (pre : list string) (acc r : dict),
    (forall k, dict_get k acc <> None ->
       exists i j c1 c2, i < j /\ nth_error (pre ++ cols) i = Some c1
                         /\ nth_error (pre ++ cols) j = Some c2
                         /\ k = (c1 ++ "_vs_" ++ c2)%string) ->
    correlation_loop data cols acc = Ok r ->
    forall k, dict_get k r <> None ->
      exists i j c1 c2, i < j /\ nth_error (pre ++ cols) i = Some c1
                        /\ nth_error (pre ++ cols) j = Some c2
                        /\ k = (c1 ++ "_vs_" ++ c2)%string.
Proof.
  induction cols as [|col1 rest IH]; intros pre acc r Hacc H; simpl in H.
  - injection H as <-. assumption.
  - inv_bind H. rename a into mid.
    replace (pre ++ col1 :: rest) with ((pre ++ [col1]) ++ rest) in *
      by (rewrite <- app_assoc; reflexivity).
    apply (IH (pre ++ [col1]) mid r); [|assumption].
    revert E.
    apply (foldM_invariant_In
             (fun d => forall k, dict_get k d <> None ->
                exists i j c1 c2, i < j /\ nth_error ((pre ++ [col1]) ++ rest) i = Some c1
                                  /\ nth_error ((pre ++ [col1]) ++ rest) j = Some c2
                                  /\ k = (c1 ++ "_vs_" ++ c2)%string));
      [|assumption].
    intros s col2 s' Hin Hs Hstep. unfold correlation_pair in Hstep. inv_bind Hstep.
    match type of Hstep with
    | (if ?c then _ else _) = _ => destruct c; [|injection Hstep as <-; assumption]
    end.
    inv_bind Hstep. injection Hstep as <-. intros k Hk. rewrite dict_get_set in Hk.
    match type of Hk with
    | (if String.eqb k ?key then _ else _) <> None =>
        destruct (String.eqb k key) eqn:Ek; [|apply Hs; assumption]
    end.
    apply String.eqb_eq in Ek. subst k.
    apply In_nth_error in Hin. destruct Hin as [j Hj].
    exists (length pre), (length (pre ++ [col1]) + j), col1, col2.
    split; [rewrite length_app; simpl; lia|].
    split; [|split; [|reflexivity]].
    + rewrite <- app_assoc. rewrite nth_error_app2 by lia.
      rewrite Nat.sub_diag. reflexivity.
    + rewrite nth_error_app2 by lia.
      replace (length (pre ++ [col1]) + j - length (pre ++ [col1])) with j by lia.
      assumption.
Qed.

(** X21. In a result of [perform_statistical_tests], a normality test is
    reported only for a column that was given and has more than 3 values
    present, and every correlation test is keyed ['<col1>_vs_<col2>'] with
    [col1] at an earlier position of the columns given than [col2]: a pair
    of positions is tested in one order only, and no position with itself. *)
Theorem statistical_tests_keys {lib : Library} (data : DataFrame)
    (numeric_cols : list string) (normality correlation : dict) :
  entry "statistics" "normality_tests" (perform_statistical_tests data numeric_cols)
    = Some (VDict normality) ->
  entry "statistics" "correlation_tests" (perform_statistical_tests data numeric_cols)
    = Some (VDict correlation) ->
  (forall k, dict_has k normality = true ->
     In k numeric_cols
     /\ exists o, getitem data k = Ok o /\ 3 < len_obj (dropna_obj o))
  /\ (forall k, dict_has k correlation = true ->
        exists i j col1 col2,
          i < j /\ nth_error numeric_cols i = Some col1
          /\ nth_error numeric_cols j = Some col2
          /\ k = (col1 ++ "_vs_" ++ col2)%string).
Proof.
  unfold perform_statistical_tests.
  destruct (length numeric_cols <? 2); [discriminate|].
  destruct (statistical_tests_try data numeric_cols init_results) as [r|e] eqn:E;
    [|discriminate].
  unfold statistical_tests_try in E. inv_bind E. injection E as <-.
  rename a into nr, a0 into cr.
  intros Hn Hc.
  match type of Hn with
  | entry _ _ ?big = _ =>
      assert (Hn' : entry "statistics" "normality_tests" big = Some (VDict nr))
        by reflexivity;
      assert (Hc' : entry "statistics" "correlation_tests" big = Some (VDict cr))
        by reflexivity
  end.
  rewrite Hn' in Hn. rewrite Hc' in Hc. injection Hn as <-. injection Hc as <-.
  split.
  - intros k Hk. apply (normality_column_keys data numeric_cols nr E0).
    unfold dict_has in Hk. destruct (dict_get k nr); congruence.
  - intros k Hk.
    apply (correlation_loop_keys data numeric_cols [] [] cr); [|assumption|].
    + intros k0 Hk0. simpl in Hk0. congruence.
    + unfold dict_has in Hk. destruct (dict_get k cr); congruence.
Qed.

Lemma statistical_tests_keys_witness :
  exists normality correlation,
    entry "statistics" "normality_tests"
      (perform_statistical_tests (lib := example_library) (pd_DataFrame monthly_sales)
         ["month"; "sales"; "returns"]) = Some (VDict normality)
    /\ dict_has "sales" normality = true
    /\ dict_has "month_vs_sales" correlation = true
    /\ In "sales" ["month"; "sales"; "returns"].
Proof.
  assert (H : exists normality correlation,
             entry "statistics" "normality_tests"
               (perform_statistical_tests (lib := example_library)
                  (pd_DataFrame monthly_sales) ["month"; "sales"; "returns"])
             = Some (VDict normality)
             /\ entry "statistics" "correlation_tests"
                  (perform_statistical_tests (lib := example_library)
                     (pd_DataFrame monthly_sales) ["month"; "sales"; "returns"])
                = Some (VDict correlation)
             /\ dict_has "sales" normality = true
             /\ dict_has "month_vs_sales" correlation = true)
    by (do 2 eexists; repeat split; reflexivity).
  destruct H as [normality [correlation [Hn [Hc [Hs Hp]]]]].
  exists normality, correlation.
  split; [exact Hn|]. split; [exact Hs|]. split; [exact Hp|].
  destruct (statistical_tests_keys (lib := example_library) (pd_DataFrame monthly_sales)
              ["month"; "sales"; "returns"] normality correlation Hn Hc) as [Hnorm _].
  apply (Hnorm "sales" Hs).
Defined.

(** * The columns analysed, the forecast band and the model comparison *)

(** ** The columns analysed *)






(** ** The forecast band *)

Lemma numbers_observed (vals : list cell) (xs : list R) :
  numbers vals = Ok xs -> xs = observed vals.
Proof.
  revert xs. induction vals as [|c vals IH]; intros xs H; simpl in H.
  - injection H as <-. reflexivity.
  - destruct c as [r| |]; [| discriminate |].
    + unfold bind in H. destruct (numbers vals) as [rs|]; [|discriminate].
      injection H as <-. simpl. rewrite (IH rs eq_refl). reflexivity.
    + simpl. apply IH. assumption.
Qed.

Lemma dropna_values (s : Series) :
  length (s_index s) = length (s_values s) ->
  s_values (dropna s) = filter (fun c => negb (is_null c)) (s_values s)
  /\ length (s_index (dropna s)) = length (s_values (dropna s)).
Proof.
  unfold dropna. cbn [s_values s_index]. rewrite !length_map.
  intros Hlen. split; [|reflexivity].
  revert Hlen. generalize (s_index s) as idx. generalize (s_values s) as vals.
  induction vals as [|c vals IH];
    intros [|i idx] Hlen; simpl in *; try reflexivity; try discriminate.
  destruct (negb (is_null c)); simpl; rewrite IH by lia; reflexivity.
Qed.

Lemma observed_present (vals : list cell) :
  observed (filter (fun c => negb (is_null c)) vals) = observed vals.
Proof.
  induction vals as [|c vals IH]; [reflexivity|].
  destruct c; simpl; rewrite ?IH; reflexivity.
Qed.

Lemma numbers_present_length (vals : list cell) (xs : list R) :
  numbers (filter (fun c => negb (is_null c)) vals) = Ok xs ->
  length xs = length (filter (fun c => negb (is_null c)) vals).
Proof.
  revert xs. induction vals as [|c vals IH]; intros xs H; simpl in *.
  - injection H as <-. reflexivity.
  - destruct c as [r|t|]; simpl in *.
    + unfold bind in H. destruct (numbers _) as [rs|]; [|discriminate].
      injection H as <-. simpl. rewrite (IH rs eq_refl). reflexivity.
    + discriminate.
    + apply IH. assumption.
Qed.

Lemma residuals_by_position (f : R -> R -> R) (ys : list R) (a : nat) :
  map (fun yx => f (fst yx) (snd yx)) (zip ys (map INR (seq a (length ys))))
  = map (fun jy => f (snd jy) (INR (fst jy))) (zip (seq a (length ys)) ys).
Proof.
  revert a. induction ys as [|y ys IH]; intros a; simpl; [reflexivity|].
  rewrite IH. reflexivity.
Qed.

(** C4, as amended. For every forecast that succeeds (a result without
    ['error']) the upper and the lower bound of every forecasted period are
    the point forecast plus and minus one and the same margin: 1.96 times the
    root of the mean squared residual of the fitted line over the values
    present in the target column, value [j] (from 0) having the residual
    [y - (slope * j + intercept)]. With floats taken as real numbers both
    differences equal that margin; in binary64 the two sums round
    separately and the differences need not be equal. *)
Theorem forecast_band_symmetric {lib : Library} (data_json : list record)
    (target_column : string) (periods : Z) (result : dict) :
  run_time_series_forecast (init data_json) target_column periods = Ok result ->
  dict_has "error" result = false ->
  exists s lr,
    In (target_column, s) (df_columns (pd_DataFrame data_json))
    /\ stats_linregress (arange 0 (length (observed (s_values s)))) (PSeries (dropna s))
       = Ok lr
    /\ band_around result (Z.to_nat periods)
         (1.96 * sqrt (Rsum (map (fun jy =>
                                    (snd jy - (slope lr * INR (fst jy) + intercept lr))
                                    * (snd jy - (slope lr * INR (fst jy) + intercept lr)))
                                 (enumerate (observed (s_values s))))
                       / INR (length (observed (s_values s)))))%R.
Proof.
  intros H Hne. unfold run_time_series_forecast, init in H. cbn [df] in H.
  destruct (negb (mem target_column (columns_of (pd_DataFrame data_json)))) eqn:Et;
    [injection H as <-; discriminate|].
  apply negb_false_iff, mem_In in Et.
  destruct (In_columns_of _ _ Et) as [s Hs].
  rewrite (getitem_unique _ _ s (pd_DataFrame_NoDup data_json) Hs) in H. cbn [bind] in H.
  destruct (len_obj (dropna_obj (PSeries s)) <? 3); [injection H as <-; discriminate|].
  unfold bind in H.
  destruct (stats_linregress _ _) as [lr|] eqn:Elr; [|discriminate].
  destruct (residuals_of _ _ _) as [residuals0|] eqn:Eres; [|discriminate].
  destruct (tolist_obj _) as [historical|] eqn:Ehist; [|discriminate].
  injection H as <-.
  destruct (dropna_values s (pd_DataFrame_column_lengths _ _ _ Hs)) as [Hvals Hlen].
  cbn [dropna_obj residuals_of] in Eres. unfold bind in Eres.
  destruct (numbers (s_values (dropna s))) as [ys|] eqn:Enum; [|discriminate].
  injection Eres as <-.
  rewrite Hvals in Enum.
  pose proof (numbers_present_length _ _ Enum) as Hys.
  apply numbers_observed in Enum. rewrite observed_present in Enum. subst ys.
  set (ys := observed (s_values s)) in *.
  assert (Hn : len_series (dropna s) = length ys).
  { unfold len_series. rewrite Hlen, Hvals. symmetry. assumption. }
  cbn [len_obj dropna_obj] in *. rewrite Hn in *.
  exists s, lr. split; [assumption|]. split; [assumption|].
  clear Hne. unfold arange.
  rewrite (residuals_by_position
             (fun y x => (y - (slope lr * x + intercept lr))%R) ys 0).
  fold (enumerate ys).
  set (residuals := map (fun jy => (snd jy - (slope lr * INR (fst jy) + intercept lr))%R)
                        (enumerate ys)).
  assert (Hres : lenR residuals = INR (length ys)).
  { unfold lenR, residuals, enumerate. rewrite length_map. f_equal.
    clear. generalize 0. induction ys as [|y ys IH]; intros a; simpl; [reflexivity|].
    rewrite IH. reflexivity. }
  rewrite Hres.
  replace (map (fun jy => ((snd jy - (slope lr * INR (fst jy) + intercept lr))
                           * (snd jy - (slope lr * INR (fst jy) + intercept lr)))%R)
               (enumerate ys))
    with (map (fun r => (r * r)%R) residuals)
    by (unfold residuals; rewrite map_map; reflexivity).
  set (margin := (1.96 * sqrt (Rsum (map (fun r => r * r) residuals) / INR (length ys)))%R).
  set (forecast := map (fun fx => (slope lr * fx + intercept lr)%R)
                       (map INR (seq (length ys) (Z.to_nat periods)))).
  assert (Hflen : length forecast = Z.to_nat periods).
  { unfold forecast. rewrite !length_map, length_seq. reflexivity. }
  exists forecast,
    (map (fun f => (f + 1.96 * sqrt (Rsum (map (fun r => r * r) residuals)
                                      / INR (length ys)))%R) forecast),
    (map (fun f => (f - 1.96 * sqrt (Rsum (map (fun r => r * r) residuals)
                                      / INR (length ys)))%R) forecast).
  repeat (split; [first [reflexivity | rewrite length_map; assumption | assumption]|]).
  intros i Hi. rewrite <- Hflen in Hi.
  rewrite (nth_map_lt _ forecast i 0%R 0%R Hi).
  rewrite (nth_map_lt _ forecast i 0%R 0%R Hi).
  fold margin.
  match goal with
  | |- _ = ?rhs /\ _ =>
      assert (Hm : rhs = margin)
        by (unfold margin, residuals, ys; rewrite map_map; reflexivity);
      rewrite Hm
  end.
  split; ring.
Qed.

Lemma forecast_band_symmetric_witness :
  exists result,
    run_time_series_forecast (lib := example_library) (init noisy) "v" 2 = Ok result
    /\ dict_has "error" result = false
    /\ band_around result 2 (1.96 * sqrt (1 / 2))%R.
Proof.
  assert (H : exists result,
             run_time_series_forecast (lib := example_library) (init noisy) "v" 2
             = Ok result
             /\ dict_has "error" result = false)
    by (eexists; split; reflexivity).
  destruct H as [result [Hrun Hne]]. exists result.
  split; [exact Hrun|]. split; [exact Hne|].
  destruct (forecast_band_symmetric (lib := example_library) noisy "v" 2 result Hrun Hne)
    as [s [lr [Hs [Hlr Hband]]]].
  simpl in Hs. destruct Hs as [Hs|[]]. injection Hs as <-.
  cbn [s_values observed flat_map app length] in Hlr, Hband.
  injection Hlr as <-.
  match type of Hband with
  | band_around _ _ (1.96 * sqrt ?e)%R =>
      replace e with (1 / 2)%R in Hband; [exact Hband|]
  end.
  cbv [slope intercept enumerate zip seq map Rsum fold_right length INR fst snd
       co_dev lenR arange].
  lra.
Defined.

(** C4 as stated fails in the arithmetic of the program: for the target
    values 1, 3, 2 the fitted line has slope 1/2 and intercept 3/2, and in
    binary64 the first upper bound lies 1.3859292911256329 above the
    forecast while the lower bound lies 1.3859292911256331 below it. *)
Lemma forecast_band_rounds :
  stats_linregress (Library := example_library) (arange 0 3)
    (PSeries (mkSeries Numeric (seq 0 3) [CNum 1; CNum 3; CNum 2]))
  = Ok (mkLinreg (1 / 2) (3 / 2) 0 0 0)
  /\ let f := Binary64.float_of_nat in
     let b := Binary64.forecast_band [f 1; f 3; f 2]
                (PrimFloat.div (f 1) (f 2)) (PrimFloat.div (f 3) (f 2)) 2 in
     PrimFloat.ltb (Binary64.above b 0) (Binary64.below b 0) = true
     /\ PrimFloat.eqb (Binary64.above b 0) (Binary64.below b 0) = false.
Proof.
  split.
  - simpl. f_equal. f_equal;
      cbv [zip seq map Rsum fold_right length INR fst snd co_dev lenR arange]; lra.
  - split; reflexivity.
Qed.

(** ** The models of the regression *)

Lemma fillna_mean_imputed (s s' : Series) :
  fillna_mean s = Ok s' -> s' = imputed s.
Proof.
  unfold fillna_mean, imputed, mean_imputed. intros H. inv_bind H.
  apply numbers_observed in E. subst a.
  destruct (observed (s_values s)) as [|x xs] eqn:Eo; simpl in H.
  - injection H as <-. destruct s; reflexivity.
  - injection H as <-. reflexivity.
Qed.

Lemma lookup_label_nonempty (f : DataFrame) (k : string) :
  NoDup (columns_of f) -> lookup_label f k <> [] ->
  exists s, In (k, s) (df_columns f) /\ lookup_label f k = [(k, s)].
Proof.
  intros Hnd Hne. destruct (lookup_label f k) as [|[k' s] cs] eqn:E; [congruence|].
  assert (Hin : In (k', s) (lookup_label f k)) by (rewrite E; left; reflexivity).
  unfold lookup_label in Hin. apply filter_In in Hin. destruct Hin as [Hin Hk].
  simpl in Hk. apply String.eqb_eq in Hk. subst k'.
  exists s. split; [assumption|]. rewrite <- E.
  apply lookup_label_unique; assumption.
Qed.

(** On a frame with unique labels a successful selection holds one column
    per label asked for, in the order asked. *)
Lemma getitem_list_columns (f : DataFrame) (labels : list string) (X : DataFrame) :
  NoDup (columns_of f) ->
  getitem_list f labels = Ok X ->
  df_index X = df_index f
  /\ Forall2 (fun k c => fst c = k /\ In c (df_columns f)) labels (df_columns X).
Proof.
  intros Hnd H. unfold getitem_list in H. inv_bind H. injection H as <-.
  split; [reflexivity|]. cbn [df_columns].
  apply mapM_Forall2 in E. induction E as [|k cs labels css Hk _ IH]; [constructor|].
  destruct (lookup_label f k) as [|c0 cs0] eqn:El; [discriminate|].
  injection Hk as <-.
  destruct (lookup_label_nonempty f k Hnd) as [s [Hin Hl]]; [rewrite El; discriminate|].
  rewrite El in Hl. rewrite Hl. simpl. constructor; [|assumption].
  split; [reflexivity|assumption].
Qed.

Lemma fillna_mean_df_columns (X0 X : DataFrame) :
  fillna_mean_df X0 = Ok X ->
  df_index X = df_index X0
  /\ Forall2 (fun c0 c => fst c = fst c0 /\ snd c = imputed (snd c0))
             (df_columns X0) (df_columns X).
Proof.
  intros H. unfold fillna_mean_df in H. inv_bind H. injection H as <-.
  split; [reflexivity|]. cbn [df_columns].
  apply mapM_Forall2 in E. induction E as [|c0 c cols0 cols Hc _ IH]; [constructor|].
  constructor; [|assumption].
  inv_bind Hc. injection Hc as <-. split; [reflexivity|].
  apply fillna_mean_imputed. assumption.
Qed.

Lemma Forall2_compose {A B C : Type} (P : A -> B -> Prop) (Q : B -> C -> Prop)
    (R : A -> C -> Prop) (la : list A) (lb : list B) (lc : list C) :
  (forall a b c, P a b -> Q b c -> R a c) ->
  Forall2 P la lb -> Forall2 Q lb lc -> Forall2 R la lc.
Proof.
  intros H HP. revert lc. induction HP as [|a b la lb Hab _ IH]; intros lc HQ.
  - inversion HQ. constructor.
  - inversion HQ as [|b' c lb' lc' Hbc HQ']; subst. constructor; eauto.
Qed.

(** C6. A regression that succeeds (a result without ['error']) has fitted
    a random forest and a linear model on the same pair: the feature columns
    of the dataset, in the order given, and the target column, each with
    every missing value replaced by the mean of the values present in that
    column; both are scored on that same training data, and
    ['model_comparison'] names the random forest when its score is the
    greater and the linear model otherwise (a tie or a NaN included). *)
Theorem regression_compares_both_models {lib : Library} (data_json : list record)
    (target_column : string) (feature_columns : option (list string)) (result : dict) :
  run_regression_analysis (init data_json) target_column feature_columns = Ok result ->
  dict_has "error" result = false ->
  let data := pd_DataFrame data_json in
  let features :=
    match feature_columns with
    | None => filter (fun col => negb (String.eqb col target_column))
                     (numeric_columns data)
    | Some cols => cols
    end in
  exists X y0 rf_model lr_model rf_pred lr_pred rf_r2 lr_r2,
    df_index X = df_index data
    /\ Forall2 (fun k c => fst c = k
                           /\ exists s, In (k, s) (df_columns data) /\ snd c = imputed s)
               features (df_columns X)
    /\ In (target_column, y0) (df_columns data)
    /\ RandomForestRegressor_fit X (PSeries (imputed y0)) = Ok rf_model
    /\ LinearRegression_fit X (PSeries (imputed y0)) = Ok lr_model
    /\ rf_predict rf_model X = Ok rf_pred
    /\ lr_predict lr_model X = Ok lr_pred
    /\ r2_score (PSeries (imputed y0)) rf_pred = Ok rf_r2
    /\ r2_score (PSeries (imputed y0)) lr_pred = Ok lr_r2
    /\ dict_get "random_forest_r2" result = Some (vfloat rf_r2)
    /\ dict_get "linear_regression_r2" result = Some (vfloat lr_r2)
    /\ (f_gt rf_r2 lr_r2 = true ->
        dict_get "model_comparison" result = Some (VStr "Random Forest"))
    /\ (f_gt rf_r2 lr_r2 = false ->
        dict_get "model_comparison" result = Some (VStr "Linear Regression"))
    /\ (f_gt lr_r2 rf_r2 = true ->
        dict_get "model_comparison" result = Some (VStr "Linear Regression")).
Proof.
  intros H Hne data features. unfold run_regression_analysis, init in H. cbn [df] in H.
  fold data in H.
  destruct (negb (mem target_column (columns_of data))) eqn:Et;
    [injection H as <-; discriminate|].
  fold features in H.
  destruct (length features =? 0); [injection H as <-; discriminate|].
  inv_bind H. injection H as <-.
  rename a into X0, a0 into X, a1 into y0', a2 into y, a3 into rf_model,
    a4 into lr_model, a5 into rf_pred, a6 into lr_pred, a7 into rf_r2, a8 into lr_r2.
  pose proof (pd_DataFrame_NoDup data_json) as Hnd. fold data in Hnd.
  destruct (getitem_list_columns data features X0 Hnd E) as [Hidx0 Hcols0].
  destruct (fillna_mean_df_columns X0 X E0) as [Hidx Hcols].
  apply negb_false_iff, mem_In in Et.
  destruct (In_columns_of data target_column Et) as [y0 Hy0].
  rewrite (getitem_unique data target_column y0 Hnd Hy0) in E1. injection E1 as <-.
  simpl in E2. inv_bind E2. injection E2 as <-.
  apply fillna_mean_imputed in E1. subst a.
  exists X, y0, rf_model, lr_model, rf_pred, lr_pred, rf_r2, lr_r2.
  split; [congruence|]. split.
  { refine (Forall2_compose _ _ _ _ _ _ _ Hcols0 Hcols).
    intros k c0 c [Hk Hin] [Hf Hs]. split; [congruence|].
    exists (snd c0). split; [|assumption]. rewrite <- Hk. destruct c0; assumption. }
  do 7 (split; [assumption|]).
  split; [reflexivity|]. split; [reflexivity|]. split; [|split].
  - intros Hgt. simpl. rewrite Hgt. reflexivity.
  - intros Hgt. simpl. rewrite Hgt. reflexivity.
  - intros Hgt. simpl. rewrite (f_gt_asym _ _ Hgt). reflexivity.
Qed.

Lemma vfloat_Some_inj (x : pyfloat) (r : R) : vfloat x = VFloat r -> x = Some r.
Proof. destruct x as [a|]; simpl; intros H; [injection H as ->; reflexivity|discriminate]. Qed.

Lemma regression_compares_both_models_witness :
  exists forest_wins linear_wins y0,
    run_regression_analysis (lib := stand_in_library true false) (init homes) "price" None
    = Ok forest_wins
    /\ dict_get "model_comparison" forest_wins = Some (VStr "Random Forest")
    /\ run_regression_analysis (lib := stand_in_library false true) (init homes) "price" None
       = Ok linear_wins
    /\ dict_get "model_comparison" linear_wins = Some (VStr "Linear Regression")
    /\ In ("price", y0) (df_columns (pd_DataFrame homes))
    /\ s_values (imputed y0) = [CNum 10; CNum ((10 + (30 + 0)) / INR 2); CNum 30].
Proof.
  assert (H1 : exists result r1 r2,
             run_regression_analysis (lib := stand_in_library true false) (init homes)
               "price" None = Ok result
             /\ dict_has "error" result = false
             /\ dict_get "random_forest_r2" result = Some (VFloat r1)
             /\ dict_get "linear_regression_r2" result = Some (VFloat r2)
             /\ (r1 > r2)%R).
  { do 3 eexists. split; [reflexivity|]. split; [reflexivity|].
    split; [reflexivity|]. split; [reflexivity|].
    cbv [r_squared Rsum lenR map zip fold_right length INR fst snd]. lra. }
  assert (H2 : exists result r1 r2,
             run_regression_analysis (lib := stand_in_library false true) (init homes)
               "price" None = Ok result
             /\ dict_has "error" result = false
             /\ dict_get "random_forest_r2" result = Some (VFloat r1)
             /\ dict_get "linear_regression_r2" result = Some (VFloat r2)
             /\ (r2 > r1)%R).
  { do 3 eexists. split; [reflexivity|]. split; [reflexivity|].
    split; [reflexivity|]. split; [reflexivity|].
    cbv [r_squared Rsum lenR map zip fold_right length INR fst snd]. lra. }
  destruct H1 as [forest_wins [r1 [r2 [Hrun1 [Hne1 [Hrf1 [Hlr1 Hgt1]]]]]]].
  destruct H2 as [linear_wins [r1' [r2' [Hrun2 [Hne2 [Hrf2 [Hlr2 Hgt2]]]]]]].
  destruct (regression_compares_both_models (lib := stand_in_library true false)
              homes "price" None forest_wins Hrun1 Hne1)
    as [X [y0 [rf [lr [rfp [lrp [rf_r2 [lr_r2
        [_ [_ [Hy0 [_ [_ [_ [_ [_ [_ [Hd1 [Hd2 [Hforest _]]]]]]]]]]]]]]]]]]]].
  destruct (regression_compares_both_models (lib := stand_in_library false true)
              homes "price" None linear_wins Hrun2 Hne2)
    as [X' [y0' [rf' [lr' [rfp' [lrp' [rf_r2' [lr_r2'
        [_ [_ [_ [_ [_ [_ [_ [_ [_ [Hd1' [Hd2' [_ [_ Hlinear]]]]]]]]]]]]]]]]]]]]].
  rewrite Hrf1 in Hd1. rewrite Hlr1 in Hd2. rewrite Hrf2 in Hd1'. rewrite Hlr2 in Hd2'.
  injection Hd1 as Hd1. injection Hd2 as Hd2.
  injection Hd1' as Hd1'. injection Hd2' as Hd2'.
  symmetry in Hd1, Hd2, Hd1', Hd2'.
  apply vfloat_Some_inj in Hd1, Hd2, Hd1', Hd2'. subst rf_r2 lr_r2 rf_r2' lr_r2'.
  exists forest_wins, linear_wins, y0.
  split; [exact Hrun1|]. split.
  { apply Hforest. simpl. unfold Rgtb. destruct (Rgt_dec r1 r2); [reflexivity|contradiction]. }
  split; [exact Hrun2|]. split.
  { apply Hlinear. simpl. unfold Rgtb. destruct (Rgt_dec r2' r1'); [reflexivity|contradiction]. }
  split; [exact Hy0|].
  simpl in Hy0. destruct Hy0 as [Hy|[Hy|[Hy|[]]]]; try discriminate Hy.
  injection Hy as <-. reflexivity.
Defined.
